(** * LocalStatusSQLite: the SQLite backend of the local status cache

    A shallow embedding of [offlineimap/folder/LocalStatusSQLite.py].

    - Python strings are [string]s of 8-bit code points; [sorted], [strip],
      [split(',')], [join] and [int] are written out below.
    - The SQLite file is a [Database]: the [metadata] table and the [status]
      table, whose rows are keyed by the INTEGER PRIMARY KEY [id] and map the
      other column names to values.
    - A folder object is a [Folder] record; what is shared between folder
      objects (the class attribute [locks], the database files, the answers of
      the store, the calls made so far) is the [World].
    - Methods are functions [St -> Result A] with [St = World * Folder]; they
      return [Ok], [Raise] an exception with the state reached so far, stay
      [Blocked] on a lock that is never released, or run [OutOfFuel] in the
      retry loop of [__sql_write]. *)

From Stdlib Require Import ZArith Ascii String.
From stdpp Require Import base gmap strings list fin_maps sorting pretty.

Local Open Scope Z_scope.

(** ** Python strings *)

Module PyStr.

(** [str.isspace] of Python 3 on the code points below 256. *)
Definition isspace (c : ascii) : bool :=
  let n := N_of_ascii c in
  ((9 <=? n) && (n <=? 13) || (28 <=? n) && (n <=? 32)
   || (n =? 133) || (n =? 160))%N.

Fixpoint lstrip (s : string) : string :=
  match s with
  | EmptyString => EmptyString
  | String c s' => if isspace c then lstrip s' else s
  end.

Fixpoint rstrip (s : string) : string :=
  match s with
  | EmptyString => EmptyString
  | String c s' =>
      match rstrip s' with
      | EmptyString => if isspace c then EmptyString else String c EmptyString
      | r => String c r
      end
  end.

(** [s.strip()] *)
Definition strip (s : string) : string := rstrip (lstrip s).

(** [s.split(sep)] for a one-character separator: never the empty list. *)
Fixpoint split (sep : ascii) (s : string) : list string :=
  match s with
  | EmptyString => [EmptyString]
  | String c s' =>
      if decide (c = sep) then EmptyString :: split sep s'
      else match split sep s' with
           | [] => [String c EmptyString]
           | p :: ps => String c p :: ps
           end
  end.

(** [sep.join(l)] *)
Fixpoint join (sep : string) (l : list string) : string :=
  match l with
  | [] => EmptyString
  | [x] => x
  | x :: l' => x +:+ sep +:+ join sep l'
  end.

(** [sorted(l)] on strings: code-point lexicographic order. *)
Definition sorted (l : list string) : list string := merge_sort String.le l.

(** [set(s)] for a string [s]: the set of its one-character substrings. *)
Fixpoint chars (s : string) : list string :=
  match s with
  | EmptyString => []
  | String c s' => String c EmptyString :: chars s'
  end.

(** [len(s)] *)
Definition len (s : string) : nat := String.length s.

(** The digits of [int(s)]: decimal digits, single underscores between
    digits. *)
Fixpoint digits_go (acc : Z) (after_digit : bool) (s : string) : option Z :=
  match s with
  | EmptyString => if after_digit then Some acc else None
  | String c s' =>
      match Ascii.is_nat c with
      | Some d => digits_go (10 * acc + Z.of_nat d) true s'
      | None =>
          if decide (c = "_"%char) then
            if after_digit then digits_go acc false s' else None
          else None
      end
  end.

(** [int(s)] for a string: [None] stands for [ValueError]. *)
Definition int (s : string) : option Z :=
  match strip s with
  | String "-" d => Z.opp <$> digits_go 0 false d
  | String "+" d => digits_go 0 false d
  | d => digits_go 0 false d
  end.

End PyStr.

(** ** Values, exceptions, the database *)

(** What a column of a row holds, and what Python gets back for it. *)
Inductive value := VNull | VInt (z : Z) | VText (s : string).

Global Instance value_eq_dec : EqDecision value.
Proof. solve_decision. Defined.

Inductive exn :=
  | OperationalError (msg : string)
  | IntegrityError (msg : string)
  | ProgrammingError (msg : string)
  | DatabaseError (msg : string)
  | AttributeError
  | TypeError
  | ValueError
  | KeyError (k : Z)
  | AssertionError
  | OverflowError (msg : string)
  | UserWarning (msg : string).

Global Instance exn_eq_dec : EqDecision exn.
Proof. solve_decision. Defined.

(** [str(e)] *)
Definition exn_str (e : exn) : string :=
  match e with
  | OperationalError m | IntegrityError m | ProgrammingError m
  | DatabaseError m | OverflowError m | UserWarning m => m
  | AttributeError => "AttributeError"
  | TypeError => "TypeError"
  | ValueError => "ValueError"
  | KeyError k => pretty k
  | AssertionError => ""
  end.

(** [except sqlite.DatabaseError]: the class and its subclasses. *)
Definition is_DatabaseError (e : exn) : bool :=
  match e with
  | OperationalError _ | IntegrityError _ | ProgrammingError _
  | DatabaseError _ => true
  | _ => false
  end.

(** The [status] table: the columns besides [id], each with its DEFAULT, and
    the rows by [id]. *)
Record table := {
  t_cols : list (string * value);
  t_rows : gmap Z (gmap string value)
}.

(** A database file: a table that does not exist is [None]. *)
Record Database := {
  metadata : option (gmap string string);
  status : option table
}.

Definition empty_db : Database := {| metadata := None; status := None |}.

Definition has_col (t : table) (c : string) : bool :=
  bool_decide (c ∈ (t_cols t).*1).

(** The statements handed to [__sql_write]; [?] parameters are [params]. *)
Inductive stmt :=
  | Insert (replace : bool) (cols : list string)
      (* INSERT [OR REPLACE] INTO status (id,cols) VALUES (?,..) *)
  | Update (cols : list string)
      (* UPDATE status SET c=?,.. WHERE id=? *)
  | Delete.
      (* DELETE FROM status WHERE id=? *)

Global Instance stmt_eq_dec : EqDecision stmt.
Proof. solve_decision. Defined.

(** The tuple bound to the [?]s: the [id] and the values of the columns. *)
Record params := { p_id : Z; p_vals : list value }.

Global Instance params_eq_dec : EqDecision params.
Proof. solve_decision. Defined.

(** The row an INSERT builds: the DEFAULT of every column, then the values
    given. *)
Definition new_row (t : table) (cols : list string) (vals : list value)
  : gmap string value :=
  list_to_map (zip cols vals) ∪ list_to_map (t_cols t).

Definition set_cols (cols : list string) (vals : list value)
  (r : gmap string value) : gmap string value :=
  list_to_map (zip cols vals) ∪ r.

(** SQLite keeps an integer in 64 bits, signed: these are the integers that
    the [sqlite3] module binds to a [?]; for any other it raises
    [OverflowError]. A string and [None] are always bound. *)
Definition int64 (z : Z) : Prop := - 2 ^ 63 ≤ z < 2 ^ 63.

Global Instance int64_dec z : Decision (int64 z).
Proof. unfold int64. apply _. Defined.

Definition bindable_value (v : value) : bool :=
  match v with
  | VInt z => bool_decide (int64 z)
  | VNull | VText _ => true
  end.

(** The tuple can be bound: its [id] and its values. *)
Definition bindable (p : params) : bool :=
  bool_decide (int64 (p_id p)) && forallb bindable_value (p_vals p).

Definition too_large : exn :=
  OverflowError "Python int too large to convert to SQLite INTEGER".

(** One statement on the database, as [execute] runs it for one tuple: the
    statement is compiled (the table and the columns must be there), the
    tuple is bound (it must have as many values as there are [?]s, and its
    integers must fit in 64 bits), and the statement is stepped. *)
Definition run_stmt (sql : stmt) (p : params) (db : Database)
  : exn + Database :=
  match status db with
  | None => inl (OperationalError "no such table: status")
  | Some t =>
      let upd rows := inr {| metadata := metadata db;
                             status := Some {| t_cols := t_cols t;
                                               t_rows := rows |} |} in
      match sql with
      | Insert replace cols =>
          if negb (forallb (has_col t) cols) then
            inl (OperationalError "table status has no such column")
          else if negb (bool_decide (length cols = length (p_vals p))) then
            inl (ProgrammingError "Incorrect number of bindings supplied")
          else if negb (bindable p) then inl too_large
          else if negb replace && bool_decide (is_Some (t_rows t !! p_id p))
          then inl (IntegrityError "UNIQUE constraint failed: status.id")
          else upd (<[p_id p := new_row t cols (p_vals p)]> (t_rows t))
      | Update cols =>
          if negb (forallb (has_col t) cols) then
            inl (OperationalError "no such column")
          else if negb (bool_decide (length cols = length (p_vals p))) then
            inl (ProgrammingError "Incorrect number of bindings supplied")
          else if negb (bindable p) then inl too_large
          else upd (alter (set_cols cols (p_vals p)) (p_id p) (t_rows t))
      | Delete =>
          if negb (bool_decide (p_vals p = [])) then
            inl (ProgrammingError "Incorrect number of bindings supplied")
          else if negb (bindable p) then inl too_large
          else upd (delete (p_id p) (t_rows t))
      end
  end.

(** [executemany]: the statement once per tuple, each bound and stepped in
    its turn; the rows done before a failing one stay done. *)
Fixpoint run_many (sql : stmt) (ps : list params) (db : Database)
  : option exn * Database :=
  match ps with
  | [] => (None, db)
  | p :: ps' =>
      match run_stmt sql p db with
      | inl e => (Some e, db)
      | inr db' => run_many sql ps' db'
      end
  end.

(** The statements of the two scripts. *)
Inductive ddl :=
  | CreateMetadata
      (* CREATE TABLE metadata (key VARCHAR(50) PRIMARY KEY, value VARCHAR(128)) *)
  | InsertVersion (v : string)
      (* INSERT INTO metadata VALUES('db_version', v) *)
  | CreateStatus
      (* CREATE TABLE status (id INTEGER PRIMARY KEY, flags VARCHAR(50),
         mtime INTEGER, labels VARCHAR(256)) *)
  | AlterAdd (col : string) (dflt : value)
      (* ALTER TABLE status ADD col .. DEFAULT dflt *)
  | SetVersion (v : string).
      (* UPDATE metadata SET value=v WHERE key='db_version' *)

Global Instance ddl_eq_dec : EqDecision ddl.
Proof. solve_decision. Defined.

Definition run_ddl (d : ddl) (db : Database) : exn + Database :=
  match d with
  | CreateMetadata =>
      match metadata db with
      | Some _ => inl (OperationalError "table metadata already exists")
      | None => inr {| metadata := Some ∅; status := status db |}
      end
  | InsertVersion v =>
      match metadata db with
      | None => inl (OperationalError "no such table: metadata")
      | Some m =>
          if bool_decide (is_Some (m !! "db_version")) then
            inl (IntegrityError "UNIQUE constraint failed: metadata.key")
          else inr {| metadata := Some (<["db_version" := v]> m);
                      status := status db |}
      end
  | CreateStatus =>
      match status db with
      | Some _ => inl (OperationalError "table status already exists")
      | None =>
          inr {| metadata := metadata db;
                 status := Some {| t_cols := [("flags", VNull);
                                              ("mtime", VNull);
                                              ("labels", VNull)];
                                   t_rows := ∅ |} |}
      end
  | AlterAdd col dflt =>
      match status db with
      | None => inl (OperationalError "no such table: status")
      | Some t =>
          if has_col t col || bool_decide (col = "id") then
            inl (OperationalError ("duplicate column name: " +:+ col))
          else
            inr {| metadata := metadata db;
                   status := Some {| t_cols := t_cols t ++ [(col, dflt)];
                                     t_rows := <[col := dflt]> <$> t_rows t |}
                |}
      end
  | SetVersion v =>
      match metadata db with
      | None => inl (OperationalError "no such table: metadata")
      | Some m =>
          inr {| metadata := Some (alter (λ _, v) "db_version" m);
                 status := status db |}
      end
  end.

(** ** The world and the folder object *)

(** [DatabaseFileLock]: [_lock] is held or not, [_counter] counts the users. *)
Record DatabaseFileLock := { _lock : bool; _counter : Z }.

(** [DatabaseFileLock.__init__] *)
Definition DatabaseFileLock_init : DatabaseFileLock :=
  {| _lock := false; _counter := 0 |}.

(** A connection object of [sqlite3]: the file it is on, whether [close()]
    was called, and the changes not yet committed (the database as this
    connection sees it while a transaction is open). *)
Record Connection := {
  c_path : string;
  c_closed : bool;
  c_txn : option Database
}.

(** The calls made on connections and on the ui, latest first. *)
Inductive event :=
  | EvConnect (path : string)
  | EvSelect (query : string)
  | EvExecute (sql : stmt) (p : params)
  | EvExecuteMany (sql : stmt) (ps : list params)
  | EvScript (script : list ddl)
  | EvCommit
  | EvClose
  | EvDebug (m : string)
  | EvMsg (m : string).

Global Instance event_eq_dec : EqDecision event.
Proof. solve_decision. Defined.

(** What folder objects share. [faults] is what the store answers to the
    coming calls ([None] or no entry: the call goes through; [Some e]: it
    raises [e]); [threadsafety] is [sqlite.threadsafety]. *)
Record World := {
  locks : gmap string DatabaseFileLock;
  files : gmap string Database;
  faults : list (option exn);
  trace : list event;
  threadsafety : Z
}.

(** An entry of [self.messagelist]. *)
Record msg := {
  uid : Z;
  flags : gset string;
  labels : gset string;
  time : Z;
  mtime : value
}.

(** The attributes of a [LocalStatusSQLiteFolder] that the methods use.
    [_databaseFileLock] is [locks[filename]]: entries of [locks] are never
    replaced, so the reference is the key. *)
Record Folder := {
  filename : string;
  fsync : bool;
  connection : option Connection;
  _in_transactions : Z;
  messagelist : gmap Z msg;
  _newfolder : bool
}.

Definition St : Type := World * Folder.

Definition set_locks (l : gmap string DatabaseFileLock) (w : World) : World :=
  {| locks := l; files := files w; faults := faults w; trace := trace w;
     threadsafety := threadsafety w |}.
Definition set_files (fs : gmap string Database) (w : World) : World :=
  {| locks := locks w; files := fs; faults := faults w; trace := trace w;
     threadsafety := threadsafety w |}.
Definition set_faults (l : list (option exn)) (w : World) : World :=
  {| locks := locks w; files := files w; faults := l; trace := trace w;
     threadsafety := threadsafety w |}.
Definition set_trace (t : list event) (w : World) : World :=
  {| locks := locks w; files := files w; faults := faults w; trace := t;
     threadsafety := threadsafety w |}.

Definition set_connection (c : option Connection) (f : Folder) : Folder :=
  {| filename := filename f; fsync := fsync f; connection := c;
     _in_transactions := _in_transactions f; messagelist := messagelist f;
     _newfolder := _newfolder f |}.
Definition set_in_transactions (n : Z) (f : Folder) : Folder :=
  {| filename := filename f; fsync := fsync f; connection := connection f;
     _in_transactions := n; messagelist := messagelist f;
     _newfolder := _newfolder f |}.
Definition set_messagelist (m : gmap Z msg) (f : Folder) : Folder :=
  {| filename := filename f; fsync := fsync f; connection := connection f;
     _in_transactions := _in_transactions f; messagelist := m;
     _newfolder := _newfolder f |}.
Definition set_newfolder (b : bool) (f : Folder) : Folder :=
  {| filename := filename f; fsync := fsync f; connection := connection f;
     _in_transactions := _in_transactions f; messagelist := messagelist f;
     _newfolder := b |}.

Definition set_flags (x : gset string) (m : msg) : msg :=
  {| uid := uid m; flags := x; labels := labels m; time := time m;
     mtime := mtime m |}.
Definition set_labels (x : gset string) (m : msg) : msg :=
  {| uid := uid m; flags := flags m; labels := x; time := time m;
     mtime := mtime m |}.
Definition set_mtime (x : value) (m : msg) : msg :=
  {| uid := uid m; flags := flags m; labels := labels m; time := time m;
     mtime := x |}.

(** ** Methods as state transformers *)

Inductive Result (A : Type) : Type :=
  | Ok (a : A) (s : St)
  | Raise (e : exn) (s : St)
  | Blocked
  | OutOfFuel.
Arguments Ok {A} a s.
Arguments Raise {A} e s.
Arguments Blocked {A}.
Arguments OutOfFuel {A}.

Definition M (A : Type) : Type := St → Result A.

Definition ret {A} (a : A) : M A := λ s, Ok a s.

Definition bind {A B} (m : M A) (k : A → M B) : M B := λ s,
  match m s with
  | Ok a s' => k a s'
  | Raise e s' => Raise e s'
  | Blocked => Blocked
  | OutOfFuel => OutOfFuel
  end.

Definition raise {A} (e : exn) : M A := λ s, Raise e s.

(** [try: m except: h] *)
Definition try_catch {A} (m : M A) (h : exn → M A) : M A := λ s,
  match m s with
  | Raise e s' => h e s'
  | r => r
  end.

Notation "'let*' x := m 'in' k" := (bind m (λ x, k))
  (at level 10, x name, m at level 100, k at level 200, only parsing).

Definition self : M Folder := λ s, Ok s.2 s.
Definition world : M World := λ s, Ok s.1 s.
Definition modify_self (g : Folder → Folder) : M unit := λ s, Ok tt (s.1, g s.2).
Definition modify_world (g : World → World) : M unit := λ s, Ok tt (g s.1, s.2).

(** [assert b] *)
Definition assert (b : bool) : M unit :=
  if b then ret tt else raise AssertionError.

(** [for x in l: body x] *)
Fixpoint for_each {A} (l : list A) (body : A → M unit) : M unit :=
  match l with
  | [] => ret tt
  | x :: l' => let* _ := body x in for_each l' body
  end.

(** *** The file lock *)

Definition lock_of (w : World) (f : Folder) : DatabaseFileLock :=
  default DatabaseFileLock_init (locks w !! filename f).

Definition set_lock_of (l : DatabaseFileLock) (s : St) : St :=
  (set_locks (<[filename s.2 := l]> (locks s.1)) s.1, s.2).

Definition release (s : St) : St :=
  set_lock_of {| _lock := false; _counter := _counter (lock_of s.1 s.2) |} s.

(** [with self._databaseFileLock.getLock(): body]. [threading.Lock] is not
    reentrant: acquiring it while it is held waits for a release, and in this
    thread none comes. *)
Definition with_lock {A} (body : M A) : M A := λ s,
  let l := lock_of s.1 s.2 in
  if _lock l then Blocked
  else
    match body (set_lock_of {| _lock := true; _counter := _counter l |} s) with
    | Ok a s' => Ok a (release s')
    | Raise e s' => Raise e (release s')
    | Blocked => Blocked
    | OutOfFuel => OutOfFuel
    end.

(** [registerNewUser], [removeOneUser], [shouldClose] *)
Definition registerNewUser : M unit := λ s,
  let l := lock_of s.1 s.2 in
  Ok tt (set_lock_of {| _lock := _lock l; _counter := _counter l + 1 |} s).

Definition removeOneUser : M unit := λ s,
  let l := lock_of s.1 s.2 in
  Ok tt (set_lock_of {| _lock := _lock l; _counter := _counter l - 1 |} s).

Definition shouldClose : M bool := λ s,
  Ok (bool_decide (_counter (lock_of s.1 s.2) < 1)) s.

(** *** The connection *)

Definition log (ev : event) : M unit :=
  modify_world (λ w, set_trace (ev :: trace w) w).

(** The answer of the store to the call being made. *)
Definition next_fault : M unit := λ s,
  match faults s.1 with
  | [] => Ok tt s
  | None :: l => Ok tt (set_faults l s.1, s.2)
  | Some e :: l => Raise e (set_faults l s.1, s.2)
  end.

(** The database as the connection sees it. *)
Definition view (w : World) (c : Connection) : Database :=
  default (default empty_db (files w !! c_path c)) (c_txn c).

(** [self.connection.<method>]: [None] has no methods, a closed connection
    refuses them. *)
Definition the_connection : M Connection :=
  let* f := self in
  match connection f with
  | None => raise AttributeError
  | Some c =>
      if c_closed c
      then raise (ProgrammingError "Cannot operate on a closed database.")
      else ret c
  end.

Definition set_txn (db : option Database) (c : Connection) : Connection :=
  {| c_path := c_path c; c_closed := c_closed c; c_txn := db |}.

(** [sqlite.connect(path, check_same_thread=False)] *)
Definition sqlite_connect (path : string) : M Connection :=
  let* _ := log (EvConnect path) in
  let* _ := next_fault in
  ret {| c_path := path; c_closed := false; c_txn := None |}.

(** One statement, as [run_many] reports it. *)
Definition run_one (sql : stmt) (p : params) (db : Database)
  : option exn * Database :=
  match run_stmt sql p db with
  | inl e => (Some e, db)
  | inr db' => (None, db')
  end.

(** [self.connection.execute(sql, args)] for a writing statement: it opens a
    transaction if none is open, then binds the tuple and runs the statement
    ([run_stmt]: a tuple with an integer that does not fit in 64 bits raises
    [OverflowError] and nothing is written). *)
Definition conn_execute (sql : stmt) (p : params) : M unit :=
  let* c := the_connection in
  let* _ := log (EvExecute sql p) in
  let* _ := next_fault in
  let* w := world in
  let r := run_one sql p (view w c) in
  let* _ := modify_self (set_connection (Some (set_txn (Some r.2) c))) in
  match r.1 with
  | Some e => raise e
  | None => ret tt
  end.

(** [self.connection.executemany(sql, args)]: one transaction, then the
    tuples one after the other ([run_many]); a tuple that cannot be bound
    raises [OverflowError], after the tuples before it were run. *)
Definition conn_executemany (sql : stmt) (ps : list params) : M unit :=
  let* c := the_connection in
  let* _ := log (EvExecuteMany sql ps) in
  let* _ := next_fault in
  let* w := world in
  let r := run_many sql ps (view w c) in
  let* _ := modify_self (set_connection (Some (set_txn (Some r.2) c))) in
  match r.1 with
  | Some e => raise e
  | None => ret tt
  end.

(** Writes the open transaction of [c], if any, to the file. *)
Definition flush (c : Connection) : M unit :=
  match c_txn c with
  | None => ret tt
  | Some db =>
      let* _ := modify_world (λ w, set_files (<[c_path c := db]> (files w)) w) in
      modify_self (set_connection (Some (set_txn None c)))
  end.

(** [self.connection.commit()] *)
Definition conn_commit : M unit :=
  let* c := the_connection in
  let* _ := log EvCommit in
  let* _ := next_fault in
  flush c.

(** [self.connection.close()]: what was not committed is lost. *)
Definition conn_close : M unit :=
  let* f := self in
  match connection f with
  | None => raise AttributeError
  | Some c =>
      let* _ := log EvClose in
      modify_self (set_connection
        (Some {| c_path := c_path c; c_closed := true; c_txn := None |}))
  end.

(** [self.connection.executescript(script)]: commits what is pending, then
    runs the statements one by one, each committed on its own. *)
Definition conn_executescript (script : list ddl) : M unit :=
  let* c := the_connection in
  let* _ := log (EvScript script) in
  let* _ := flush c in
  for_each script (λ d,
    let* _ := next_fault in
    let* w := world in
    match run_ddl d (default empty_db (files w !! c_path c)) with
    | inl e => raise e
    | inr db => modify_world (λ w, set_files (<[c_path c := db]> (files w)) w)
    end).

(** [self.connection.execute("SELECT value from metadata WHERE
    key='db_version'").fetchone()]: the row, or [None]. *)
Definition select_version : M (option string) :=
  let* c := the_connection in
  let* _ := log (EvSelect "SELECT value from metadata WHERE key='db_version'") in
  let* _ := next_fault in
  let* w := world in
  match metadata (view w c) with
  | None => raise (OperationalError "no such table: metadata")
  | Some m => ret (m !! "db_version")
  end.

(** The rows of a table in the order of their ids. *)
Definition id_le (a b : Z * gmap string value) : Prop := a.1 ≤ b.1.

Global Instance id_le_dec : RelDecision id_le.
Proof. intros a b. unfold id_le. apply _. Defined.

Definition rows_in_order (t : table) : list (Z * gmap string value) :=
  merge_sort id_le (map_to_list (t_rows t)).

Definition col (r : gmap string value) (c : string) : value :=
  default VNull (r !! c).

(** The row of the cursor for a row of the table. *)
Definition cursor_row (r : Z * gmap string value)
  : Z * value * value * value :=
  (r.1, col r.2 "flags", col r.2 "mtime", col r.2 "labels").

(** [self.connection.execute('SELECT id,flags,mtime,labels from status')]:
    the rows [(id, flags, mtime, labels)]. *)
Definition select_status : M (list (Z * value * value * value)) :=
  let* c := the_connection in
  let* _ := log (EvSelect "SELECT id,flags,mtime,labels from status") in
  let* _ := next_fault in
  let* w := world in
  match status (view w c) with
  | None => raise (OperationalError "no such table: status")
  | Some t =>
      if forallb (has_col t) ["flags"; "mtime"; "labels"] then
        ret (cursor_row <$> rows_in_order t)
      else raise (OperationalError "no such column")
  end.

(** ** The methods of [LocalStatusSQLiteFolder] *)

(** Current version of the db format. *)
Definition cur_version : Z := 2.

(** [__init__], the part on [locks], [connection] and [_in_transactions]:
    the first folder on a file name creates its [DatabaseFileLock]. [dofsync]
    is what [self.dofsync()] answers (a setting of the configuration). *)
Definition Folder_init (path : string) (dofsync : bool) (w : World)
  : World * Folder :=
  (match locks w !! path with
   | None => set_locks (<[path := DatabaseFileLock_init]> (locks w)) w
   | Some _ => w
   end,
   {| filename := path; fsync := dofsync; connection := None;
      _in_transactions := 0; messagelist := ∅; _newfolder := false |}).

(** Modelled from the spec: [uidexists] of the base class, which is not in
    this file: [exists(uid) -> bool], mirror-only, no store access. *)
Definition uidexists (uid : Z) : M bool :=
  let* f := self in ret (bool_decide (is_Some (messagelist f !! uid))).

(** Modelled from the spec: [dropmessagelistcache] of the base class, which
    is not in this file: [load_all()] clears the mirror. *)
Definition dropmessagelistcache : M unit :=
  modify_self (set_messagelist ∅).

Definition __enter__ : M unit :=
  let* f := self in
  if negb (fsync f) then
    let* _ := assert (bool_decide (is_Some (connection f))) in
    modify_self (λ f, set_in_transactions (_in_transactions f + 1) f)
  else ret tt.

Definition __exit__ : M unit :=
  let* f := self in
  if negb (fsync f) then
    let* _ := assert (bool_decide (_in_transactions f > 0)) in
    let* _ := modify_self
                (λ f, set_in_transactions (_in_transactions f - 1) f) in
    let* f := self in
    if bool_decide (_in_transactions f < 1) then conn_commit else ret tt
  else ret tt.

(** The [args] of [__sql_write]: one tuple, or a list of tuples. *)
Inductive sqlargs := One (p : params) | Many (ps : list params).

(** The [executemany] that goes with the shape of [args], the call it
    leads to, and what the statement does to the database. *)
Definition call_mode (a : sqlargs) : bool :=
  match a with One _ => false | Many _ => true end.

Definition call_event (sql : stmt) (a : sqlargs) : event :=
  match a with
  | One p => EvExecute sql p
  | Many ps => EvExecuteMany sql ps
  end.

Definition run_args (sql : stmt) (a : sqlargs) (db : Database)
  : option exn * Database :=
  match a with
  | One p => run_one sql p db
  | Many ps => run_many sql ps db
  end.

(** The call on the connection that [__sql_write] chooses from [args] and
    [executemany]. The statements all have [?]s: without [args], or with
    [args] of the other shape, the call raises before it reaches the store. *)
Definition conn_call (sql : stmt) (args : option sqlargs) (executemany : bool)
  : M unit :=
  match args, executemany with
  | None, true => let* _ := the_connection in raise TypeError
  | None, false =>
      let* _ := the_connection in
      raise (ProgrammingError "Incorrect number of bindings supplied")
  | Some (Many ps), true => conn_executemany sql ps
  | Some (One p), false => conn_execute sql p
  | Some (One _), true | Some (Many _), false =>
      let* _ := the_connection in
      raise (ProgrammingError "Incorrect number of bindings supplied")
  end.

(** The [except sqlite.OperationalError] clause of [__sql_write]; [success]
    is the variable at the time of the raise, the result is its value after
    the clause. *)
Definition on_write_error (success : bool) (e : exn) : M bool :=
  match e with
  | OperationalError m =>
      if decide (m = "cannot commit - no transaction is active") then
        ret success
      else if decide (m = "database is locked") then
        let* _ := log (EvDebug "Locked sqlite database, retrying.") in
        ret false
      else raise e
  | _ => raise e
  end.

(** One round of the [while not success] loop: the [try] block with its
    [with] block, then the [except] clause. An exception of the commit leaves
    the [with] block as [inr e], for [success] is already [True] then. *)
Definition write_round (sql : stmt) (args : option sqlargs)
  (executemany : bool) : M bool :=
  let* r :=
    try_catch
      (with_lock
         (let* _ := conn_call sql args executemany in
          let* f := self in
          try_catch
            (let* _ := if bool_decide (_in_transactions f = 0)
                       then conn_commit else ret tt in
             ret (inl tt))
            (λ e, ret (inr (true, e)))))
      (λ e, ret (inr (false, e))) in
  match r with
  | inl _ => ret true
  | inr (success, e) => on_write_error success e
  end.

(** Execute some SQL, retrying if the db was locked. *)
Fixpoint __sql_write (fuel : nat) (sql : stmt) (args : option sqlargs)
  (executemany : bool) : M unit :=
  match fuel with
  | O => λ _, OutOfFuel
  | S fuel' =>
      let* success := write_round sql args executemany in
      if success then ret tt else __sql_write fuel' sql args executemany
  end.

Definition upgrade_script : list ddl :=
  [AlterAdd "mtime" (VInt 0); AlterAdd "labels" (VText ""); SetVersion "2"].

Definition create_script : list ddl :=
  [CreateMetadata; InsertVersion "2"; CreateStatus].

(** Upgrade the sqlite format from version [from_ver] to current. *)
Definition __upgrade_db (from_ver : Z) : M unit :=
  let* f := self in
  let* _ := match connection f with
            | Some _ => conn_close
            | None => ret tt
            end in
  let* c := sqlite_connect (filename f) in
  let* _ := modify_self (set_connection (Some c)) in
  if bool_decide (from_ver ≤ 1) then
    let* _ := log (EvMsg
      "Upgrading LocalStatus cache from version 1 to version 2") in
    let* _ := conn_executescript upgrade_script in
    conn_commit
  else ret tt.

(** Create a new db file. *)
Definition __create_db : M unit :=
  let* _ := log (EvMsg "Creating new Local Status db") in
  let* _ := conn_executescript create_script in
  let* _ := conn_commit in
  modify_self (set_newfolder true).

Definition cannot_open (path : string) (e : exn) : string :=
  "cannot open database file '" +:+ path +:+ "': " +:+ exn_str e +:+ "."
  +:+ String "010" "You might want to check the rights to that file and if it cleanly opens with the 'sqlite<3>' command".

Definition openfiles : M unit :=
  let* w := world in
  let* _ := assert (bool_decide (threadsafety w = 1)) in
  with_lock
    (let* f := self in
     let* _ :=
       try_catch
         (let* c := sqlite_connect (filename f) in
          let* _ := modify_self (set_connection (Some c)) in
          registerNewUser)
         (λ e, match e with
               | OperationalError _ =>
                   raise (UserWarning (cannot_open (filename f) e))
               | _ => raise e
               end) in
     let* r :=
       try_catch
         (let* row := select_version in ret (Some row))
         (λ e, if is_DatabaseError e
               then let* _ := __create_db in ret None
               else raise e) in
     match r with
     | None => ret tt
     | Some None => raise TypeError
     | Some (Some v) =>
         match PyStr.int v with
         | None => raise ValueError
         | Some version =>
             if bool_decide (version < cur_version)
             then __upgrade_db version else ret tt
         end
     end).

Definition msglist_item_initializer (uid : Z) : msg :=
  {| uid := uid; flags := ∅; labels := ∅; time := 0; mtime := VInt 0 |}.

(** [''.join(sorted(flags))] *)
Definition flags_str (flags : gset string) : string :=
  PyStr.join "" (PyStr.sorted (elements flags)).

(** [', '.join(sorted(labels))] *)
Definition labels_str (labels : gset string) : string :=
  PyStr.join ", " (PyStr.sorted (elements labels)).

(** [set(row[1])]: only a string can be iterated. *)
Definition flags_of (v : value) : option (gset string) :=
  match v with
  | VText s => Some (list_to_set (PyStr.chars s))
  | _ => None
  end.

(** [set([lb.strip() for lb in row[3].split(',') if len(lb.strip()) > 0])],
    and [set()] where [row[3]] has no [split] ([except AttributeError]). *)
Definition labels_of (v : value) : gset string :=
  match v with
  | VText s =>
      list_to_set
        (PyStr.strip <$>
           filter (λ lb, (0 < PyStr.len (PyStr.strip lb))%nat)
                  (PyStr.split "," s))
  | _ => ∅
  end.

(** [self.messagelist[uid][...] = ...]: [KeyError] if [uid] is not there. *)
Definition update_msg (uid : Z) (g : msg → msg) : M unit :=
  let* f := self in
  match messagelist f !! uid with
  | None => raise (KeyError uid)
  | Some m => modify_self (set_messagelist (<[uid := g m]> (messagelist f)))
  end.

(** The body of the loop of [cachemessagelist], for one row of the cursor. *)
Definition cache_row (row : Z * value * value * value) : M unit :=
  let '(uid, r1, r2, r3) := row in
  let* _ := modify_self (λ f, set_messagelist
              (<[uid := msglist_item_initializer uid]> (messagelist f)) f) in
  match flags_of r1 with
  | None => raise TypeError
  | Some flags =>
      let labels := labels_of r3 in
      let* _ := update_msg uid (set_flags flags) in
      let* _ := update_msg uid (set_labels labels) in
      update_msg uid (set_mtime r2)
  end.

Definition cachemessagelist : M unit :=
  let* _ := dropmessagelistcache in
  let* cursor := select_status in
  for_each cursor cache_row.

Definition closefiles : M unit :=
  with_lock
    (let* _ := removeOneUser in
     let* b := shouldClose in
     if b then try_catch conn_close (λ _, ret tt) else ret tt).

Definition status_cols : list string := ["flags"; "mtime"; "labels"].

(** Saves the entire messagelist to the database. The items of the dict are
    taken in the order of [map_to_list]. *)
Definition saveall (fuel : nat) : M unit :=
  with_lock
    (let* f := self in
     let data := (λ um, {| p_id := um.1;
                           p_vals := [VText (flags_str (flags um.2));
                                      mtime um.2;
                                      VText (labels_str (labels um.2))] |})
                   <$> map_to_list (messagelist f) in
     __sql_write fuel (Insert true status_cols) (Some (Many data)) true).

Definition savemessageflags (fuel : nat) (uid : Z) (flags : gset string)
  : M unit :=
  let* b := uidexists uid in
  let* _ := assert b in
  let* _ := update_msg uid (set_flags flags) in
  __sql_write fuel (Update ["flags"])
    (Some (One {| p_id := uid; p_vals := [VText (flags_str flags)] |})) false.

(** Writes a new message, with the specified uid. [content] is not used. *)
Definition savemessage (fuel : nat) (uid : Z) (flags : gset string)
  (rtime : Z) (mtime : Z) (labels : gset string) : M Z :=
  if bool_decide (uid < 0) then ret uid
  else
    let* b := uidexists uid in
    if b then
      let* _ := savemessageflags fuel uid flags in
      ret uid
    else
      let* _ := modify_self (λ f, set_messagelist
                  (<[uid := msglist_item_initializer uid]> (messagelist f)) f) in
      let* _ := modify_self (λ f, set_messagelist
                  (<[uid := {| uid := uid; flags := flags; labels := labels;
                               time := rtime; mtime := VInt mtime |}]>
                     (messagelist f)) f) in
      let* _ :=
        try_catch
          (__sql_write fuel (Insert false status_cols)
             (Some (One {| p_id := uid;
                           p_vals := [VText (flags_str flags); VInt mtime;
                                      VText (labels_str labels)] |})) false)
          (λ e, raise (UserWarning
                  (exn_str e +:+ " while inserting UID " +:+ pretty uid))) in
      ret uid.

(** [self.messagelist[uid][key]] *)
Definition getmessage (uid : Z) : M msg :=
  let* f := self in
  match messagelist f !! uid with
  | None => raise (KeyError uid)
  | Some m => ret m
  end.

Definition getmessageflags (uid : Z) : M (gset string) :=
  let* m := getmessage uid in ret (flags m).

Definition getmessagelabels (uid : Z) : M (gset string) :=
  let* m := getmessage uid in ret (labels m).

Definition getmessagemtime (uid : Z) : M value :=
  let* m := getmessage uid in ret (mtime m).

(** [if mtime:] for [None] or an integer. *)
Definition truthy (mtime : option Z) : bool :=
  match mtime with
  | Some z => negb (bool_decide (z = 0))
  | None => false
  end.

Definition savemessagelabels (fuel : nat) (uid : Z) (labels : gset string)
  (mtime : option Z) : M unit :=
  let* _ := update_msg uid (set_labels labels) in
  let* _ := if truthy mtime
            then update_msg uid (set_mtime (VInt (default 0 mtime)))
            else ret tt in
  let labels' := labels_str labels in
  if truthy mtime then
    __sql_write fuel (Update ["labels"; "mtime"])
      (Some (One {| p_id := uid;
                    p_vals := [VText labels'; VInt (default 0 mtime)] |}))
      false
  else
    __sql_write fuel (Update ["labels"])
      (Some (One {| p_id := uid; p_vals := [VText labels'] |})) false.

(** Saves labels from a dictionary in a single database operation. The
    dictionary is the list of its items, in its order. *)
Definition savemessageslabelsbulk (fuel : nat)
  (labels : list (Z * gset string)) : M unit :=
  let data := (λ ul, {| p_id := ul.1; p_vals := [VText (labels_str ul.2)] |})
                <$> labels in
  let* _ := __sql_write fuel (Update ["labels"]) (Some (Many data)) true in
  for_each labels (λ ul, update_msg ul.1 (set_labels ul.2)).

(** [del(self.messagelist[uid])] *)
Definition del_msg (uid : Z) : M unit :=
  let* f := self in
  match messagelist f !! uid with
  | None => raise (KeyError uid)
  | Some _ => modify_self (set_messagelist (delete uid (messagelist f)))
  end.

Definition deletemessage (fuel : nat) (uid : Z) : M unit :=
  let* f := self in
  if negb (bool_decide (is_Some (messagelist f !! uid))) then ret tt
  else
    let* _ := __sql_write fuel Delete
                (Some (One {| p_id := uid; p_vals := [] |})) false in
    del_msg uid.

(** Delete list of UIDs from status cache. *)
Definition deletemessages (fuel : nat) (uidlist : list Z) : M unit :=
  let* f := self in
  let uidlist := filter (λ uid, is_Some (messagelist f !! uid)) uidlist in
  if bool_decide (length uidlist = 0%nat) then ret tt
  else
    let* _ := __sql_write fuel Delete
                (Some (Many ((λ uid, {| p_id := uid; p_vals := [] |})
                               <$> uidlist))) true in
    for_each uidlist del_msg.

(** [[body x for x in l]] *)
Fixpoint map_each {A B} (l : list A) (body : A → M B) : M (list B) :=
  match l with
  | [] => ret []
  | x :: l' =>
      let* y := body x in
      let* ys := map_each l' body in
      ret (y :: ys)
  end.

(** The tuple [(', '.join(sorted(newlabels)), uid)] of the label updates. *)
Definition labels_params (uid : Z) (newlabels : gset string) : params :=
  {| p_id := uid; p_vals := [VText (labels_str newlabels)] |}.

(** [addmessageslabels(uids, labels)], with [lbs] for the argument
    [labels]: the new labels of a message are those of its mirror entry and
    [lbs]. *)
Definition addmessageslabels (fuel : nat) (uids : list Z)
  (lbs : gset string) : M unit :=
  let* data := map_each uids (λ uid,
                 let* m := getmessage uid in
                 ret (labels_params uid (labels m ∪ lbs))) in
  let* _ := __sql_write fuel (Update ["labels"]) (Some (Many data)) true in
  for_each uids (λ uid,
    let* m := getmessage uid in
    update_msg uid (set_labels (labels m ∪ lbs))).

(** [deletemessageslabels(uids, labels)], with [lbs] for the argument
    [labels]: the labels of the mirror entry without [lbs]. *)
Definition deletemessageslabels (fuel : nat) (uids : list Z)
  (lbs : gset string) : M unit :=
  let* data := map_each uids (λ uid,
                 let* m := getmessage uid in
                 ret (labels_params uid (labels m ∖ lbs))) in
  let* _ := __sql_write fuel (Update ["labels"]) (Some (Many data)) true in
  for_each uids (λ uid,
    let* m := getmessage uid in
    update_msg uid (set_labels (labels m ∖ lbs))).

(** Saves mtimes from the mtimes dictionary in a single database operation.
    The dictionary is the list of its items, in its order. *)
Definition savemessagesmtimebulk (fuel : nat) (mtimes : list (Z * Z))
  : M unit :=
  let data := (λ um, {| p_id := um.1; p_vals := [VInt um.2] |}) <$> mtimes in
  let* _ := __sql_write fuel (Update ["mtime"]) (Some (Many data)) true in
  for_each mtimes (λ um, update_msg um.1 (set_mtime (VInt um.2))).

(** [storesmessages], [getfullname], [isnewfolder], [save] *)
Definition storesmessages : M bool := ret false.

Definition getfullname : M string := let* f := self in ret (filename f).

Definition isnewfolder : M bool := let* f := self in ret (_newfolder f).

Definition save : M unit := ret tt.

(** ** What the statements are about *)

(** The mirror of a state, the store as the folder's connection sees it, and
    what is committed to the file of that connection. *)
Definition mirror (s : St) : gmap Z msg := messagelist s.2.

Definition store (s : St) : option Database :=
  view s.1 <$> connection s.2.

Definition committed (s : St) : option Database :=
  c ← connection s.2; files s.1 !! c_path c.

(** The rows of the [status] table of a database. *)
Definition rows_of (db : Database) : gmap Z (gmap string value) :=
  from_option t_rows ∅ (status db).

(** The row of [id] in the store. *)
Definition store_row (s : St) (id : Z) : option (gmap string value) :=
  db ← store s; rows_of db !! id.

(** The folder has the open connection [c], its file lock is free, and the
    store lets the coming calls through. *)
Definition quiet (s : St) (c : Connection) : Prop :=
  connection s.2 = Some c ∧ c_closed c = false ∧ faults s.1 = []
  ∧ ∃ l, locks s.1 !! filename s.2 = Some l ∧ _lock l = false.

(** The uids of the mirror are integers that SQLite keeps: they come from the
    [id] column or from a [savemessage] that went through. *)
Definition stored_uids (s : St) : Prop :=
  map_Forall (λ u _, int64 u) (mirror s).

(** The folder is ready for a write: [quiet], with a mirror of such uids. *)
Definition ready (s : St) (c : Connection) : Prop :=
  quiet s c ∧ stored_uids s.

(** The state after a statement went through [__sql_write] at the first
    round, leaving the database [db]: the calls [evs] and, outside a
    transaction scope, the commit. *)
Definition after_write (evs : list event) (db : Database) (c : Connection)
  (s : St) : St :=
  if bool_decide (_in_transactions s.2 = 0) then
    (set_files (<[c_path c := db]> (files s.1))
       (set_trace (EvCommit :: evs ++ trace s.1) s.1),
     set_connection (Some (set_txn None c)) s.2)
  else
    (set_trace (evs ++ trace s.1) s.1,
     set_connection (Some (set_txn (Some db) c)) s.2).

(** The messages of the two errors that [__sql_write] does not raise. *)
Definition locked : exn := OperationalError "database is locked".
Definition no_transaction : exn :=
  OperationalError "cannot commit - no transaction is active".

(** The state after [__sql_write] met [k] answers [locked] to the statement:
    [k] calls, each with its debug line, and [rest] left of the answers. *)
Definition after_retries (k : nat) (ev : event) (rest : list (option exn))
  (s : St) : St :=
  (set_faults rest
     (set_trace
        (mjoin (replicate k [EvDebug "Locked sqlite database, retrying."; ev])
         ++ trace s.1) s.1),
   s.2).

(** The state of a result, if it has one. *)
Definition state_of {A} (r : Result A) : option St :=
  match r with
  | Ok _ s | Raise _ s => Some s
  | Blocked | OutOfFuel => None
  end.

(** The call inserts a row. *)
Definition is_insert (ev : event) : bool :=
  match ev with
  | EvExecute (Insert _ _) _ | EvExecuteMany (Insert _ _) _ => true
  | _ => false
  end.

(** The calls made between [s] and [s']. *)
Definition calls_between (s s' : St) (evs : list event) : Prop :=
  trace s'.1 = evs ++ trace s.1.

(** A process that has opened no folder yet, and a folder just opened on a
    file that did not exist. *)
Definition world0 : World :=
  {| locks := ∅; files := ∅; faults := []; trace := []; threadsafety := 1 |}.

Definition new_db : Database :=
  {| metadata := Some {["db_version" := "2"]};
     status := Some {| t_cols := [("flags", VNull); ("mtime", VNull);
                                  ("labels", VNull)];
                       t_rows := ∅ |} |}.

Definition opened (path : string) (dofsync : bool) : St :=
  ({| locks := {[path := {| _lock := false; _counter := 1 |}]};
      files := {[path := new_db]};
      faults := [];
      trace := [EvCommit; EvScript create_script;
                EvMsg "Creating new Local Status db";
                EvSelect "SELECT value from metadata WHERE key='db_version'";
                EvConnect path];
      threadsafety := 1 |},
   {| filename := path; fsync := dofsync;
      connection := Some {| c_path := path; c_closed := false;
                            c_txn := None |};
      _in_transactions := 0; messagelist := ∅; _newfolder := true |}).

(** The same folder after [savemessage(5, .., {'S'}, 0, mtime=7,
    labels={'Work'})]. *)
Definition one_message (dofsync : bool) : St :=
  ({| locks := {[ "INBOX" := {| _lock := false; _counter := 1 |}]};
      files := {[ "INBOX" :=
        {| metadata := Some {["db_version" := "2"]};
           status := Some
             {| t_cols := [("flags", VNull); ("mtime", VNull);
                           ("labels", VNull)];
                t_rows := {[ 5 := {[ "flags" := VText "S";
                                     "mtime" := VInt 7;
                                     "labels" := VText "Work" ]} ]} |} |} ]};
      faults := [];
      trace := EvCommit
               :: EvExecute (Insert false status_cols)
                    {| p_id := 5;
                       p_vals := [VText "S"; VInt 7; VText "Work"] |}
               :: trace (opened "INBOX" dofsync).1;
      threadsafety := 1 |},
   {| filename := "INBOX"; fsync := dofsync;
      connection := Some {| c_path := "INBOX"; c_closed := false;
                            c_txn := None |};
      _in_transactions := 0;
      messagelist := {[ 5 := {| uid := 5; flags := {["S"]};
                                labels := {["Work"]}; time := 0;
                                mtime := VInt 7 |} ]};
      _newfolder := true |}).

(** The connection and the file lock of these two states. *)
Definition inbox_connection : Connection :=
  {| c_path := "INBOX"; c_closed := false; c_txn := None |}.

(** A sequence of calls on the transaction scope of a folder; the state after
    a call is the one it reached, returning or raising. *)
Inductive scope_call := Enter | Exit.

Definition scope_step (s : St) (c : scope_call) : St :=
  default s (state_of (match c with
                       | Enter => __enter__ s
                       | Exit => __exit__ s
                       end)).

Definition scope_run (calls : list scope_call) (s : St) : St :=
  foldl scope_step s calls.

(** The calls that [__sql_write] makes for the statement [sql]. *)
Definition write_event (sql : stmt) (ev : event) : Prop :=
  match ev with
  | EvExecute q _ | EvExecuteMany q _ => q = sql
  | EvCommit | EvDebug _ => True
  | _ => False
  end.

(** What a write of [sql] leaves alone between [s] and [s']: the folder but
    for its connection, which stays on its file, open or closed as it was;
    the calls are those of the write; a property [Inv] of the database that
    the statement keeps is kept. *)
Record write_frame (sql : stmt) (Inv : Database → Prop) (s s' : St) : Prop := {
  wf_folder : s'.2 = set_connection (connection s'.2) s.2;
  wf_trace : ∃ evs, trace s'.1 = evs ++ trace s.1
                    ∧ Forall (write_event sql) evs;
  wf_conn :
    match connection s.2 with
    | None => connection s'.2 = None
    | Some c =>
        ∃ c', connection s'.2 = Some c' ∧ c_path c' = c_path c
              ∧ c_closed c' = c_closed c
              ∧ (Inv (view s.1 c) → Inv (view s'.1 c'))
    end
}.

(** Every state that [m] reaches, returning or raising, is related by [F] to
    the state it started from. *)
Definition respects (F : St → St → Prop) {A} (m : M A) : Prop :=
  ∀ s s', state_of (m s) = Some s' → F s s'.

(** The [mtime] column of the rows of a database. *)
Definition mtimes_of (db : Database) : gmap Z value :=
  (λ r, col r "mtime") <$> rows_of db.

(** A database with the rows of its [status] table changed by [g]. *)
Definition map_rows (g : gmap Z (gmap string value) → gmap Z (gmap string value))
  (db : Database) : Database :=
  {| metadata := metadata db;
     status := (λ t, {| t_cols := t_cols t; t_rows := g (t_rows t) |})
                 <$> status db |}.

(** The database has a [status] table with the columns [cols]. *)
Definition has_cols (db : Database) (cols : list string) : Prop :=
  ∃ t, status db = Some t ∧ forallb (has_col t) cols = true.

(** The connection of the folder after a write that went through. *)
Definition after_write_connection (db : Database) (c : Connection) (s : St)
  : Connection :=
  set_txn (if bool_decide (_in_transactions s.2 = 0) then None else Some db) c.

(** [savemessagelabels(uid, labels)] for each item of a list of items, in the
    order of the list. *)
Definition savemessagelabels_each (fuel : nat)
  (labels : list (Z * gset string)) : M unit :=
  for_each labels (λ ul, savemessagelabels fuel ul.1 ul.2 None).

(** What [savemessageslabelsbulk] and the single calls do to the mirror and
    to the database, item by item. *)
Definition set_labels_in (m : gmap Z msg) (ul : Z * gset string)
  : gmap Z msg :=
  alter (set_labels ul.2) ul.1 m.

Definition set_labels_row (db : Database) (ul : Z * gset string) : Database :=
  map_rows (alter (set_cols ["labels"] [VText (labels_str ul.2)]) ul.1) db.

Definition delete_row (db : Database) (uid : Z) : Database :=
  map_rows (delete uid) db.

(** [c in s] for a character [c]. *)
Fixpoint has_char (c : ascii) (s : string) : bool :=
  match s with
  | EmptyString => false
  | String c' s' => bool_decide (c' = c) || has_char c s'
  end.

(** A label that the format of the [labels] column can hold: not empty, no
    comma, no white space at either end. *)
Definition label_ok (lb : string) : Prop :=
  has_char "," lb = false ∧ PyStr.strip lb = lb ∧ lb ≠ EmptyString.

(** A flag of one character. *)
Definition flag_ok (x : string) : Prop := String.length x = 1%nat.

(** The entry that [cachemessagelist] makes of a row, and the mirror with
    it. *)
Definition load_row (id : Z) (fl : gset string) (r2 r3 : value) : msg :=
  {| uid := id; flags := fl; labels := labels_of r3; time := 0; mtime := r2 |}.

Definition load_into (m : gmap Z msg) (row : Z * value * value * value)
  : gmap Z msg :=
  <[row.1.1.1 := load_row row.1.1.1 (default ∅ (flags_of row.1.1.2))
                   row.1.2 row.2]> m.

(** The same folder with the messages 5 and 9. *)
Definition two_messages (dofsync : bool) : St :=
  ({| locks := {[ "INBOX" := {| _lock := false; _counter := 1 |}]};
      files := {[ "INBOX" :=
        {| metadata := Some {["db_version" := "2"]};
           status := Some
             {| t_cols := [("flags", VNull); ("mtime", VNull);
                           ("labels", VNull)];
                t_rows := {[ 5 := {[ "flags" := VText "S";
                                     "mtime" := VInt 7;
                                     "labels" := VText "Work" ]};
                             9 := {[ "flags" := VText "";
                                     "mtime" := VInt 0;
                                     "labels" := VText "" ]} ]} |} |} ]};
      faults := [];
      trace := EvCommit
               :: EvExecute (Insert false status_cols)
                    {| p_id := 9; p_vals := [VText ""; VInt 0; VText ""] |}
               :: trace (one_message dofsync).1;
      threadsafety := 1 |},
   {| filename := "INBOX"; fsync := dofsync;
      connection := Some {| c_path := "INBOX"; c_closed := false;
                            c_txn := None |};
      _in_transactions := 0;
      messagelist := {[ 5 := {| uid := 5; flags := {["S"]};
                                labels := {["Work"]}; time := 0;
                                mtime := VInt 7 |};
                        9 := {| uid := 9; flags := ∅; labels := ∅;
                                time := 3; mtime := VInt 0 |} ]};
      _newfolder := true |}).

(** The statements of a script, one after the other. *)
Fixpoint run_script (script : list ddl) (db : Database) : exn + Database :=
  match script with
  | [] => inr db
  | d :: script' =>
      match run_ddl d db with
      | inl e => inl e
      | inr db' => run_script script' db'
      end
  end.

(** A database of version 1, upgraded: the two columns with their
    defaults in every row, and the version 2. *)
Definition upgraded (m : gmap string string) (t : table) : Database :=
  {| metadata := Some (<["db_version" := "2"]> m);
     status := Some
       {| t_cols := t_cols t ++ [("mtime", VInt 0); ("labels", VText "")];
          t_rows := (λ r, <["labels" := VText ""]> (<["mtime" := VInt 0]> r))
                      <$> t_rows t |} |}.

(** A file written by version 1 of the format, with two messages. *)
Definition version1_db : Database :=
  {| metadata := Some {["db_version" := "1"]};
     status := Some {| t_cols := [("flags", VNull)];
                       t_rows := {[ 3 := {[ "flags" := VText "S" ]};
                                    4 := {[ "flags" := VText "" ]} ]} |} |}.

Definition version1_world : World :=
  {| locks := ∅; files := {[ "INBOX" := version1_db ]}; faults := [];
     trace := []; threadsafety := 1 |}.

(** The folder after [closefiles] brought the number of users of its file to
    [n]: below 1 the connection, if there is one, is closed. *)
Definition closed_folder (n : Z) (f : Folder) : Folder :=
  if bool_decide (n < 1) then
    match connection f with
    | Some c =>
        set_connection
          (Some {| c_path := c_path c; c_closed := true; c_txn := None |}) f
    | None => f
    end
  else f.

Definition closed_trace (n : Z) (f : Folder) (tr : list event) : list event :=
  if bool_decide (n < 1) then
    match connection f with
    | Some _ => EvClose :: tr
    | None => tr
    end
  else tr.

(** A world whose file is of the current version, with one message. *)
Definition current_world : World :=
  {| locks := ∅;
     files := {[ "INBOX" :=
       {| metadata := Some {["db_version" := "2"]};
          status := Some
            {| t_cols := [("flags", VNull); ("mtime", VNull);
                          ("labels", VNull)];
               t_rows := {[ 5 := {[ "flags" := VText "S";
                                    "mtime" := VInt 7;
                                    "labels" := VText "Work" ]} ]} |} |} ]};
     faults := []; trace := []; threadsafety := 1 |}.

(** An exception that the [except] clause of [__sql_write] raises again. *)
Definition fatal (e : exn) : Prop :=
  ∀ b s, on_write_error b e s = Raise e s.

(** What a call on the connection can come to, for the loop of
    [__sql_write]: it returns or raises, it does not add to the answers that
    the store has left, and an exception that is not [fatal] has taken one
    of them. *)
Definition call_outcome {A} (s : St) (r : Result A) : Prop :=
  match r with
  | Ok _ s1 => (length (faults s1.1) ≤ length (faults s.1))%nat
  | Raise e s1 =>
      (length (faults s1.1) ≤ length (faults s.1))%nat
      ∧ ((length (faults s1.1) < length (faults s.1))%nat ∨ fatal e)
  | Blocked | OutOfFuel => False
  end.

(** The labels of a uid in a mirror (none if the mirror lacks the uid). *)
Definition labels_at (m : gmap Z msg) (uid : Z) : gset string :=
  from_option labels ∅ (m !! uid).

(** A mirror entry and a row with their labels changed by [g]. *)
Definition relabel (g : gset string → gset string) (x : msg) : msg :=
  set_labels (g (labels x)) x.

Definition relabel_row (lbs : gset string) (r : gmap string value)
  : gmap string value :=
  set_cols ["labels"] [VText (labels_str lbs)] r.

(** A row with its mtime column set. *)
Definition set_mtime_row (mt : Z) (r : gmap string value)
  : gmap string value :=
  set_cols ["mtime"] [VInt mt] r.

(** The calls that a write that went through at the first round added to the
    trace (latest first): the statement and, outside a transaction scope,
    the commit. *)
Definition write_calls (s : St) (ev : event) : list event :=
  if bool_decide (_in_transactions s.2 = 0) then [EvCommit; ev] else [ev].

(** The entry that [savemessage] puts into the mirror for a new uid. *)
Definition new_msg (uid : Z) (flags : gset string) (rtime mtime : Z)
  (labels : gset string) : msg :=
  {| uid := uid; flags := flags; labels := labels; time := rtime;
     mtime := VInt mtime |}.

(** The mirror entry after [savemessagelabels(uid, labels, mtime)]. *)
Definition labelled (lb : gset string) (mt : option Z) (m : msg) : msg :=
  if truthy mt then set_mtime (VInt (default 0 mt)) (set_labels lb m)
  else set_labels lb m.

(** A folder whose mirror was dropped: the store has the row of uid 5, the
    mirror has nothing. *)
Definition mirror_dropped : St :=
  ((one_message false).1, set_messagelist ∅ (one_message false).2).

(** The store answers the next call with a disk error. *)
Definition disk_error : exn := OperationalError "disk I/O error".

Definition failing (s : St) : St := (set_faults [Some disk_error] s.1, s.2).

(** [n] calls of [__enter__], and [n] calls of [__exit__], one after the
    other: [with self:] blocks nested [n] deep. *)
Definition enters (n : nat) : M unit :=
  for_each (replicate n tt) (λ _, __enter__).

Definition exits (n : nat) : M unit :=
  for_each (replicate n tt) (λ _, __exit__).

(** The [status] table of [one_message] and of [mirror_dropped]. *)
Definition inbox_table : table :=
  {| t_cols := [("flags", VNull); ("mtime", VNull); ("labels", VNull)];
     t_rows := {[ 5 := {[ "flags" := VText "S"; "mtime" := VInt 7;
                          "labels" := VText "Work" ]} ]} |}.

(** A row is the row of a mirror entry: its columns are the flags and the
    labels of the entry, serialised, and its mtime. *)
Definition row_of (m : msg) (r : gmap string value) : Prop :=
  col r "flags" = VText (flags_str (flags m))
  ∧ col r "mtime" = mtime m
  ∧ col r "labels" = VText (labels_str (labels m)).

(** The mirror and the store say the same: they have the same uids, and the
    row of a uid is the row of its entry. *)
Definition in_sync (s : St) : Prop :=
  ∀ u, option_Forall2 row_of (mirror s !! u) (store_row s u).

(** The folder is open on a store that lets the calls through, whose table
    has the three columns, and the mirror and the store say the same. *)
Definition synced (s : St) : Prop :=
  ∃ c, ready s c ∧ has_cols (view s.1 c) status_cols ∧ in_sync s.

(** The state when a write of [ev] went through at the first round and left
    the database [db], and the mirror is [M]. *)
Definition written (ev : event) (db : Database) (M : gmap Z msg)
  (c : Connection) (s : St) : St :=
  ((after_write [ev] db c s).1,
   set_messagelist M (after_write [ev] db c s).2).

(** What [openfiles] has done when it raises after the connection was made:
    the file is as it was, the file lock is free again, the folder is
    counted as a user and has its connection. *)
Definition left_open (w : World) (f : Folder) (l : DatabaseFileLock)
  (s' : St) : Prop :=
  files s'.1 = files w
  ∧ lock_of s'.1 s'.2 = {| _lock := false; _counter := _counter l + 1 |}
  ∧ connection s'.2
    = Some {| c_path := filename f; c_closed := false; c_txn := None |}
  ∧ _newfolder s'.2 = _newfolder f ∧ mirror s' = messagelist f.

(** A file of the current version on which the version query fails, one
    whose metadata table has no version, and one whose version is not a
    number. *)
Definition busy_world : World :=
  set_faults [None; Some (OperationalError "database is locked")]
    current_world.

Definition no_version_world : World :=
  set_files {[ "INBOX" := {| metadata := Some ∅; status := None |} ]}
    current_world.

Definition odd_version_world : World :=
  set_files {[ "INBOX" := {| metadata := Some {[ "db_version" := "two" ]};
                             status := None |} ]}
    current_world.

(** A folder opened on a file whose table has a row of id -2, and the same
    folder after [cachemessagelist]. *)
Definition negative_uid_store : St :=
  ({| locks := {[ "INBOX" := {| _lock := false; _counter := 1 |}]};
      files := {[ "INBOX" :=
        {| metadata := Some {["db_version" := "2"]};
           status := Some
             {| t_cols := [("flags", VNull); ("mtime", VNull);
                           ("labels", VNull)];
                t_rows := {[ -2 := {[ "flags" := VText "S";
                                      "mtime" := VInt 0;
                                      "labels" := VText "" ]} ]} |} |} ]};
      faults := [];
      trace := [];
      threadsafety := 1 |},
   {| filename := "INBOX"; fsync := true;
      connection := Some {| c_path := "INBOX"; c_closed := false;
                            c_txn := None |};
      _in_transactions := 0;
      messagelist := ∅;
      _newfolder := false |}).

Definition negative_uid_folder : St :=
  ({| locks := {[ "INBOX" := {| _lock := false; _counter := 1 |}]};
      files := files negative_uid_store.1;
      faults := [];
      trace := [EvSelect "SELECT id,flags,mtime,labels from status"];
      threadsafety := 1 |},
   {| filename := "INBOX"; fsync := true;
      connection := Some {| c_path := "INBOX"; c_closed := false;
                            c_txn := None |};
      _in_transactions := 0;
      messagelist := {[ -2 := {| uid := -2; flags := {["S"]}; labels := ∅;
                                 time := 0; mtime := VInt 0 |} ]};
      _newfolder := false |}).

(** * Properties *)

(** Decides a closed statement by evaluation. *)
Ltac by_compute := apply (bool_decide_unpack _); vm_compute; exact I.

(** ** Running the binds *)

Lemma bind_Ok {A B} (m : M A) (k : A → M B) s a s' :
  m s = Ok a s' → bind m k s = k a s'.
Proof. unfold bind. by intros ->. Qed.

Lemma bind_Raise {A B} (m : M A) (k : A → M B) s e s' :
  m s = Raise e s' → bind m k s = Raise e s'.
Proof. unfold bind. by intros ->. Qed.

Lemma world_eta (w : World) :
  {| locks := locks w; files := files w; faults := faults w;
     trace := trace w; threadsafety := threadsafety w |} = w.
Proof. by destruct w. Qed.

Lemma folder_eta (f : Folder) :
  {| filename := filename f; fsync := fsync f; connection := connection f;
     _in_transactions := _in_transactions f; messagelist := messagelist f;
     _newfolder := _newfolder f |} = f.
Proof. by destruct f. Qed.

(** [opened] is what [openfiles] makes of a new folder on a new file. *)
Lemma openfiles_new dofsync :
  openfiles (Folder_init "INBOX" dofsync world0)
  = Ok tt (opened "INBOX" dofsync).
Proof. destruct dofsync; vm_compute; reflexivity. Qed.

Lemma savemessage_new dofsync :
  savemessage 1 5 {["S"]} 0 7 {["Work"]} (opened "INBOX" dofsync)
  = Ok 5 (one_message dofsync).
Proof. destruct dofsync; vm_compute; reflexivity. Qed.

Lemma opened_quiet dofsync : quiet (opened "INBOX" dofsync) inbox_connection.
Proof.
  repeat split. exists {| _lock := false; _counter := 1 |}.
  split; [vm_compute|]; reflexivity.
Qed.

Lemma opened_ready dofsync : ready (opened "INBOX" dofsync) inbox_connection.
Proof. split; [apply opened_quiet|]. apply map_Forall_empty. Qed.

Lemma one_message_quiet dofsync :
  quiet (one_message dofsync) inbox_connection.
Proof.
  repeat split. exists {| _lock := false; _counter := 1 |}.
  split; [vm_compute|]; reflexivity.
Qed.

Lemma one_message_ready dofsync :
  ready (one_message dofsync) inbox_connection.
Proof.
  split; [apply one_message_quiet|].
  apply map_Forall_singleton. by_compute.
Qed.

Lemma savemessage_second dofsync :
  savemessage 1 9 ∅ 3 0 ∅ (one_message dofsync)
  = Ok 9 (two_messages dofsync).
Proof. destruct dofsync; vm_compute; reflexivity. Qed.

Lemma two_messages_quiet dofsync :
  quiet (two_messages dofsync) inbox_connection.
Proof.
  repeat split. exists {| _lock := false; _counter := 1 |}.
  split; [vm_compute|]; reflexivity.
Qed.

Lemma two_messages_ready dofsync :
  ready (two_messages dofsync) inbox_connection.
Proof.
  split; [apply two_messages_quiet|].
  apply map_Forall_insert_2; [by_compute|].
  apply map_Forall_singleton. by_compute.
Qed.

Lemma two_messages_has_cols dofsync cols :
  forallb (λ c, bool_decide (c ∈ status_cols)) cols = true →
  has_cols (view (two_messages dofsync).1 inbox_connection) cols.
Proof.
  intros H. eexists. split; [vm_compute; reflexivity|].
  rewrite <-H. reflexivity.
Qed.

Lemma one_message_has_cols dofsync cols :
  forallb (λ c, bool_decide (c ∈ status_cols)) cols = true →
  has_cols (view (one_message dofsync).1 inbox_connection) cols.
Proof.
  intros H. eexists. split; [vm_compute; reflexivity|].
  rewrite <-H. reflexivity.
Qed.

(** ** savemessage with a uid that cannot be assigned *)

(** C1, as the code has it: for every negative uid, [savemessage] returns
    the uid and leaves the whole state as it was: the mirror, the store, and
    no call is made on the connection. *)
Theorem savemessage_negative_uid fuel uid flags rtime mtime labels s :
  uid < 0 →
  savemessage fuel uid flags rtime mtime labels s = Ok uid s.
Proof.
  intros Hneg. unfold savemessage.
  rewrite bool_decide_eq_true_2 by done. reflexivity.
Qed.

Lemma savemessage_negative_uid_witness :
  savemessage 1 (-1) {["S"]} 0 0 ∅ (opened "INBOX" true)
  = Ok (-1) (opened "INBOX" true).
Proof. apply savemessage_negative_uid. lia. Defined.

(** C1 fails at uid 0, which is non-positive: the message enters the mirror
    and a row is inserted in the store. *)
Lemma savemessage_uid_zero_is_saved :
  ∃ s', savemessage 1 0 {["S"]} 0 0 ∅ (opened "INBOX" true) = Ok 0 s'
        ∧ mirror (opened "INBOX" true) !! 0 = None
        ∧ is_Some (mirror s' !! 0)
        ∧ store_row (opened "INBOX" true) 0 = None
        ∧ is_Some (store_row s' 0)
        ∧ calls_between (opened "INBOX" true) s'
            [EvCommit;
             EvExecute (Insert false status_cols)
               {| p_id := 0; p_vals := [VText "S"; VInt 0; VText ""] |}].
Proof.
  eexists. split; [vm_compute; reflexivity|].
  split; [vm_compute; reflexivity|]. split; [by_compute|].
  split; [vm_compute; reflexivity|]. split; [by_compute|].
  vm_compute; reflexivity.
Qed.

(** ** The transaction scope *)

Lemma conn_commit_in_transactions s s' :
  state_of (conn_commit s) = Some s' →
  _in_transactions s'.2 = _in_transactions s.2 ∧ fsync s'.2 = fsync s.2.
Proof.
  destruct s as [w f].
  unfold conn_commit, the_connection, bind, self, raise, ret, log,
    next_fault, flush, modify_world, modify_self; simpl.
  destruct (connection f) as [c|]; simpl; [|by intros [= <-]].
  destruct (c_closed c); simpl; [by intros [= <-]|].
  destruct (faults w) as [|[e|] l]; simpl;
    destruct (c_txn c); simpl; by intros [= <-].
Qed.

Lemma scope_step_nonneg s c :
  0 ≤ _in_transactions s.2 → 0 ≤ _in_transactions (scope_step s c).2.
Proof.
  intros Hs. destruct s as [w f]. unfold scope_step.
  destruct c; unfold __enter__, __exit__, bind, self, assert, modify_self,
    raise, ret; simpl in *.
  - destruct (fsync f); simpl; [done|].
    case_bool_decide; simpl; lia.
  - destruct (fsync f); simpl; [done|].
    case_bool_decide; simpl; [|done].
    case_bool_decide; simpl; [|lia].
    match goal with
    | |- context [state_of ?r] => destruct (state_of r) as [s'|] eqn:E
    end; simpl; [|done].
    apply conn_commit_in_transactions in E as [-> _]. simpl. lia.
Qed.

(** C8, as the code has it. The counter starts at 0 and never goes negative,
    whatever calls of [__enter__] and [__exit__] are made. When [dofsync()] is
    false: [__enter__] on a folder with a connection adds one; [__exit__]
    with the counter at 0 or below is an [AssertionError] that changes
    nothing; [__exit__] otherwise takes one off and calls [commit()] exactly
    when the counter is back at 0. When [dofsync()] is true both do
    nothing. *)
Theorem transaction_scope_counter (s : St) (calls : list scope_call) :
  (_in_transactions (Folder_init (filename s.2) (fsync s.2) s.1).2 = 0)
  ∧ (0 ≤ _in_transactions s.2 →
     0 ≤ _in_transactions (scope_run calls s).2)
  ∧ (fsync s.2 = false →
     (is_Some (connection s.2) →
      __enter__ s
      = Ok tt (s.1, set_in_transactions (_in_transactions s.2 + 1) s.2))
     ∧ (_in_transactions s.2 ≤ 0 → __exit__ s = Raise AssertionError s)
     ∧ (0 < _in_transactions s.2 →
        let s' := (s.1, set_in_transactions (_in_transactions s.2 - 1) s.2) in
        __exit__ s
        = if bool_decide (_in_transactions s.2 = 1) then conn_commit s'
          else Ok tt s'))
  ∧ (fsync s.2 = true → __enter__ s = Ok tt s ∧ __exit__ s = Ok tt s).
Proof.
  split; [done|]. split.
  { revert s. induction calls as [|c calls IH]; intros s Hs; [done|].
    simpl. apply IH. by apply scope_step_nonneg. }
  destruct s as [w f]; simpl. split.
  - intros Hf. unfold __enter__, __exit__, bind, self, assert, modify_self,
      raise, ret; simpl. rewrite Hf; simpl. repeat split.
    + intros Hc. by rewrite bool_decide_eq_true_2.
    + intros Hn. rewrite bool_decide_eq_false_2 by lia. done.
    + intros Hn. rewrite bool_decide_eq_true_2 by lia.
      repeat case_bool_decide; simpl in *; try lia; done.
  - intros Hf. unfold __enter__, __exit__, bind, self, ret; simpl.
    by rewrite Hf.
Qed.

Lemma transaction_scope_counter_witness :
  0 ≤ _in_transactions
        (scope_run [Exit; Enter; Exit; Exit; Enter] (opened "INBOX" false)).2
  ∧ __enter__ (opened "INBOX" false)
    = Ok tt ((opened "INBOX" false).1,
             set_in_transactions 1 (opened "INBOX" false).2)
  ∧ __exit__ (opened "INBOX" false)
    = Raise AssertionError (opened "INBOX" false)
  ∧ __enter__ (opened "INBOX" true) = Ok tt (opened "INBOX" true).
Proof.
  destruct (transaction_scope_counter (opened "INBOX" false)
              [Exit; Enter; Exit; Exit; Enter]) as (_ & H1 & H2 & _).
  destruct H2 as (H2 & H3 & _); [vm_compute; reflexivity|].
  destruct (transaction_scope_counter (opened "INBOX" true) [])
    as (_ & _ & _ & H4).
  split; [apply H1; vm_compute; discriminate|].
  split; [apply H2; vm_compute; eauto|].
  split; [apply H3; vm_compute; discriminate|].
  apply H4. vm_compute; reflexivity.
Defined.

(** C8 fails where [dofsync()] is true: [__enter__] does not add to the
    counter, and an [__exit__] without an [__enter__] is no assertion
    failure. *)
Lemma transaction_scope_fsync_counterexample :
  fsync (opened "INBOX" true).2 = true
  ∧ is_Some (connection (opened "INBOX" true).2)
  ∧ _in_transactions (opened "INBOX" true).2 = 0
  ∧ (∃ s', __enter__ (opened "INBOX" true) = Ok tt s'
           ∧ _in_transactions s'.2 = 0)
  ∧ __exit__ (opened "INBOX" true) = Ok tt (opened "INBOX" true).
Proof.
  split; [reflexivity|]. split; [vm_compute; eauto|].
  split; [reflexivity|].
  split; [eexists; split; vm_compute; reflexivity|].
  vm_compute; reflexivity.
Qed.

(** ** The write executor *)

Section sql_write.
Context (sql : stmt) (a : sqlargs).
Context (w : World) (f : Folder) (c : Connection) (l : DatabaseFileLock).
Hypothesis Hconn : connection f = Some c.
Hypothesis Hopen : c_closed c = false.
Hypothesis Hlock : locks w !! filename f = Some l.
Hypothesis Hfree : _lock l = false.

Local Abbreviation round := (write_round sql (Some a) (call_mode a)).

Local Ltac start :=
  unfold write_round, with_lock, try_catch, bind, lock_of, set_lock_of;
  simpl; rewrite Hlock; simpl; rewrite Hfree;
  unfold conn_call, conn_execute, conn_executemany, conn_commit,
    the_connection, bind, ret, raise, self, world, log, next_fault, flush,
    modify_world, modify_self, on_write_error, release, lock_of,
    set_lock_of, set_locks, set_trace, set_faults, set_files,
    set_connection, set_txn.

Lemma unlock_eq :
  <[filename f := {| _lock := false; _counter := _counter l |}]>
    (<[filename f := {| _lock := true; _counter := _counter l |}]> (locks w))
  = locks w.
Proof.
  rewrite insert_insert_eq. apply insert_id. rewrite Hlock.
  destruct l; simpl in *. by subst.
Qed.

Local Ltac crunch H1 H2 :=
  repeat (progress (simpl;
    rewrite ?Hconn, ?Hopen, ?H1, ?H2, ?lookup_insert_eq, ?unlock_eq));
  unfold set_files, set_trace, set_faults, set_connection, set_txn;
  simpl; rewrite ?Hopen, ?H1.

(** The store answers [e] to the statement. *)
Lemma round_statement_fault e rest :
  faults w = Some e :: rest →
  round (w, f)
  = on_write_error false e
      (set_faults rest (set_trace (call_event sql a :: trace w) w), f).
Proof.
  intros Hf. start. destruct a; crunch Hf Hf; done.
Qed.

(** The store lets the statement and the commit through. *)
Lemma round_quiet db :
  faults w = [] →
  run_args sql a (view w c) = (None, db) →
  round (w, f) = Ok true (after_write [call_event sql a] db c (w, f)).
Proof.
  intros Hf Hrun. start. unfold after_write, view in *.
  destruct a; simpl in Hrun; crunch Hf Hrun;
    case_bool_decide; crunch Hf Hrun; done.
Qed.

(** The store lets the statement through and answers [e] to the commit. *)
Lemma round_commit_fault e rest db :
  faults w = None :: Some e :: rest →
  _in_transactions f = 0 →
  run_args sql a (view w c) = (None, db) →
  round (w, f)
  = on_write_error true e
      (set_faults rest
         (set_trace (EvCommit :: call_event sql a :: trace w) w),
       set_connection (Some (set_txn (Some db) c)) f).
Proof.
  intros Hf H0 Hrun. start. unfold view in *.
  destruct a; simpl in Hrun; crunch Hf Hrun;
    rewrite bool_decide_eq_true_2 by done; crunch Hf Hrun; done.
Qed.

(** Inside a transaction scope no commit is called. *)
Lemma round_in_scope db :
  faults w = [] →
  _in_transactions f ≠ 0 →
  run_args sql a (view w c) = (None, db) →
  round (w, f)
  = Ok true (set_trace (call_event sql a :: trace w) w,
             set_connection (Some (set_txn (Some db) c)) f).
Proof.
  intros Hf H0 Hrun. rewrite (round_quiet db) by done.
  unfold after_write. simpl. by rewrite bool_decide_eq_false_2.
Qed.

(** The statement fails on the database. *)
Lemma round_statement_error e db :
  faults w = [] →
  run_args sql a (view w c) = (Some e, db) →
  round (w, f)
  = on_write_error false e
      (set_trace (call_event sql a :: trace w) w,
       set_connection (Some (set_txn (Some db) c)) f).
Proof.
  intros Hf Hrun. start. unfold view in *.
  destruct a; simpl in Hrun; crunch Hf Hrun; done.
Qed.
End sql_write.

Lemma retries_snoc {A} (x : list A) k :
  mjoin (replicate k x) ++ x = x ++ mjoin (replicate k x).
Proof.
  induction k as [|k IH]; simpl; [by rewrite app_nil_r|].
  by rewrite <-app_assoc, IH.
Qed.

(** As long as the store answers [locked], the loop goes round again. *)
Lemma sql_write_retries sql a k fuel : ∀ w f c l rest,
  connection f = Some c → c_closed c = false →
  locks w !! filename f = Some l → _lock l = false →
  faults w = replicate k (Some locked) ++ rest →
  __sql_write (k + fuel) sql (Some a) (call_mode a) (w, f)
  = __sql_write fuel sql (Some a) (call_mode a)
      (after_retries k (call_event sql a) rest (w, f)).
Proof.
  induction k as [|k IH]; intros w f c l rest Hc Ho Hl Hf Hfl; simpl in *.
  - unfold after_retries; simpl. rewrite <-Hfl.
    unfold set_faults, set_trace; simpl. by rewrite world_eta.
  - unfold bind at 1.
    rewrite (round_statement_fault sql a w f c l Hc Ho Hl Hf _ _ Hfl).
    unfold on_write_error, locked; simpl.
    unfold bind, log, modify_world, ret; simpl.
    erewrite (IH _ f c l rest); [|done..].
    unfold after_retries; simpl. do 2 f_equal.
    unfold set_faults, set_trace; simpl. f_equal.
    change (?x :: ?y :: trace w) with ([x; y] ++ trace w).
    by rewrite app_assoc, retries_snoc, <-app_assoc.
Qed.

(** C7: the retry policy and the commit policy of [__sql_write], for a folder
    with an open connection whose file lock is free.
    - As long as the store answers 'database is locked' to the statement the
      critical section is run again, for any number [k] of such answers; [k]
      rounds do not end the loop and nothing is raised.
    - The same answer to the commit runs the statement again, too.
    - 'cannot commit - no transaction is active' from the commit ends the
      write as a success.
    - Any other operational error, from the statement or from the commit, is
      raised to the caller.
    - With a store that lets the calls through, [commit()] is called right
      after the statement when [_in_transactions] is 0, and not at all when
      it is above 0. *)
Theorem sql_write_policy sql a w f c l fuel :
  connection f = Some c → c_closed c = false →
  locks w !! filename f = Some l → _lock l = false →
  let W n := __sql_write n sql (Some a) (call_mode a) in
  let ev := call_event sql a in
  (∀ k rest, faults w = replicate k (Some locked) ++ rest →
     W (k + fuel)%nat (w, f) = W fuel (after_retries k ev rest (w, f))
     ∧ W k (w, f) = OutOfFuel)
  ∧ (∀ rest db, faults w = None :: Some locked :: rest →
       _in_transactions f = 0 → run_args sql a (view w c) = (None, db) →
       W (S fuel) (w, f)
       = W fuel
           (set_faults rest
              (set_trace (EvDebug "Locked sqlite database, retrying."
                          :: EvCommit :: ev :: trace w) w),
            set_connection (Some (set_txn (Some db) c)) f))
  ∧ (∀ rest db, faults w = None :: Some no_transaction :: rest →
       _in_transactions f = 0 → run_args sql a (view w c) = (None, db) →
       W (S fuel) (w, f)
       = Ok tt (set_faults rest (set_trace (EvCommit :: ev :: trace w) w),
                set_connection (Some (set_txn (Some db) c)) f))
  ∧ (∀ m rest, OperationalError m ≠ locked →
       OperationalError m ≠ no_transaction →
       (faults w = Some (OperationalError m) :: rest →
        W (S fuel) (w, f)
        = Raise (OperationalError m)
            (set_faults rest (set_trace (ev :: trace w) w), f))
       ∧ (∀ db, faults w = None :: Some (OperationalError m) :: rest →
            _in_transactions f = 0 →
            run_args sql a (view w c) = (None, db) →
            W (S fuel) (w, f)
            = Raise (OperationalError m)
                (set_faults rest (set_trace (EvCommit :: ev :: trace w) w),
                 set_connection (Some (set_txn (Some db) c)) f)))
  ∧ (∀ db, faults w = [] → run_args sql a (view w c) = (None, db) →
       (_in_transactions f = 0 →
        W (S fuel) (w, f)
        = Ok tt (set_files (<[c_path c := db]> (files w))
                   (set_trace (EvCommit :: ev :: trace w) w),
                 set_connection (Some (set_txn None c)) f))
       ∧ (_in_transactions f > 0 →
          W (S fuel) (w, f)
          = Ok tt (set_trace (ev :: trace w) w,
                   set_connection (Some (set_txn (Some db) c)) f))).
Proof.
  intros Hc Ho Hl Hf W ev. subst W ev. repeat apply conj.
  - intros k rest Hfl. split; [by eapply sql_write_retries|].
    rewrite <-(Nat.add_0_r k) at 1.
    by erewrite sql_write_retries.
  - intros rest db Hfl H0 Hrun. simpl. unfold bind at 1.
    rewrite (round_commit_fault sql a w f c l Hc Ho Hl Hf _ _ _ Hfl H0 Hrun).
    reflexivity.
  - intros rest db Hfl H0 Hrun. simpl. unfold bind at 1.
    rewrite (round_commit_fault sql a w f c l Hc Ho Hl Hf _ _ _ Hfl H0 Hrun).
    reflexivity.
  - intros m rest Hm1 Hm2. split.
    + intros Hfl. simpl. unfold bind at 1.
      rewrite (round_statement_fault sql a w f c l Hc Ho Hl Hf _ _ Hfl).
      unfold on_write_error, locked, no_transaction in *.
      repeat case_decide; by simplify_eq.
    + intros db Hfl H0 Hrun. simpl. unfold bind at 1.
      rewrite (round_commit_fault sql a w f c l Hc Ho Hl Hf _ _ _ Hfl H0 Hrun).
      unfold on_write_error, locked, no_transaction in *.
      repeat case_decide; by simplify_eq.
  - intros db Hfl Hrun. split.
    + intros H0. simpl. unfold bind at 1.
      rewrite (round_quiet sql a w f c l Hc Ho Hl Hf db) by done.
      unfold after_write; simpl. by rewrite bool_decide_eq_true_2.
    + intros H0. simpl. unfold bind at 1.
      rewrite (round_in_scope sql a w f c l Hc Ho Hl Hf db) by (done || lia).
      reflexivity.
Qed.

Lemma sql_write_policy_witness :
  __sql_write 2 (Update ["flags"])
    (Some (One {| p_id := 1; p_vals := [VText "S"] |})) false
    (set_faults [Some locked; Some locked] (opened "INBOX" true).1,
     (opened "INBOX" true).2)
  = OutOfFuel.
Proof.
  destruct (sql_write_policy (Update ["flags"])
              (One {| p_id := 1; p_vals := [VText "S"] |})
              (set_faults [Some locked; Some locked] (opened "INBOX" true).1)
              (opened "INBOX" true).2
              {| c_path := "INBOX"; c_closed := false; c_txn := None |}
              {| _lock := false; _counter := 1 |} 1%nat) as (H & _).
  - reflexivity.
  - reflexivity.
  - vm_compute; reflexivity.
  - reflexivity.
  - apply (H 2%nat []). reflexivity.
Defined.

(** ** What a method leaves alone *)

Section respects.
Context (F : St → St → Prop) `{!PreOrder F}.

Lemma respects_ret {A} (a : A) : respects F (ret a).
Proof. intros s s' [= <-]. reflexivity. Qed.

Lemma respects_raise {A} e : respects F (@raise A e).
Proof. intros s s' [= <-]. reflexivity. Qed.

Lemma respects_self : respects F self.
Proof. intros s s' [= <-]. reflexivity. Qed.

Lemma respects_world : respects F world.
Proof. intros s s' [= <-]. reflexivity. Qed.

Lemma respects_assert b : respects F (assert b).
Proof. destruct b; [apply respects_ret|apply respects_raise]. Qed.

Lemma respects_bind {A B} (m : M A) (k : A → M B) :
  respects F m → (∀ a, respects F (k a)) → respects F (bind m k).
Proof.
  intros Hm Hk s s'. unfold bind.
  destruct (m s) as [a s1|e s1| |] eqn:E; simpl; try done.
  - intros H. etrans; [apply Hm; by rewrite E|]. by eapply Hk.
  - intros [= <-]. apply Hm. by rewrite E.
Qed.

Lemma respects_try_catch {A} (m : M A) (h : exn → M A) :
  respects F m → (∀ e, respects F (h e)) → respects F (try_catch m h).
Proof.
  intros Hm Hh s s'. unfold try_catch.
  destruct (m s) as [a s1|e s1| |] eqn:E; simpl; try done.
  - intros [= <-]. apply Hm. by rewrite E.
  - intros H. etrans; [apply Hm; by rewrite E|]. by eapply Hh.
Qed.

Lemma respects_for_each {A} (l : list A) (body : A → M unit) :
  (∀ x, respects F (body x)) → respects F (for_each l body).
Proof.
  intros Hb. induction l as [|x l IH]; simpl.
  - apply respects_ret.
  - apply respects_bind; auto.
Qed.

Lemma respects_with_lock {A} (body : M A) :
  (∀ s l, F s (set_lock_of l s)) →
  respects F body → respects F (with_lock body).
Proof.
  intros Hl Hb s s'. unfold with_lock.
  destruct (_lock _); [done|].
  match goal with
  | |- context [body ?s1] => destruct (body s1) as [a s2|e s2| |] eqn:E
  end; simpl; try done.
  - intros [= <-]. etrans; [apply Hl|]. etrans; [apply Hb; by rewrite E|].
    apply Hl.
  - intros [= <-]. etrans; [apply Hl|]. etrans; [apply Hb; by rewrite E|].
    apply Hl.
Qed.
End respects.

Global Instance write_frame_preorder sql Inv : PreOrder (write_frame sql Inv).
Proof.
  split.
  - intros [w f]. split; simpl.
    + by destruct f.
    + by exists [].
    + destruct (connection f); eauto.
  - intros s1 s2 s3 [Hf1 (e1 & Ht1 & He1) Hc1] [Hf2 (e2 & Ht2 & He2) Hc2].
    split.
    + rewrite Hf2, Hf1 at 1. reflexivity.
    + exists (e2 ++ e1). rewrite Ht2, Ht1, app_assoc.
      split; [done|]. by apply Forall_app.
    + destruct (connection s1.2) as [c1|].
      * destruct Hc1 as (c2 & E2 & Hp & Hcl & HI). rewrite E2 in Hc2.
        destruct Hc2 as (c3 & E3 & Hp' & Hcl' & HI').
        exists c3. repeat split; try congruence. auto.
      * by rewrite Hc1 in Hc2.
Qed.

Lemma write_frame_lock sql Inv s l : write_frame sql Inv s (set_lock_of l s).
Proof.
  destruct s as [w f]. split; simpl.
  - by destruct f.
  - by exists [].
  - destruct (connection f); eauto.
Qed.

Section write_frame.
Context (sql : stmt) (Inv : Database → Prop).
Hypothesis Inv_step :
  ∀ p db db', Inv db → run_stmt sql p db = inr db' → Inv db'.

Lemma run_one_inv p db : Inv db → Inv (run_one sql p db).2.
Proof.
  intros HI. unfold run_one.
  destruct (run_stmt sql p db) eqn:E; simpl; eauto.
Qed.

Lemma run_many_inv ps : ∀ db, Inv db → Inv (run_many sql ps db).2.
Proof.
  induction ps as [|p ps IH]; intros db HI; simpl; [done|].
  destruct (run_stmt sql p db) eqn:E; simpl; eauto.
Qed.

Local Abbreviation F := (write_frame sql Inv).

Local Ltac frame_conn :=
  repeat match goal with H : connection _ = _ |- _ => rewrite H end;
  try match goal with
      | |- match connection ?x with _ => _ end =>
          destruct (connection x) eqn:?
      end;
  first
    [ reflexivity
    | eexists; split; [reflexivity|]; split; [reflexivity|];
      split; [simpl; congruence|]; simpl; intros HI;
      first [ exact HI | exact (run_one_inv _ _ HI)
            | exact (run_many_inv _ _ HI) ] ].

Local Ltac frame_goal :=
  split; unfold view in *; simpl;
  [ first [ reflexivity
          | match goal with x : Folder |- _ => destruct x; reflexivity end ]
  | first [ exists []; split; [reflexivity|constructor]
          | eexists [_]; split; [reflexivity|];
            constructor; [simpl; done|constructor] ]
  | frame_conn ].

Local Ltac prim :=
  intros [w f] s';
  unfold conn_execute, conn_executemany, conn_commit, the_connection,
    bind, ret, raise, self, world, log, next_fault, flush, modify_world,
    modify_self; simpl;
  destruct (connection f) as [c|] eqn:Hc; simpl;
  [destruct (c_closed c) eqn:Hcl; simpl|].

Lemma respects_the_connection : respects F the_connection.
Proof. prim; intros [= <-]; reflexivity. Qed.

Lemma respects_conn_execute p : respects F (conn_execute sql p).
Proof.
  prim; try (intros [= <-]; reflexivity).
  destruct (faults w) as [|[e|] rest]; simpl;
    try (intros [= <-]; frame_goal);
    match goal with
    | |- context [(run_one ?q ?p ?d).1] => destruct (run_one q p d).1 eqn:E
    end; simpl; intros [= <-]; frame_goal.
Qed.

Lemma respects_conn_executemany ps : respects F (conn_executemany sql ps).
Proof.
  prim; try (intros [= <-]; reflexivity).
  destruct (faults w) as [|[e|] rest]; simpl;
    try (intros [= <-]; frame_goal);
    match goal with
    | |- context [(run_many ?q ?p ?d).1] => destruct (run_many q p d).1 eqn:E
    end; simpl; intros [= <-]; frame_goal.
Qed.

Lemma respects_conn_commit : respects F conn_commit.
Proof.
  prim; try (intros [= <-]; reflexivity).
  destruct (faults w) as [|[e|] rest]; simpl;
    try (intros [= <-]; frame_goal);
    destruct (c_txn c) as [db|] eqn:Ht; unfold bind, ret; simpl;
    intros [= <-]; try frame_goal;
    (split; unfold view; simpl;
     [ destruct f; reflexivity
     | eexists [_]; split; [reflexivity|]; by repeat constructor
     | rewrite Hc; eexists; split; [reflexivity|];
       split; [reflexivity|]; split; [simpl; congruence|];
       simpl; by rewrite Ht, lookup_insert_eq ]).
Qed.

Lemma respects_conn_call a em : respects F (conn_call sql a em).
Proof.
  unfold conn_call. destruct a as [[p|ps]|], em;
    auto using respects_conn_execute, respects_conn_executemany;
    (apply (respects_bind F); [apply respects_the_connection|]);
    intros; apply (respects_raise F).
Qed.

Lemma respects_on_write_error b e : respects F (on_write_error b e).
Proof.
  unfold on_write_error. destruct e; try apply (respects_raise F).
  repeat case_decide; try apply (respects_ret F); try apply (respects_raise F).
  apply (respects_bind F); [|intros; apply (respects_ret F)].
  intros [w f] s' [= <-]. frame_goal.
Qed.

Lemma respects_write_round a em : respects F (write_round sql a em).
Proof.
  unfold write_round. apply (respects_bind F).
  - apply (respects_try_catch F); [|intros; apply (respects_ret F)].
    apply (respects_with_lock F); [apply write_frame_lock|].
    apply (respects_bind F); [apply respects_conn_call|]. intros _.
    apply (respects_bind F); [apply (respects_self F)|]. intros f.
    apply (respects_try_catch F); [|intros; apply (respects_ret F)].
    apply (respects_bind F); [|intros; apply (respects_ret F)].
    case_bool_decide; [apply respects_conn_commit|apply (respects_ret F)].
  - intros [[]|[b e]]; [apply (respects_ret F)|apply respects_on_write_error].
Qed.

(** Whatever the store answers, [__sql_write] leaves the mirror and the
    rest of the folder alone, calls nothing but its statement and
    [commit()], and keeps what the statement keeps. *)
Lemma respects_sql_write fuel a em : respects F (__sql_write fuel sql a em).
Proof.
  induction fuel as [|fuel IH]; simpl; [done|].
  apply (respects_bind F); [apply respects_write_round|].
  intros []; [apply (respects_ret F)|apply IH].
Qed.
End write_frame.

(** ** What the statements do to the rows *)

(** Shows that a tuple can be bound, from what is known of its integers. *)
Ltac bind_ok :=
  unfold bindable, labels_params; simpl;
  rewrite ?bool_decide_eq_true_2 by done; reflexivity.

Lemma stored_uid s u : stored_uids s → is_Some (mirror s !! u) → int64 u.
Proof. intros Hs [m Hm]. by apply (Hs u m). Qed.

Lemma run_stmt_update cols vals id db :
  has_cols db cols → length cols = length vals →
  bindable {| p_id := id; p_vals := vals |} = true →
  run_stmt (Update cols) {| p_id := id; p_vals := vals |} db
  = inr (map_rows (alter (set_cols cols vals) id) db).
Proof.
  intros (t & Ht & Hc) Hlen Hb. unfold run_stmt, map_rows. rewrite Ht; simpl.
  rewrite Hc; simpl. rewrite bool_decide_eq_true_2 by done; simpl.
  by rewrite Hb.
Qed.

Lemma run_stmt_delete id db :
  is_Some (status db) → int64 id →
  run_stmt Delete {| p_id := id; p_vals := [] |} db
  = inr (map_rows (delete id) db).
Proof.
  intros [t Ht] Hid. unfold run_stmt, map_rows. rewrite Ht. simpl.
  unfold bindable. simpl. by rewrite bool_decide_eq_true_2.
Qed.

Lemma run_stmt_insert cols vals id db t :
  status db = Some t → forallb (has_col t) cols = true →
  length cols = length vals → t_rows t !! id = None →
  bindable {| p_id := id; p_vals := vals |} = true →
  run_stmt (Insert false cols) {| p_id := id; p_vals := vals |} db
  = inr (map_rows (insert id (new_row t cols vals)) db).
Proof.
  intros Ht Hc Hlen Hid Hb. unfold run_stmt, map_rows. rewrite Ht; simpl.
  rewrite Hc; simpl. rewrite bool_decide_eq_true_2 by done; simpl.
  rewrite Hb; simpl.
  rewrite bool_decide_eq_false_2; [done|]. rewrite Hid. by intros [].
Qed.

(** A tuple with an integer that does not fit is not run: binding it raises
    [OverflowError], whatever the rows are. *)
Lemma run_stmt_too_large sql p db t :
  status db = Some t →
  match sql with
  | Insert _ cols | Update cols =>
      forallb (has_col t) cols = true ∧ length cols = length (p_vals p)
  | Delete => p_vals p = []
  end →
  bindable p = false →
  run_stmt sql p db = inl too_large.
Proof.
  intros Ht Hsql Hb. unfold run_stmt. rewrite Ht.
  destruct sql as [r cols|cols|]; simpl.
  - destruct Hsql as [-> Hlen]. simpl.
    rewrite bool_decide_eq_true_2 by done. simpl. by rewrite Hb.
  - destruct Hsql as [-> Hlen]. simpl.
    rewrite bool_decide_eq_true_2 by done. simpl. by rewrite Hb.
  - rewrite bool_decide_eq_true_2 by done. simpl. by rewrite Hb.
Qed.

Lemma has_cols_map_rows g db cols :
  has_cols db cols → has_cols (map_rows g db) cols.
Proof.
  intros (t & Ht & Hc). unfold has_cols, map_rows; simpl. rewrite Ht; simpl.
  eexists; split; [done|]. done.
Qed.

Lemma rows_of_map_rows g db :
  is_Some (status db) → rows_of (map_rows g db) = g (rows_of db).
Proof. intros [t Ht]. unfold rows_of, map_rows; simpl. by rewrite Ht. Qed.

(** ** savemessage with a uid that the mirror has *)

Lemma insert_as_alter {A} (g : A → A) (m : gmap Z A) i x :
  m !! i = Some x → <[i := g x]> m = alter g i m.
Proof.
  intros H. apply map_eq. intros j. destruct (decide (i = j)) as [<-|Hne].
  - by rewrite lookup_insert_eq, lookup_alter_eq, H.
  - by rewrite lookup_insert_ne, lookup_alter_ne.
Qed.

Lemma update_msg_existing uid g w f m :
  messagelist f !! uid = Some m →
  update_msg uid g (w, f)
  = Ok tt (w, set_messagelist (<[uid := g m]> (messagelist f)) f).
Proof.
  intros H. unfold update_msg, bind, self, modify_self; simpl. by rewrite H.
Qed.

Lemma uidexists_existing uid w f :
  is_Some (messagelist f !! uid) → uidexists uid (w, f) = Ok true (w, f).
Proof.
  intros H. unfold uidexists, bind, self, ret; simpl.
  by rewrite bool_decide_eq_true_2.
Qed.

Lemma savemessageflags_existing fuel uid fl w f m :
  messagelist f !! uid = Some m →
  savemessageflags fuel uid fl (w, f)
  = __sql_write fuel (Update ["flags"])
      (Some (One {| p_id := uid; p_vals := [VText (flags_str fl)] |})) false
      (w, set_messagelist (<[uid := set_flags fl m]> (messagelist f)) f).
Proof.
  intros H. unfold savemessageflags.
  erewrite bind_Ok; [|by apply uidexists_existing].
  erewrite bind_Ok; [|reflexivity].
  erewrite bind_Ok; [|by apply update_msg_existing]. reflexivity.
Qed.

Lemma write_event_not_insert cols ev :
  write_event (Update cols) ev → is_insert ev = false.
Proof. destruct ev as [| |[]|[]| | | | |]; simpl; try done. Qed.

(** C3: for a uid that the mirror has, [savemessage] is [savemessageflags]
    followed by the return of the uid (for a uid that is not negative: the
    negative ones return before the mirror is looked at); whatever the store
    answers, no INSERT is called and a return gives the uid back; and with a
    store that lets the calls through it returns, the flags of the mirror
    entry and of the row being the new ones. *)
Theorem savemessage_existing_uid fuel uid fl rtime mt lb s :
  is_Some (mirror s !! uid) →
  (0 ≤ uid →
   savemessage fuel uid fl rtime mt lb s
   = (let* _ := savemessageflags fuel uid fl in ret uid) s)
  ∧ (∀ s', state_of (savemessage fuel uid fl rtime mt lb s) = Some s' →
       ∃ evs, calls_between s s' evs
              ∧ Forall (λ ev, is_insert ev = false) evs)
  ∧ (∀ r s', savemessage fuel uid fl rtime mt lb s = Ok r s' → r = uid)
  ∧ (∀ c, 0 ≤ uid → ready s c → has_cols (view s.1 c) ["flags"] →
       savemessage (S fuel) uid fl rtime mt lb s
       = Ok uid
           (after_write
              [EvExecute (Update ["flags"])
                 {| p_id := uid; p_vals := [VText (flags_str fl)] |}]
              (map_rows
                 (alter (set_cols ["flags"] [VText (flags_str fl)]) uid)
                 (view s.1 c))
              c
              (s.1, set_messagelist (alter (set_flags fl) uid (mirror s))
                      s.2))).
Proof.
  destruct s as [w f]. unfold mirror; simpl. intros [m Hm].
  assert (Heq : ∀ n, 0 ≤ uid →
    savemessage n uid fl rtime mt lb (w, f)
    = (let* _ := savemessageflags n uid fl in ret uid) (w, f)).
  { intros n Hu. unfold savemessage.
    rewrite bool_decide_eq_false_2 by lia.
    erewrite bind_Ok; [|by apply uidexists_existing]. done. }
  assert (Hneg : uid < 0 →
    savemessage fuel uid fl rtime mt lb (w, f) = Ok uid (w, f)).
  { intros Hu. unfold savemessage.
    rewrite bool_decide_eq_true_2 by done. reflexivity. }
  assert (Hfr : ∀ s', state_of (savemessageflags fuel uid fl (w, f)) = Some s' →
    write_frame (Update ["flags"]) (λ _, True)
      (w, set_messagelist (<[uid := set_flags fl m]> (messagelist f)) f) s').
  { intros s'. rewrite (savemessageflags_existing _ _ _ _ _ m) by done.
    apply respects_sql_write. done. }
  split; [apply Heq|]. split; [|split].
  - intros s' Hs'. destruct (decide (uid < 0)) as [Hu|Hu].
    + rewrite Hneg in Hs' by done. injection Hs' as <-. by exists [].
    + rewrite Heq in Hs' by lia. unfold bind in Hs'.
      destruct (savemessageflags fuel uid fl (w, f)) as [[] s1|e s1| |] eqn:E;
        simpl in Hs'; try done; injection Hs' as <-;
        (destruct (Hfr s1) as [_ (evs & Ht & Hev) _]; [done|]);
        exists evs; (split; [exact Ht|]);
        eapply Forall_impl; eauto using write_event_not_insert.
  - intros r s' Hr. destruct (decide (uid < 0)) as [Hu|Hu].
    + rewrite Hneg in Hr by done. by injection Hr as <- _.
    + rewrite Heq in Hr by lia. unfold bind in Hr.
      destruct (savemessageflags fuel uid fl (w, f)) as [[] s1|e s1| |];
        simpl in Hr; try done. unfold ret in Hr. by injection Hr as <- _.
  - intros c Hu [(Hc & Ho & Hfl & l & Hl & Hfree) Hst] Hcols; simpl in *.
    assert (Hid : int64 uid).
    { apply (stored_uid (w, f)); [done|]. unfold mirror. simpl.
      by rewrite Hm. }
    rewrite Heq by done. unfold bind.
    rewrite (savemessageflags_existing _ _ _ _ _ m) by done.
    simpl. unfold bind at 1.
    rewrite (round_quiet (Update ["flags"]) (One _) w
               (set_messagelist (<[uid := set_flags fl m]> (messagelist f)) f)
               c l Hc Ho Hl Hfree
               (map_rows (alter (set_cols ["flags"] [VText (flags_str fl)]) uid)
                  (view w c))); [| done |].
    + unfold ret, after_write, mirror; simpl.
      by rewrite (insert_as_alter _ _ _ m).
    + simpl. unfold run_one. rewrite run_stmt_update; [done..|bind_ok].
Qed.

Lemma savemessage_existing_uid_witness :
  savemessage 0 5 {["F"]} 0 0 ∅ (one_message true)
  = (let* _ := savemessageflags 0 5 {["F"]} in ret 5) (one_message true)
  ∧ savemessage 1 5 {["F"]} 0 0 ∅ (one_message true)
    = Ok 5
        (after_write
           [EvExecute (Update ["flags"])
              {| p_id := 5; p_vals := [VText (flags_str {["F"]})] |}]
           (map_rows
              (alter (set_cols ["flags"] [VText (flags_str {["F"]})]) 5)
              (view (one_message true).1 inbox_connection))
           inbox_connection
           ((one_message true).1,
            set_messagelist
              (alter (set_flags {["F"]}) 5 (mirror (one_message true)))
              (one_message true).2)).
Proof.
  destruct (savemessage_existing_uid 0 5 {["F"]} 0 0 ∅ (one_message true))
    as (H1 & _ & _ & H4).
  - by_compute.
  - split; [apply H1; lia|]. apply (H4 inbox_connection).
    + lia.
    + apply one_message_ready.
    + apply one_message_has_cols. vm_compute; reflexivity.
Defined.

(** C3 fails for a negative uid that the mirror has (the table had a row of
    id -2, and [cachemessagelist] loaded it): [savemessage] returns at its
    first test and the flags stay, where [savemessageflags] sets them. *)
Lemma savemessage_negative_uid_in_mirror :
  cachemessagelist negative_uid_store = Ok tt negative_uid_folder
  ∧ is_Some (mirror negative_uid_folder !! (-2))
  ∧ savemessage 1 (-2) {["T"]} 0 0 ∅ negative_uid_folder
    = Ok (-2) negative_uid_folder
  ∧ flags <$> mirror negative_uid_folder !! (-2) = Some {["S"]}
  ∧ ({["S"]} : gset string) ≠ {["T"]}
  ∧ ∃ s', savemessageflags 1 (-2) {["T"]} negative_uid_folder = Ok tt s'
          ∧ flags <$> mirror s' !! (-2) = Some {["T"]}.
Proof.
  split; [vm_compute; reflexivity|]. split; [by_compute|].
  split; [reflexivity|]. split; [vm_compute; reflexivity|].
  split; [by_compute|].
  eexists. split; vm_compute; reflexivity.
Qed.

(** ** savemessagelabels with an mtime *)

Lemma col_set_cols_other cols vals r c :
  c ∉ cols → col (set_cols cols vals r) c = col r c.
Proof.
  intros Hc. unfold col, set_cols. rewrite lookup_union_r; [done|].
  apply not_elem_of_list_to_map_1. intros Hin. apply Hc.
  apply list_elem_of_fmap in Hin as ([c' v] & -> & Hin).
  by apply elem_of_zip_l in Hin.
Qed.

(** A statement that sets other columns keeps the [mtime] of every row. *)
Lemma update_keeps_mtime cols p db db' :
  "mtime" ∉ cols →
  run_stmt (Update cols) p db = inr db' → mtimes_of db' = mtimes_of db.
Proof.
  intros Hc. unfold run_stmt.
  destruct (status db) as [t|] eqn:Ht; [|done].
  destruct (forallb _ _); simpl; [|done].
  case_bool_decide; simpl; [|done].
  destruct (bindable p); simpl; [|done]. intros [= <-].
  unfold mtimes_of, rows_of; simpl. rewrite Ht; simpl.
  apply map_eq. intros i. rewrite !lookup_fmap.
  destruct (decide (p_id p = i)) as [<-|Hne].
  - rewrite lookup_alter_eq. destruct (t_rows t !! p_id p); simpl; [|done].
    by rewrite col_set_cols_other.
  - by rewrite lookup_alter_ne.
Qed.

Lemma update_msg_missing uid g w f :
  messagelist f !! uid = None →
  update_msg uid g (w, f) = Raise (KeyError uid) (w, f).
Proof.
  intros H. unfold update_msg, bind, self, raise; simpl. by rewrite H.
Qed.

(** C10: [savemessagelabels] with [mtime=0] is [savemessagelabels] without
    an mtime. Whatever the store answers, it leaves the mtime of every entry
    of the mirror and of every row of the store as it was, and the only
    statement it calls is the update of [labels]. With a store that lets the
    calls through it returns with the labels set. With an mtime that is not
    0, and that fits in the 64 bits of an SQLite integer, the mtime is set,
    in the mirror and by the statement. *)
Theorem savemessagelabels_mtime_zero fuel uid lb s :
  savemessagelabels fuel uid lb (Some 0) s
  = savemessagelabels fuel uid lb None s
  ∧ (∀ s', state_of (savemessagelabels fuel uid lb (Some 0) s) = Some s' →
       mtime <$> mirror s' = mtime <$> mirror s
       ∧ (mtimes_of <$> store s') = (mtimes_of <$> store s)
       ∧ ∃ evs, calls_between s s' evs
                ∧ Forall (write_event (Update ["labels"])) evs)
  ∧ (∀ c m, ready s c → mirror s !! uid = Some m →
       has_cols (view s.1 c) ["labels"] →
       savemessagelabels (S fuel) uid lb (Some 0) s
       = Ok tt
           (after_write
              [EvExecute (Update ["labels"])
                 {| p_id := uid; p_vals := [VText (labels_str lb)] |}]
              (map_rows
                 (alter (set_cols ["labels"] [VText (labels_str lb)]) uid)
                 (view s.1 c))
              c
              (s.1, set_messagelist (<[uid := set_labels lb m]> (mirror s))
                      s.2)))
  ∧ (∀ z c m, z ≠ 0 → int64 z → ready s c → mirror s !! uid = Some m →
       has_cols (view s.1 c) ["labels"; "mtime"] →
       savemessagelabels (S fuel) uid lb (Some z) s
       = Ok tt
           (after_write
              [EvExecute (Update ["labels"; "mtime"])
                 {| p_id := uid;
                    p_vals := [VText (labels_str lb); VInt z] |}]
              (map_rows
                 (alter (set_cols ["labels"; "mtime"]
                           [VText (labels_str lb); VInt z]) uid)
                 (view s.1 c))
              c
              (s.1,
               set_messagelist
                 (<[uid := set_mtime (VInt z) (set_labels lb m)]> (mirror s))
                 s.2))).
Proof.
  destruct s as [w f]. unfold mirror; simpl.
  split; [reflexivity|]. split; [|split].
  - intros s'. unfold savemessagelabels; simpl.
    destruct (messagelist f !! uid) as [m|] eqn:Hm.
    + erewrite bind_Ok; [|by apply update_msg_existing].
      erewrite bind_Ok; [|reflexivity].
      intros Hs'.
      apply (respects_sql_write (Update ["labels"])
               (λ db, ∀ c, connection f = Some c →
                           mtimes_of db = mtimes_of (view w c))) in Hs'.
      2:{ intros p db db' HI Hrun c Hc.
          rewrite (update_keeps_mtime ["labels"] p db db'); [by apply HI| |done].
          by_compute. }
      destruct Hs' as [Hfo Htr Hco]; simpl in *.
      split; [|split; [|exact Htr]].
      * rewrite Hfo; simpl. apply map_eq. intros i. rewrite !lookup_fmap.
        destruct (decide (uid = i)) as [<-|Hne].
        -- by rewrite lookup_insert_eq, Hm.
        -- by rewrite lookup_insert_ne.
      * unfold store; simpl.
        destruct (connection f) as [c|] eqn:Hc.
        -- destruct Hco as (c' & -> & _ & _ & HI); simpl. f_equal.
           apply HI; [|done]. intros c0 [= <-]. done.
        -- by rewrite Hco.
    + erewrite bind_Raise; [|by apply update_msg_missing].
      intros [= <-]. repeat split. by exists [].
  - intros c m [(Hc & Ho & Hfl & l & Hl & Hfree) Hst] Hm Hcols; simpl in *.
    assert (Hid : int64 uid).
    { apply (stored_uid (w, f)); [done|]. unfold mirror. simpl.
      by rewrite Hm. }
    unfold savemessagelabels; simpl.
    erewrite bind_Ok; [|by apply update_msg_existing].
    erewrite bind_Ok; [|reflexivity].
    simpl. unfold bind at 1.
    erewrite (round_quiet (Update ["labels"]) (One _) w
                (set_messagelist _ f) c l Hc Ho Hl Hfree); [reflexivity|done|].
    simpl. unfold run_one. rewrite run_stmt_update; [done..|bind_ok].
  - intros z c m Hz Hz64 [(Hc & Ho & Hfl & l & Hl & Hfree) Hst] Hm Hcols;
      simpl in *.
    assert (Hid : int64 uid).
    { apply (stored_uid (w, f)); [done|]. unfold mirror. simpl.
      by rewrite Hm. }
    unfold savemessagelabels; simpl.
    rewrite bool_decide_eq_false_2 by done; simpl.
    erewrite bind_Ok; [|by apply update_msg_existing].
    erewrite bind_Ok;
      [|apply update_msg_existing; simpl; apply lookup_insert_eq].
    simpl. unfold bind at 1.
    erewrite (round_quiet (Update ["labels"; "mtime"]) (One _) w
                (set_messagelist _ (set_messagelist _ f)) c l Hc Ho Hl Hfree);
      [|done|].
    + unfold ret, after_write; simpl. by rewrite insert_insert_eq.
    + simpl. unfold run_one. rewrite run_stmt_update; [done..|bind_ok].
Qed.

Lemma savemessagelabels_mtime_zero_witness :
  savemessagelabels 1 5 {["A"]} (Some 0) (one_message true)
  = Ok tt
      (after_write
         [EvExecute (Update ["labels"])
            {| p_id := 5; p_vals := [VText (labels_str {["A"]})] |}]
         (map_rows
            (alter (set_cols ["labels"] [VText (labels_str {["A"]})]) 5)
            (view (one_message true).1 inbox_connection))
         inbox_connection
         ((one_message true).1,
          set_messagelist
            (<[5 := set_labels {["A"]}
                      {| uid := 5; flags := {["S"]}; labels := {["Work"]};
                         time := 0; mtime := VInt 7 |}]>
               (mirror (one_message true)))
            (one_message true).2))
  ∧ savemessagelabels 1 5 {["A"]} (Some 1700000000) (one_message true)
    = Ok tt
        (after_write
           [EvExecute (Update ["labels"; "mtime"])
              {| p_id := 5;
                 p_vals := [VText (labels_str {["A"]}); VInt 1700000000] |}]
           (map_rows
              (alter (set_cols ["labels"; "mtime"]
                        [VText (labels_str {["A"]}); VInt 1700000000]) 5)
              (view (one_message true).1 inbox_connection))
           inbox_connection
           ((one_message true).1,
            set_messagelist
              (<[5 := set_mtime (VInt 1700000000)
                        (set_labels {["A"]}
                           {| uid := 5; flags := {["S"]};
                              labels := {["Work"]}; time := 0;
                              mtime := VInt 7 |})]>
                 (mirror (one_message true)))
              (one_message true).2)).
Proof.
  destruct (savemessagelabels_mtime_zero 0 5 {["A"]} (one_message true))
    as (_ & _ & H3 & H4).
  split.
  - apply H3.
    + apply one_message_ready.
    + vm_compute; reflexivity.
    + apply one_message_has_cols. vm_compute; reflexivity.
  - apply H4.
    + lia.
    + by_compute.
    + apply one_message_ready.
    + vm_compute; reflexivity.
    + apply one_message_has_cols. vm_compute; reflexivity.
Defined.

(** ** Writes that go through *)

Lemma sql_write_ready sql a fuel s c db :
  quiet s c →
  run_args sql a (view s.1 c) = (None, db) →
  __sql_write (S fuel) sql (Some a) (call_mode a) s
  = Ok tt (after_write [call_event sql a] db c s).
Proof.
  destruct s as [w f]. intros (Hc & Ho & Hfl & l & Hl & Hfree) Hrun.
  simpl in *. unfold bind at 1.
  by rewrite (round_quiet sql a w f c l Hc Ho Hl Hfree db).
Qed.

Lemma after_write_facts evs db c s :
  quiet s c →
  let s' := after_write evs db c s in
  let c' := after_write_connection db c s in
  quiet s' c' ∧ view s'.1 c' = db ∧ mirror s' = mirror s
  ∧ _in_transactions s'.2 = _in_transactions s.2
  ∧ committed s'
    = (if bool_decide (_in_transactions s.2 = 0) then Some db
       else committed s).
Proof.
  destruct s as [w f]. intros (Hc & Ho & Hfl & l & Hl & Hfree).
  unfold after_write, after_write_connection, quiet, view, mirror, committed;
    simpl in *.
  case_bool_decide; simpl; rewrite ?Hc; simpl;
    rewrite ?lookup_insert_eq; repeat split; eauto.
Qed.

(** ** Deleting *)

Lemma status_map_rows g db :
  is_Some (status db) → is_Some (status (map_rows g db)).
Proof. intros [t Ht]. unfold map_rows; simpl. rewrite Ht. by eexists. Qed.

Lemma run_many_delete l : ∀ db,
  is_Some (status db) → (∀ u, u ∈ l → int64 u) →
  run_many Delete ((λ uid, {| p_id := uid; p_vals := [] |}) <$> l) db
  = (None, foldl delete_row db l).
Proof.
  induction l as [|u l IH]; intros db Hdb Hl; simpl; [done|].
  rewrite run_stmt_delete by (first [done | apply Hl, list_elem_of_here]).
  apply IH; [by apply status_map_rows|].
  intros x Hx. by apply Hl, list_elem_of_further.
Qed.

Lemma rows_of_foldl_delete l : ∀ db,
  is_Some (status db) →
  rows_of (foldl delete_row db l) = foldl (λ m u, delete u m) (rows_of db) l.
Proof.
  induction l as [|u l IH]; intros db Hdb; simpl; [done|].
  rewrite IH by (by apply status_map_rows).
  unfold delete_row. by rewrite rows_of_map_rows.
Qed.

Lemma lookup_foldl_delete {A} (l : list Z) : ∀ (m : gmap Z A) u,
  foldl (λ m u, delete u m) m l !! u
  = if decide (u ∈ l) then None else m !! u.
Proof.
  induction l as [|x l IH]; intros m u.
  - destruct (decide (u ∈ [])) as [H|H]; [by apply elem_of_nil in H|done].
  - change (foldl (λ m u, delete u m) (delete x m) l !! u
            = if decide (u ∈ x :: l) then None else m !! u).
    rewrite IH. destruct (decide (u = x)) as [->|Hne].
    + rewrite lookup_delete_eq.
      destruct (decide (x ∈ l)), (decide (x ∈ x :: l)) as [|H]; try done;
        exfalso; apply H, list_elem_of_here.
    + rewrite lookup_delete_ne by done.
      destruct (decide (u ∈ l)) as [H1|H1], (decide (u ∈ x :: l)) as [H2|H2];
        try done.
      * exfalso. by apply H2, list_elem_of_further.
      * apply elem_of_cons in H2 as [?|?]; done.
Qed.

Lemma del_msg_existing uid w f :
  is_Some (messagelist f !! uid) →
  del_msg uid (w, f)
  = Ok tt (w, set_messagelist (delete uid (messagelist f)) f).
Proof.
  intros [m H]. unfold del_msg, bind, self, modify_self; simpl. by rewrite H.
Qed.

Lemma for_each_del_msg l : ∀ w f,
  NoDup l → (∀ u, u ∈ l → is_Some (messagelist f !! u)) →
  for_each l del_msg (w, f)
  = Ok tt (w, set_messagelist (foldl (λ m u, delete u m) (messagelist f) l) f).
Proof.
  induction l as [|x l IH]; intros w f Hnd Hin; simpl.
  - unfold ret. by rewrite <-(folder_eta f) at 1.
  - apply NoDup_cons in Hnd as [Hx Hnd].
    erewrite bind_Ok; [|apply del_msg_existing, Hin, list_elem_of_here].
    rewrite IH; [done|done|]. intros u Hu; simpl.
    rewrite lookup_delete_ne by (intros ->; done).
    apply Hin. by apply list_elem_of_further.
Qed.

(** [deletemessage] of a uid that the mirror does not have is a return
    without a call; [deletemessages] of a list without repetitions takes the
    uids that the mirror has out of the mirror and out of the store, with one
    [executemany], and makes no call when the mirror has none of them. *)
Lemma deletemessages_distinct fuel uidlist s c :
  ready s c → is_Some (status (view s.1 c)) → NoDup uidlist →
  let present := filter (λ uid, is_Some (mirror s !! uid)) uidlist in
  (∀ uid, mirror s !! uid = None → deletemessage fuel uid s = Ok tt s)
  ∧ ∃ s', deletemessages (S fuel) uidlist s = Ok tt s'
          ∧ (∀ u, mirror s' !! u
                  = if decide (u ∈ uidlist) then None else mirror s !! u)
          ∧ (∀ u, store_row s' u
                  = if decide (u ∈ present) then None else store_row s u)
          ∧ (present = [] → s' = s)
          ∧ (present ≠ [] → ∃ evs,
               calls_between s s' evs
               ∧ filter (λ ev, ev ≠ EvCommit) evs
                 = [EvExecuteMany Delete
                      ((λ uid, {| p_id := uid; p_vals := [] |})
                         <$> present)]).
Proof.
  intros [Hr Huids] Hst Hnd present. split.
  { intros uid Hu. destruct s as [w f]. unfold deletemessage, mirror in *.
    unfold bind, self; simpl in *. rewrite Hu. reflexivity. }
  assert (Hpres : ∀ u, u ∈ present ↔ is_Some (mirror s !! u) ∧ u ∈ uidlist).
  { intros u. unfold present. by rewrite list_elem_of_filter. }
  assert (Hb64 : ∀ u, u ∈ present → int64 u).
  { intros u Hu. apply (stored_uid s); [done|]. by apply Hpres in Hu as []. }
  unfold deletemessages. erewrite bind_Ok; [|reflexivity].
  fold (mirror s). fold present.
  destruct present as [|u0 pr] eqn:Epr.
  - simpl. eexists; split; [reflexivity|]. repeat split; try done.
    intros u. case_decide as Hu; [|done].
    destruct (mirror s !! u) eqn:E; [|done].
    exfalso. eapply elem_of_nil, Hpres. split; [by rewrite E|done].
  - rewrite bool_decide_eq_false_2 by done. rewrite <-Epr in *.
    assert (Hndp : NoDup present) by (by apply NoDup_filter).
    erewrite bind_Ok;
      [|apply (sql_write_ready Delete (Many _) fuel s c), run_many_delete;
        done].
    destruct (after_write_facts
                [EvExecuteMany Delete
                   ((λ uid, {| p_id := uid; p_vals := [] |}) <$> present)]
                (foldl delete_row (view s.1 c) present) c s Hr)
      as ((Hc' & _) & Hv & Hm & _).
    destruct (after_write _ _ c s) as [w1 f1] eqn:Es1.
    rewrite for_each_del_msg; [|done|].
    2:{ intros u Hu. apply Hpres in Hu as [Hu _].
        unfold mirror in *. simpl in *. by rewrite Hm. }
    eexists; split; [reflexivity|]. unfold mirror, store_row, store in *.
    simpl in *. repeat split.
    + intros u. rewrite lookup_foldl_delete, Hm.
      destruct (decide (u ∈ present)) as [H1|H1],
        (decide (u ∈ uidlist)) as [H2|H2]; try done.
      * exfalso. apply H2. by apply Hpres.
      * destruct (messagelist s.2 !! u) eqn:E; [|done].
        exfalso. apply H1, Hpres. by rewrite E.
    + intros u. rewrite Hc'; simpl. rewrite Hv.
      rewrite rows_of_foldl_delete, lookup_foldl_delete by done.
      destruct Hr as (-> & _). simpl. by case_decide.
    + rewrite Epr. done.
    + intros _. unfold calls_between. simpl.
      unfold after_write in Es1. destruct s as [w f]; simpl in *.
      case_bool_decide; injection Es1 as <- <-; simpl;
        first [ by eexists [_; _] | by eexists [_] ].
Qed.

(** C5 does not hold for a list that names a uid of the mirror twice. The
    filter keeps both occurrences: the rows of the list are deleted, the
    second [del] of the uid raises [KeyError], and the uids after it stay in
    the mirror without their rows. *)
Lemma deletemessages_duplicate_uid_raises :
  ∃ s', deletemessages 1 [5; 5; 9] (two_messages true)
        = Raise (KeyError 5) s'
        ∧ store_row s' 5 = None ∧ store_row s' 9 = None
        ∧ mirror s' !! 5 = None
        ∧ mirror s' !! 9 = mirror (two_messages true) !! 9
        ∧ is_Some (mirror s' !! 9).
Proof.
  eexists. split; [vm_compute; reflexivity|].
  split; [vm_compute; reflexivity|]. split; [vm_compute; reflexivity|].
  split; [vm_compute; reflexivity|]. split; [vm_compute; reflexivity|].
  by_compute.
Qed.

(** ** Labels in bulk and one by one *)

Lemma foldl_perm_distinct {A B K} (key : A → K) (g : B → A → B) :
  (∀ b x y, key x ≠ key y → g (g b x) y = g (g b y) x) →
  ∀ l l', l ≡ₚ l' → NoDup (key <$> l) → ∀ b, foldl g b l = foldl g b l'.
Proof.
  intros Hcomm l l' Hp.
  induction Hp as [|x l l' Hp IH|x y l|l1 l2 l3 Hp1 IH1 Hp2 IH2];
    intros Hnd b; simpl.
  - done.
  - apply NoDup_cons in Hnd as [_ Hnd]. by apply IH.
  - rewrite !fmap_cons in Hnd.
    apply NoDup_cons in Hnd as [Hy _]. f_equal. apply Hcomm.
    intros Heq. apply Hy. rewrite Heq. apply list_elem_of_here.
  - rewrite IH1 by done. apply IH2. by rewrite <-Hp1.
Qed.

Lemma set_labels_in_comm (m : gmap Z msg) x y :
  x.1 ≠ y.1 →
  set_labels_in (set_labels_in m x) y = set_labels_in (set_labels_in m y) x.
Proof. intros H. unfold set_labels_in. by rewrite alter_alter_ne. Qed.

Lemma set_labels_row_comm db x y :
  x.1 ≠ y.1 →
  set_labels_row (set_labels_row db x) y
  = set_labels_row (set_labels_row db y) x.
Proof.
  intros H. unfold set_labels_row, map_rows; simpl.
  destruct (status db); simpl; [|done]. by rewrite alter_alter_ne.
Qed.

Lemma has_cols_foldl_labels l : ∀ db,
  has_cols db ["labels"] → has_cols (foldl set_labels_row db l) ["labels"].
Proof.
  induction l as [|ul l IH]; intros db H; simpl; [done|].
  by apply IH, has_cols_map_rows.
Qed.

Lemma run_many_update_labels l : ∀ db,
  has_cols db ["labels"] → (∀ u, u ∈ l.*1 → int64 u) →
  run_many (Update ["labels"])
    ((λ ul, {| p_id := ul.1; p_vals := [VText (labels_str ul.2)] |}) <$> l) db
  = (None, foldl set_labels_row db l).
Proof.
  induction l as [|ul l IH]; intros db H Hl; simpl; [done|].
  assert (int64 ul.1) by (apply Hl; rewrite fmap_cons; apply list_elem_of_here).
  rewrite run_stmt_update; [|done..|bind_ok].
  apply IH; [by apply has_cols_map_rows|].
  intros u Hu. apply Hl. rewrite fmap_cons. by apply list_elem_of_further.
Qed.

Lemma for_each_set_labels l : ∀ w f,
  (∀ u, u ∈ l.*1 → is_Some (messagelist f !! u)) →
  for_each l (λ ul, update_msg ul.1 (set_labels ul.2)) (w, f)
  = Ok tt (w, set_messagelist (foldl set_labels_in (messagelist f) l) f).
Proof.
  induction l as [|[u lb] l IH]; intros w f Hin; simpl.
  - unfold ret. by rewrite <-(folder_eta f) at 1.
  - destruct (Hin u) as [m Hm]; [apply list_elem_of_here|].
    erewrite bind_Ok; [|by apply update_msg_existing].
    rewrite IH; simpl.
    + by rewrite (insert_as_alter _ _ _ m).
    + intros u' Hu'. apply lookup_insert_is_Some'. right.
      apply Hin. by apply list_elem_of_further.
Qed.

Lemma ready_set_messagelist s c m :
  quiet s c → quiet (s.1, set_messagelist m s.2) c.
Proof. done. Qed.

(** One call of [savemessagelabels] without an mtime, on a store that lets
    the calls through. *)
Lemma savemessagelabels_ready fuel u lb s c :
  quiet s c → is_Some (mirror s !! u) → has_cols (view s.1 c) ["labels"] →
  int64 u →
  savemessagelabels (S fuel) u lb None s
  = Ok tt
      (after_write
         [EvExecute (Update ["labels"])
            {| p_id := u; p_vals := [VText (labels_str lb)] |}]
         (set_labels_row (view s.1 c) (u, lb)) c
         (s.1, set_messagelist (set_labels_in (mirror s) (u, lb)) s.2)).
Proof.
  intros Hr [m Hm] Hcols Hid. destruct s as [w f]. unfold mirror in *.
  simpl in *. unfold savemessagelabels.
  erewrite bind_Ok; [|by apply update_msg_existing].
  erewrite bind_Ok; [|reflexivity].
  unfold truthy. cbv iota.
  erewrite (sql_write_ready (Update ["labels"]) (One _) fuel
              (w, set_messagelist _ f) c); [| done |].
  - unfold set_labels_in; simpl. by rewrite (insert_as_alter _ _ _ m).
  - simpl. unfold run_one. rewrite run_stmt_update; [done..|bind_ok].
Qed.

Lemma savemessagelabels_each_ready fuel l : ∀ s c,
  quiet s c → has_cols (view s.1 c) ["labels"] →
  (∀ u, u ∈ l.*1 → is_Some (mirror s !! u)) →
  (∀ u, u ∈ l.*1 → int64 u) →
  ∃ s' c',
    savemessagelabels_each (S fuel) l s = Ok tt s' ∧ quiet s' c'
    ∧ mirror s' = foldl set_labels_in (mirror s) l
    ∧ view s'.1 c' = foldl set_labels_row (view s.1 c) l
    ∧ _in_transactions s'.2 = _in_transactions s.2
    ∧ committed s'
      = (if bool_decide (_in_transactions s.2 = 0)
            && negb (bool_decide (l = []))
         then Some (view s'.1 c') else committed s).
Proof.
  induction l as [|[u lb] l IH]; intros s c Hr Hcols Hin H64.
  - exists s, c. rewrite andb_false_r. by destruct s.
  - unfold savemessagelabels_each in *. simpl.
    erewrite bind_Ok;
      [|apply savemessagelabels_ready; [done| |done|];
        [apply Hin|apply H64]; apply list_elem_of_here].
    destruct (after_write_facts
                [EvExecute (Update ["labels"])
                   {| p_id := u; p_vals := [VText (labels_str lb)] |}]
                (set_labels_row (view s.1 c) (u, lb)) c
                (s.1, set_messagelist (set_labels_in (mirror s) (u, lb)) s.2))
      as (Hr1 & Hv1 & Hm1 & Ht1 & Hc1); [by apply ready_set_messagelist|].
    set (s1 := after_write _ _ c _) in *.
    set (c1 := after_write_connection _ c _) in *.
    destruct (IH s1 c1) as (s' & c' & Hrun & Hr' & Hm' & Hv' & Ht' & Hc').
    + done.
    + rewrite Hv1. by apply has_cols_map_rows.
    + intros u' Hu'. rewrite Hm1. unfold mirror; simpl.
      unfold set_labels_in; simpl. apply lookup_alter_is_Some.
      apply Hin. by apply list_elem_of_further.
    + intros u' Hu'. apply H64. by apply list_elem_of_further.
    + exists s', c'. split; [done|]. split; [done|].
      split; [by rewrite Hm', Hm1|]. split; [by rewrite Hv', Hv1|].
      split; [by rewrite Ht', Ht1|].
      rewrite Hc', Ht1, Hc1. simpl in *.
      rewrite andb_true_r.
      destruct (bool_decide (_in_transactions s.2 = 0)); simpl; [|reflexivity].
      destruct (bool_decide (l = [])) eqn:El; simpl; [|reflexivity].
      apply bool_decide_eq_true in El. subst l. simpl in Hv'.
      by rewrite Hv', Hv1.
Qed.

Lemma savemessageslabelsbulk_ready fuel l s c :
  quiet s c → has_cols (view s.1 c) ["labels"] →
  (∀ u, u ∈ l.*1 → is_Some (mirror s !! u)) →
  (∀ u, u ∈ l.*1 → int64 u) →
  ∃ s' c',
    savemessageslabelsbulk (S fuel) l s = Ok tt s' ∧ quiet s' c'
    ∧ mirror s' = foldl set_labels_in (mirror s) l
    ∧ view s'.1 c' = foldl set_labels_row (view s.1 c) l
    ∧ committed s'
      = (if bool_decide (_in_transactions s.2 = 0)
         then Some (view s'.1 c') else committed s).
Proof.
  intros Hr Hcols Hin H64. unfold savemessageslabelsbulk.
  erewrite bind_Ok;
    [|apply (sql_write_ready (Update ["labels"]) (Many _) fuel s c),
        run_many_update_labels; done].
  destruct (after_write_facts
              [EvExecuteMany (Update ["labels"])
                 ((λ ul, {| p_id := ul.1;
                            p_vals := [VText (labels_str ul.2)] |}) <$> l)]
              (foldl set_labels_row (view s.1 c) l) c s Hr)
    as (Hr1 & Hv1 & Hm1 & Ht1 & Hc1).
  set (c1 := after_write_connection _ c _) in *.
  destruct (after_write _ _ c s) as [w1 f1] eqn:Es1.
  rewrite for_each_set_labels.
  2:{ intros u Hu. unfold mirror in *. simpl in *. rewrite Hm1. by apply Hin. }
  exists (w1, set_messagelist (foldl set_labels_in (messagelist f1) l) f1), c1.
  split; [reflexivity|].
  split; [exact (ready_set_messagelist (w1, f1) c1 _ Hr1)|].
  unfold mirror in *. simpl in *. rewrite Hm1, Hv1. by repeat split.
Qed.

(** C6: for a dictionary whose keys the mirror has, on a store that lets the
    calls through, [savemessageslabelsbulk] and the calls of
    [savemessagelabels] for its items, in any order, both return and leave
    the same mirror and the same store; what is committed to the file is the
    same too (for the empty dictionary: if no change was waiting for a
    commit). *)
Theorem savemessageslabelsbulk_as_single_calls fuel lbs lbs' s c :
  ready s c → has_cols (view s.1 c) ["labels"] →
  NoDup lbs.*1 → (∀ u, u ∈ lbs.*1 → is_Some (mirror s !! u)) →
  lbs' ≡ₚ lbs →
  ∃ s1 s2,
    savemessageslabelsbulk (S fuel) lbs s = Ok tt s1
    ∧ savemessagelabels_each (S fuel) lbs' s = Ok tt s2
    ∧ mirror s1 = mirror s2 ∧ store s1 = store s2
    ∧ (lbs ≠ [] ∨ c_txn c = None → committed s1 = committed s2).
Proof.
  intros [Hr Huids] Hcols Hnd Hin Hp.
  assert (H64 : ∀ u, u ∈ lbs.*1 → int64 u).
  { intros u Hu. apply (stored_uid s); [done|]. by apply Hin. }
  destruct (savemessageslabelsbulk_ready fuel lbs s c)
    as (s1 & c1 & Hrun1 & Hr1 & Hm1 & Hv1 & Hc1); [done..|].
  destruct (savemessagelabels_each_ready fuel lbs' s c)
    as (s2 & c2 & Hrun2 & Hr2 & Hm2 & Hv2 & _ & Hc2); [done..| | |].
  { intros u Hu. apply Hin. by rewrite <-Hp. }
  { intros u Hu. apply H64. by rewrite <-Hp. }
  assert (Hnd' : NoDup (fst <$> lbs')) by (by rewrite Hp).
  exists s1, s2. split; [done|]. split; [done|].
  assert (Hv : view s1.1 c1 = view s2.1 c2).
  { rewrite Hv1, Hv2.
    apply (foldl_perm_distinct fst);
      [intros; by apply set_labels_row_comm | by symmetry | done]. }
  split; [|split].
  - rewrite Hm1, Hm2.
    apply (foldl_perm_distinct fst);
      [intros; by apply set_labels_in_comm | by symmetry | done].
  - unfold store. destruct Hr1 as (-> & _), Hr2 as (-> & _). simpl.
    by rewrite Hv.
  - intros Hne. rewrite Hc1, Hc2, Hv.
    case_bool_decide; simpl; [|done].
    case_bool_decide as Hnil; simpl; [|done]. subst lbs'.
    apply Permutation_nil_l in Hp. subst lbs.
    destruct Hne as [?|Htx]; [done|].
    rewrite <-Hv, Hv1. simpl.
    destruct s as [w f], Hr as (Hc & _), Hcols as (t & Ht & _).
    unfold committed, view in *. simpl in *. rewrite Hc, Htx in *. simpl in *.
    destruct (files w !! c_path c); [done|]. done.
Qed.

Lemma savemessageslabelsbulk_as_single_calls_witness :
  ∃ s1 s2,
    savemessageslabelsbulk 1 [(5, {["A"]}); (9, {["B"; "C"]})]
      (two_messages false) = Ok tt s1
    ∧ savemessagelabels_each 1 [(9, {["B"; "C"]}); (5, {["A"]})]
        (two_messages false) = Ok tt s2
    ∧ mirror s1 = mirror s2 ∧ store s1 = store s2
    ∧ (([(5, {["A"]}); (9, {["B"; "C"]})] : list (Z * gset string)) ≠ []
       ∨ c_txn inbox_connection = None → committed s1 = committed s2).
Proof.
  apply (savemessageslabelsbulk_as_single_calls 0
           [(5, {["A"]}); (9, {["B"; "C"]})]
           [(9, {["B"; "C"]}); (5, {["A"]})]
           (two_messages false) inbox_connection).
  - apply two_messages_ready.
  - apply two_messages_has_cols. vm_compute; reflexivity.
  - by_compute.
  - intros u Hu. apply list_elem_of_In in Hu. simpl in Hu.
    destruct Hu as [<-|[<-|[]]]; by_compute.
  - apply perm_swap.
Defined.

(** ** Flags and labels, written and read back *)

Lemma chars_join_single l :
  Forall flag_ok l → PyStr.chars (PyStr.join "" l) = l.
Proof.
  induction 1 as [|x l Hx Hl IH]; [done|].
  destruct x as [|a [|b x]]; try done.
  assert (PyStr.join "" (String a "" :: l) = String a (PyStr.join "" l))
    as -> by (by destruct l).
  change (String a "" :: PyStr.chars (PyStr.join "" l) = String a "" :: l).
  by rewrite IH.
Qed.

Lemma sorted_elements (X : gset string) :
  list_to_set (PyStr.sorted (elements X)) = X.
Proof.
  unfold PyStr.sorted. rewrite merge_sort_Permutation.
  apply list_to_set_elements_L.
Qed.

(** The flags come back from their column. *)
Lemma flags_round_trip (F : gset string) :
  (∀ x, x ∈ F → flag_ok x) → flags_of (VText (flags_str F)) = Some F.
Proof.
  intros HF. unfold flags_of, flags_str. rewrite chars_join_single.
  - by rewrite sorted_elements.
  - apply Forall_forall. intros x Hx. apply HF.
    unfold PyStr.sorted in Hx. rewrite merge_sort_Permutation in Hx.
    by apply elem_of_elements in Hx.
Qed.

Lemma split_no_comma x :
  has_char "," x = false → PyStr.split "," x = [x].
Proof.
  induction x as [|a x IH]; simpl; [done|].
  intros [Ha Hx]%orb_false_elim. apply bool_decide_eq_false in Ha.
  rewrite decide_False by done. by rewrite IH.
Qed.

Lemma split_app_comma x s :
  has_char "," x = false →
  PyStr.split "," (x +:+ String "," s) = x :: PyStr.split "," s.
Proof.
  induction x as [|a x IH].
  - reflexivity.
  - simpl. intros [Ha Hx]%orb_false_elim. apply bool_decide_eq_false in Ha.
    change (String a x +:+ String "," s)
      with (String a (x +:+ String "," s)).
    simpl. rewrite decide_False by done. by rewrite IH.
Qed.

(** The pieces between the commas of a joined list: the first item, and the
    others after the space of the separator. *)
Lemma split_join x l :
  Forall (λ y, has_char "," y = false) (x :: l) →
  PyStr.split "," (PyStr.join ", " (x :: l)) = x :: (String " " <$> l).
Proof.
  revert x. induction l as [|y l IH]; intros x Hall.
  - apply split_no_comma. by inversion Hall.
  - inversion Hall as [|? ? Hx Hl]; subst.
    change (PyStr.join ", " (x :: y :: l))
      with (x +:+ String "," (String " " (PyStr.join ", " (y :: l)))).
    rewrite split_app_comma by done. f_equal.
    change (PyStr.split "," (String " " (PyStr.join ", " (y :: l))))
      with (match PyStr.split "," (PyStr.join ", " (y :: l)) with
            | [] => [String " " ""]
            | p :: ps => String " " p :: ps
            end).
    by rewrite IH.
Qed.

Lemma strip_after_space y : PyStr.strip (String " " y) = PyStr.strip y.
Proof. reflexivity. Qed.

Lemma read_pieces l :
  Forall label_ok l →
  PyStr.strip <$>
    filter (λ lb, (0 < PyStr.len (PyStr.strip lb))%nat) (String " " <$> l)
  = l.
Proof.
  induction 1 as [|y l (_ & Hs & Hne) Hl IH]; [done|].
  rewrite fmap_cons, filter_cons, strip_after_space, Hs.
  rewrite decide_True.
  - by rewrite fmap_cons, strip_after_space, Hs, IH.
  - destruct y; [done|]. unfold PyStr.len. simpl. lia.
Qed.

(** The labels come back from their column. *)
Lemma labels_round_trip (L : gset string) :
  (∀ x, x ∈ L → label_ok x) → labels_of (VText (labels_str L)) = L.
Proof.
  intros HL. unfold labels_of, labels_str.
  assert (Hall : Forall label_ok (PyStr.sorted (elements L))).
  { apply Forall_forall. intros x Hx. apply HL.
    unfold PyStr.sorted in Hx. rewrite merge_sort_Permutation in Hx.
    by apply elem_of_elements in Hx. }
  rewrite <-(sorted_elements L) at 2.
  destruct (PyStr.sorted (elements L)) as [|x l]; [done|].
  rewrite split_join.
  2:{ eapply Forall_impl; [exact Hall|]. by intros ? (? & _). }
  inversion Hall as [|? ? (_ & Hs & Hne) Hl]; subst.
  rewrite filter_cons, Hs. rewrite decide_True.
  - by rewrite fmap_cons, Hs, read_pieces.
  - destruct x; [done|]. unfold PyStr.len. simpl. lia.
Qed.

(** ** Loading the mirror *)

Lemma cache_row_ok id r1 r2 r3 fl w f :
  flags_of r1 = Some fl →
  cache_row (id, r1, r2, r3) (w, f)
  = Ok tt (w, set_messagelist (load_into (messagelist f) (id, r1, r2, r3)) f).
Proof.
  intros Hfl. unfold cache_row, load_into. rewrite Hfl; simpl.
  erewrite bind_Ok; [|reflexivity].
  erewrite bind_Ok; [|apply update_msg_existing; simpl; apply lookup_insert_eq].
  erewrite bind_Ok; [|apply update_msg_existing; simpl; apply lookup_insert_eq].
  erewrite update_msg_existing; [|simpl; apply lookup_insert_eq].
  simpl. by rewrite Hfl, !insert_insert_eq.
Qed.

Lemma for_each_cache_row rows : ∀ w f,
  Forall (λ row, is_Some (flags_of row.1.1.2)) rows →
  for_each rows cache_row (w, f)
  = Ok tt (w, set_messagelist (foldl load_into (messagelist f) rows) f).
Proof.
  induction rows as [|[[[id r1] r2] r3] rows IH]; intros w f Hall; simpl.
  - unfold ret. by rewrite <-(folder_eta f) at 1.
  - inversion Hall as [|? ? [fl Hfl] Hrest]; subst. simpl in Hfl.
    erewrite bind_Ok; [|by eapply cache_row_ok].
    by rewrite IH.
Qed.

Lemma lookup_foldl_load_other rows : ∀ m id,
  id ∉ (λ row, row.1.1.1) <$> rows →
  foldl load_into m rows !! id = m !! id.
Proof.
  induction rows as [|row rows IH]; intros m id Hid; simpl; [done|].
  rewrite fmap_cons in Hid. apply not_elem_of_cons in Hid as [Hne Hid].
  rewrite IH by done. unfold load_into. by rewrite lookup_insert_ne.
Qed.

Lemma lookup_foldl_load rows : ∀ m row,
  NoDup ((λ row, row.1.1.1) <$> rows) → row ∈ rows →
  foldl load_into m rows !! row.1.1.1
  = Some (load_row row.1.1.1 (default ∅ (flags_of row.1.1.2)) row.1.2 row.2).
Proof.
  induction rows as [|r rows IH]; intros m row Hnd Hin; simpl.
  - by apply elem_of_nil in Hin.
  - rewrite fmap_cons in Hnd. apply NoDup_cons in Hnd as [Hr Hnd].
    apply elem_of_cons in Hin as [->|Hin].
    + rewrite lookup_foldl_load_other by done.
      unfold load_into. by rewrite lookup_insert_eq.
    + by apply IH.
Qed.

Lemma cursor_ids t :
  (λ row, row.1.1.1) <$> (cursor_row <$> rows_in_order t)
  ≡ₚ (map_to_list (t_rows t)).*1.
Proof.
  rewrite <-list_fmap_compose. unfold rows_in_order.
  rewrite merge_sort_Permutation. done.
Qed.

(** [cachemessagelist] on a store that lets the calls through, all of whose
    rows have a string for flags: the mirror is the rows, read. *)
Lemma cachemessagelist_ready s c t :
  quiet s c → status (view s.1 c) = Some t →
  forallb (has_col t) status_cols = true →
  (∀ id r, t_rows t !! id = Some r → is_Some (flags_of (col r "flags"))) →
  ∃ s', cachemessagelist s = Ok tt s'
        ∧ store s' = store s
        ∧ ∀ id, mirror s' !! id
                = (λ r, load_row id (default ∅ (flags_of (col r "flags")))
                          (col r "mtime") (col r "labels"))
                    <$> t_rows t !! id.
Proof.
  destruct s as [w f]. intros (Hc & Ho & Hfl & _) Ht Hcols Hrows.
  simpl in *. unfold cachemessagelist.
  erewrite bind_Ok; [|reflexivity].
  erewrite bind_Ok.
  2:{ unfold select_status, the_connection.
      erewrite bind_Ok; [|unfold bind, self; simpl; rewrite Hc, Ho; reflexivity].
      erewrite bind_Ok; [|reflexivity].
      erewrite bind_Ok; [|unfold next_fault; simpl; rewrite Hfl; reflexivity].
      erewrite bind_Ok; [|reflexivity].
      simpl. unfold view in *. simpl. rewrite Ht.
      unfold status_cols in Hcols. rewrite Hcols. reflexivity. }
  rewrite for_each_cache_row.
  2:{ apply Forall_forall. intros row Hrow.
      apply list_elem_of_fmap in Hrow as ([id r] & -> & Hr).
      unfold rows_in_order in Hr. rewrite merge_sort_Permutation in Hr.
      apply elem_of_map_to_list in Hr. simpl. by eapply Hrows. }
  eexists. split; [reflexivity|]. split.
  { unfold store, view. simpl. by rewrite Hc. }
  intros id. unfold mirror; simpl.
  destruct (t_rows t !! id) as [r|] eqn:Hr; simpl.
  - rewrite (lookup_foldl_load _ _ (cursor_row (id, r))); [done| |].
    + rewrite cursor_ids. apply NoDup_fst_map_to_list.
    + apply list_elem_of_fmap. exists (id, r). split; [done|].
      unfold rows_in_order. rewrite merge_sort_Permutation.
      by apply elem_of_map_to_list.
  - rewrite lookup_foldl_load_other; [done|].
    rewrite cursor_ids. intros Hin.
    apply list_elem_of_fmap in Hin as ([id' r] & -> & Hin).
    apply elem_of_map_to_list in Hin. simpl in Hr. congruence.
Qed.

Arguments __sql_write : simpl never.

Lemma col_new_row t v1 v2 v3 :
  let r := new_row t status_cols [v1; v2; v3] in
  col r "flags" = v1 ∧ col r "mtime" = v2 ∧ col r "labels" = v3.
Proof.
  unfold col, new_row. repeat split.
  - erewrite lookup_union_Some_l; [done|]. vm_compute; reflexivity.
  - erewrite lookup_union_Some_l; [done|]. vm_compute; reflexivity.
  - erewrite lookup_union_Some_l; [done|]. vm_compute; reflexivity.
Qed.

(** [savemessage] of a uid that neither the mirror nor the store has, on a
    store that lets the calls through. *)
Lemma savemessage_ready_new fuel uid F rtime mt L s c t :
  quiet s c → status (view s.1 c) = Some t →
  forallb (has_col t) status_cols = true →
  0 ≤ uid → mirror s !! uid = None → t_rows t !! uid = None →
  int64 uid → int64 mt →
  savemessage (S fuel) uid F rtime mt L s
  = Ok uid
      (after_write
         [EvExecute (Insert false status_cols)
            {| p_id := uid;
               p_vals := [VText (flags_str F); VInt mt;
                          VText (labels_str L)] |}]
         (map_rows
            (insert uid
               (new_row t status_cols
                  [VText (flags_str F); VInt mt; VText (labels_str L)]))
            (view s.1 c))
         c
         (s.1,
          set_messagelist
            (<[uid := {| uid := uid; flags := F; labels := L; time := rtime;
                         mtime := VInt mt |}]> (mirror s))
            s.2)).
Proof.
  destruct s as [w f]. unfold mirror. simpl.
  intros Hr Ht Hcols Hu Hm Hrow Hid Hmt. unfold savemessage.
  rewrite bool_decide_eq_false_2 by lia.
  erewrite bind_Ok.
  2:{ unfold uidexists, bind, self, ret; simpl. rewrite Hm. reflexivity. }
  replace (bool_decide (is_Some None)) with false
    by (symmetry; apply bool_decide_eq_false_2; by intros []).
  erewrite bind_Ok; [|reflexivity].
  erewrite bind_Ok; [|reflexivity].
  simpl.
  erewrite bind_Ok.
  2:{ unfold try_catch.
      erewrite (sql_write_ready (Insert false status_cols) (One _) fuel
                  (w, set_messagelist _ (set_messagelist _ f)) c);
        [reflexivity|done|].
      simpl. unfold run_one. simpl.
      erewrite run_stmt_insert; [done..|bind_ok]. }
  unfold ret. simpl. by rewrite insert_insert_eq.
Qed.

(** C2, as the code has it: a set of flags of one character each and a set
    of labels that are not empty, have no comma and no white space at either
    end come back from their columns as they were. Saved with [savemessage]
    (which writes the columns as [saveall] does) for a new uid, uid and
    mtime being integers that SQLite keeps, on a store that lets the calls
    through, and loaded again with [cachemessagelist], the entry of the
    mirror has these flags and labels, and writing them again gives the same
    strings. *)
Theorem flags_labels_round_trip fuel uid F L rtime mt s c t :
  quiet s c → status (view s.1 c) = Some t →
  forallb (has_col t) status_cols = true →
  0 ≤ uid → mirror s !! uid = None → t_rows t !! uid = None →
  int64 uid → int64 mt →
  (∀ id r, t_rows t !! id = Some r → is_Some (flags_of (col r "flags"))) →
  (∀ x, x ∈ F → flag_ok x) → (∀ x, x ∈ L → label_ok x) →
  flags_of (VText (flags_str F)) = Some F
  ∧ labels_of (VText (labels_str L)) = L
  ∧ ∃ s1 s2 m,
      savemessage (S fuel) uid F rtime mt L s = Ok uid s1
      ∧ store_row s1 uid
        = Some (new_row t status_cols
                  [VText (flags_str F); VInt mt; VText (labels_str L)])
      ∧ cachemessagelist s1 = Ok tt s2
      ∧ mirror s2 !! uid = Some m
      ∧ flags m = F ∧ labels m = L ∧ mtime m = VInt mt
      ∧ flags_str (flags m) = flags_str F
      ∧ labels_str (labels m) = labels_str L.
Proof.
  intros Hr Ht Hcols Hu Hm Hrow Hid Hmt Hrows HF HL.
  pose proof (flags_round_trip F HF) as HFr.
  pose proof (labels_round_trip L HL) as HLr.
  split; [done|]. split; [done|].
  set (row := new_row t status_cols
                [VText (flags_str F); VInt mt; VText (labels_str L)]).
  destruct (col_new_row t (VText (flags_str F)) (VInt mt)
              (VText (labels_str L))) as (Hc1 & Hc2 & Hc3). fold row in Hc1, Hc2, Hc3.
  rewrite (savemessage_ready_new fuel uid F rtime mt L s c t) by done.
  fold row.
  destruct (after_write_facts
              [EvExecute (Insert false status_cols)
                 {| p_id := uid;
                    p_vals := [VText (flags_str F); VInt mt;
                               VText (labels_str L)] |}]
              (map_rows (insert uid row) (view s.1 c)) c
              (s.1, set_messagelist
                      (<[uid := {| uid := uid; flags := F; labels := L;
                                   time := rtime; mtime := VInt mt |}]>
                         (mirror s)) s.2))
    as (Hr1 & Hv1 & _); [by apply ready_set_messagelist|].
  set (s1 := after_write _ _ c _) in *.
  set (c1 := after_write_connection _ c _) in *.
  destruct (cachemessagelist_ready s1 c1
              {| t_cols := t_cols t; t_rows := <[uid := row]> (t_rows t) |})
    as (s2 & Hrun2 & _ & Hm2).
  - done.
  - rewrite Hv1. unfold map_rows. simpl. by rewrite Ht.
  - done.
  - simpl. intros id r. destruct (decide (uid = id)) as [<-|Hne].
    + rewrite lookup_insert_eq. intros [= <-]. rewrite Hc1. by eexists.
    + rewrite lookup_insert_ne by done. apply Hrows.
  - exists s1, s2,
      {| uid := uid; flags := F; labels := L; time := 0; mtime := VInt mt |}.
    split; [done|]. split.
    { unfold store_row, store. destruct Hr1 as (-> & _). simpl.
      rewrite Hv1, rows_of_map_rows by (by rewrite Ht).
      unfold rows_of. rewrite Ht. simpl. apply lookup_insert_eq. }
    split; [done|]. split.
    { rewrite Hm2. simpl. rewrite lookup_insert_eq. simpl.
      rewrite Hc1, Hc2, Hc3, HFr. unfold load_row. by rewrite HLr. }
    done.
Qed.

Lemma flags_labels_round_trip_witness :
  flags_of (VText (flags_str {["S"; "F"]})) = Some {["S"; "F"]}
  ∧ labels_of (VText (labels_str {["Work"; "To do"]}))
    = {["Work"; "To do"]}
  ∧ ∃ s1 s2 m,
      savemessage 1 5 {["S"; "F"]} 0 7 {["Work"; "To do"]}
        (opened "INBOX" true) = Ok 5 s1
      ∧ store_row s1 5
        = Some (new_row {| t_cols := [("flags", VNull); ("mtime", VNull);
                                      ("labels", VNull)];
                           t_rows := ∅ |}
                  status_cols
                  [VText (flags_str {["S"; "F"]}); VInt 7;
                   VText (labels_str {["Work"; "To do"]})])
      ∧ cachemessagelist s1 = Ok tt s2
      ∧ mirror s2 !! 5 = Some m
      ∧ flags m = {["S"; "F"]} ∧ labels m = {["Work"; "To do"]}
      ∧ mtime m = VInt 7
      ∧ flags_str (flags m) = flags_str {["S"; "F"]}
      ∧ labels_str (labels m) = labels_str {["Work"; "To do"]}.
Proof.
  apply (flags_labels_round_trip 0 5 {["S"; "F"]} {["Work"; "To do"]} 0 7
           (opened "INBOX" true) inbox_connection
           {| t_cols := [("flags", VNull); ("mtime", VNull);
                         ("labels", VNull)];
              t_rows := ∅ |}).
  - apply opened_quiet.
  - vm_compute; reflexivity.
  - vm_compute; reflexivity.
  - lia.
  - vm_compute; reflexivity.
  - vm_compute; reflexivity.
  - by_compute.
  - by_compute.
  - intros id r H. simpl in H. by rewrite lookup_empty in H.
  - intros x [->%elem_of_singleton| ->%elem_of_singleton]%elem_of_union;
      reflexivity.
  - intros x [->%elem_of_singleton| ->%elem_of_singleton]%elem_of_union;
      repeat split; vm_compute; congruence.
Defined.

(** C2 fails for a label with a comma in it: written and read back it is two
    labels; a label with white space at an end comes back without it, and
    the empty label does not come back. *)
Lemma labels_with_comma_counterexample :
  ∃ s1 s2 m,
    savemessage 1 5 {["S"]} 0 7 {["a,b"]} (opened "INBOX" true) = Ok 5 s1
    ∧ cachemessagelist s1 = Ok tt s2
    ∧ mirror s2 !! 5 = Some m
    ∧ labels m = {["a"; "b"]}
    ∧ labels m ≠ {["a,b"]}
    ∧ labels_str (labels m) ≠ labels_str {["a,b"]}
    ∧ labels_of (VText (labels_str {[" x"]})) = {["x"]}
    ∧ labels_of (VText (labels_str {[EmptyString]})) = ∅.
Proof.
  eexists _, _, _. split; [vm_compute; reflexivity|].
  split; [vm_compute; reflexivity|]. split; [vm_compute; reflexivity|].
  split; [vm_compute; reflexivity|]. split; [by_compute|].
  split; [by_compute|]. split; vm_compute; reflexivity.
Qed.

(** [saveall] takes the file lock and calls [__sql_write], which takes the
    same lock again: the call never returns. *)
Lemma saveall_never_returns fuel s : state_of (saveall fuel s) = None.
Proof.
  destruct s as [w f]. unfold saveall, with_lock. simpl.
  destruct (_lock (lock_of w f)) eqn:Hl; [done|].
  unfold bind at 1. unfold self. simpl.
  destruct fuel as [|fuel]; [done|].
  unfold __sql_write; fold __sql_write.
  unfold bind at 1. unfold write_round. unfold bind at 1.
  unfold try_catch at 1. unfold with_lock at 1. simpl.
  unfold lock_of, set_lock_of. simpl. rewrite lookup_insert_eq. done.
Qed.

(** ** Opening a file of version 1 *)

Lemma insert_as_alter_const {K A} `{Countable K} (m : gmap K A) i x y :
  m !! i = Some x → alter (λ _, y) i m = <[i := y]> m.
Proof.
  intros Hm. apply map_eq. intros j. destruct (decide (i = j)) as [<-|Hne].
  - by rewrite lookup_insert_eq, lookup_alter_eq, Hm.
  - by rewrite lookup_insert_ne, lookup_alter_ne.
Qed.

Lemma upgrade_script_version1 db m t v :
  metadata db = Some m → m !! "db_version" = Some v → status db = Some t →
  has_col t "mtime" = false → has_col t "labels" = false →
  run_script upgrade_script db = inr (upgraded m t).
Proof.
  intros Hm Hv Ht H1 H2. unfold upgrade_script, run_script, run_ddl.
  rewrite Ht, H1. simpl.
  assert (has_col {| t_cols := t_cols t ++ [("mtime", VInt 0)];
                     t_rows := <["mtime" := VInt 0]> <$> t_rows t |} "labels"
          = false) as ->.
  { unfold has_col in *. simpl. apply bool_decide_eq_false.
    apply bool_decide_eq_false in H2. rewrite fmap_app.
    intros [?|Hin]%elem_of_app; [done|].
    apply list_elem_of_singleton in Hin. done. }
  simpl. rewrite Hm. unfold upgraded. do 2 f_equal.
  - f_equal. by apply insert_as_alter_const with v.
  - f_equal. f_equal.
    + by rewrite <-app_assoc.
    + by rewrite <-map_fmap_compose.
Qed.

Lemma for_each_script script : ∀ w f path db db',
  faults w = [] → files w !! path = Some db →
  run_script script db = inr db' →
  for_each script (λ d,
    let* _ := next_fault in
    let* w := world in
    match run_ddl d (default empty_db (files w !! path)) with
    | inl e => raise e
    | inr db => modify_world (λ w, set_files (<[path := db]> (files w)) w)
    end) (w, f)
  = Ok tt (set_files (<[path := db']> (files w)) w, f).
Proof.
  induction script as [|d script IH]; intros w f path db db' Hfl Hdb Hrun.
  - simpl in *. injection Hrun as <-. unfold ret.
    rewrite insert_id by done. unfold set_files. by rewrite world_eta.
  - simpl in Hrun. destruct (run_ddl d db) as [e|db1] eqn:Hd; [done|].
    simpl. erewrite bind_Ok.
    2:{ erewrite bind_Ok;
          [|unfold next_fault; simpl; rewrite Hfl; reflexivity].
        erewrite bind_Ok; [|reflexivity].
        simpl. rewrite Hdb. simpl. rewrite Hd. reflexivity. }
    erewrite IH; [|done|apply lookup_insert_eq|done].
    simpl. unfold set_files. simpl. by rewrite insert_insert_eq.
Qed.

Section quiet_store.
Context (w : World) (f : Folder) (c : Connection).
Hypothesis Hfaults : faults w = [].

Lemma next_fault_quiet : next_fault (w, f) = Ok tt (w, f).
Proof. unfold next_fault. simpl. by rewrite Hfaults. Qed.

Lemma sqlite_connect_quiet path :
  sqlite_connect path (w, f)
  = Ok {| c_path := path; c_closed := false; c_txn := None |}
      (set_trace (EvConnect path :: trace w) w, f).
Proof.
  unfold sqlite_connect, bind, log, modify_world, next_fault, ret. simpl.
  by rewrite Hfaults.
Qed.

Hypothesis Hconn : connection f = Some c.
Hypothesis Hopen : c_closed c = false.

Lemma the_connection_open : the_connection (w, f) = Ok c (w, f).
Proof.
  unfold the_connection, bind, self, ret. simpl. by rewrite Hconn, Hopen.
Qed.

Lemma select_version_quiet m :
  metadata (view w c) = Some m →
  select_version (w, f)
  = Ok (m !! "db_version")
      (set_trace
         (EvSelect "SELECT value from metadata WHERE key='db_version'"
          :: trace w) w, f).
Proof.
  intros Hm. unfold select_version.
  erewrite bind_Ok; [|apply the_connection_open].
  unfold bind, log, modify_world, next_fault, world, ret. simpl.
  rewrite Hfaults. simpl. unfold view in *. simpl. by rewrite Hm.
Qed.

Hypothesis Htxn : c_txn c = None.

Lemma conn_commit_quiet :
  conn_commit (w, f) = Ok tt (set_trace (EvCommit :: trace w) w, f).
Proof.
  unfold conn_commit.
  erewrite bind_Ok; [|apply the_connection_open].
  unfold bind, log, modify_world, next_fault, flush, ret. simpl.
  by rewrite Hfaults, Htxn.
Qed.

Lemma conn_executescript_quiet script db db' :
  files w !! c_path c = Some db →
  run_script script db = inr db' →
  conn_executescript script (w, f)
  = Ok tt (set_files (<[c_path c := db']> (files w))
             (set_trace (EvScript script :: trace w) w), f).
Proof.
  intros Hdb Hrun. unfold conn_executescript.
  erewrite bind_Ok; [|apply the_connection_open].
  erewrite bind_Ok; [|reflexivity].
  erewrite bind_Ok; [|unfold flush; rewrite Htxn; reflexivity].
  by erewrite for_each_script.
Qed.
End quiet_store.

(** [__upgrade_db] from version 1 on a store that lets the calls through. *)
Lemma upgrade_db_quiet w f c0 db db' from_ver :
  faults w = [] → connection f = Some c0 →
  files w !! filename f = Some db →
  run_script upgrade_script db = inr db' →
  from_ver ≤ 1 →
  __upgrade_db from_ver (w, f)
  = Ok tt
      (set_files (<[filename f := db']> (files w))
         (set_trace
            ([EvCommit; EvScript upgrade_script;
              EvMsg "Upgrading LocalStatus cache from version 1 to version 2";
              EvConnect (filename f); EvClose] ++ trace w) w),
       set_connection
         (Some {| c_path := filename f; c_closed := false; c_txn := None |})
         f).
Proof.
  intros Hfl Hc Hdb Hrun Hv. unfold __upgrade_db.
  erewrite bind_Ok; [|reflexivity]. simpl. rewrite Hc.
  erewrite bind_Ok.
  2:{ unfold conn_close. erewrite bind_Ok; [|reflexivity].
      simpl. rewrite Hc. erewrite bind_Ok; [|reflexivity]. reflexivity. }
  erewrite bind_Ok; [|by apply sqlite_connect_quiet].
  erewrite bind_Ok; [|reflexivity].
  rewrite bool_decide_eq_true_2 by done.
  erewrite bind_Ok; [|reflexivity].
  erewrite bind_Ok.
  2:{ eapply (conn_executescript_quiet _ _
                {| c_path := filename f; c_closed := false; c_txn := None |});
        try done. }
  erewrite conn_commit_quiet; try done.
Qed.

(** [openfiles] on a file of version 1 or below, on a store that lets the
    calls through: the state it returns with. *)
Lemma openfiles_version1 w f l db m v n t :
  threadsafety w = 1 → faults w = [] →
  locks w !! filename f = Some l → _lock l = false →
  files w !! filename f = Some db →
  metadata db = Some m → m !! "db_version" = Some v →
  PyStr.int v = Some n → n ≤ 1 →
  status db = Some t → has_col t "mtime" = false →
  has_col t "labels" = false →
  openfiles (w, f)
  = Ok tt
      ({| locks := <[filename f := {| _lock := false;
                                      _counter := _counter l + 1 |}]>
                     (locks w);
          files := <[filename f := upgraded m t]> (files w);
          faults := [];
          trace := [EvCommit; EvScript upgrade_script;
                    EvMsg
                      "Upgrading LocalStatus cache from version 1 to version 2";
                    EvConnect (filename f); EvClose;
                    EvSelect
                      "SELECT value from metadata WHERE key='db_version'";
                    EvConnect (filename f)] ++ trace w;
          threadsafety := threadsafety w |},
       set_connection
         (Some {| c_path := filename f; c_closed := false; c_txn := None |})
         f).
Proof.
  intros Hts Hfl Hl Hfree Hdb Hm Hv Hint Hn Ht H1 H2. unfold openfiles.
  erewrite bind_Ok; [|reflexivity].
  erewrite bind_Ok;
    [|simpl; rewrite bool_decide_eq_true_2 by done; reflexivity].
  unfold with_lock, lock_of. simpl. rewrite Hl.
  change (default DatabaseFileLock_init (Some l)) with l. rewrite Hfree.
  erewrite bind_Ok; [|reflexivity].
  erewrite bind_Ok.
  2:{ unfold try_catch. erewrite bind_Ok; [|by apply sqlite_connect_quiet].
      erewrite bind_Ok; [|reflexivity]. reflexivity. }
  erewrite bind_Ok.
  2:{ unfold try_catch. erewrite bind_Ok.
      2:{ eapply (select_version_quiet _ _
                    {| c_path := filename f; c_closed := false;
                       c_txn := None |}); try done.
          unfold view. simpl. rewrite Hdb. exact Hm. }
      reflexivity. }
  rewrite Hv, Hint.
  rewrite bool_decide_eq_true_2 by (unfold cur_version; lia).
  erewrite (upgrade_db_quiet _ _ _ db (upgraded m t)); try done.
  2:{ by eapply upgrade_script_version1. }
  unfold release, lock_of, set_lock_of, set_locks, set_files, set_trace.
  simpl. rewrite !lookup_insert_eq. simpl. rewrite !insert_insert_eq.
  rewrite Hfl. reflexivity.
Qed.

(** * More of the folder *)

(** ** Deleting, once more *)

Lemma deletemessages_distinct_witness :
  ∃ s', deletemessages 1 [5; 7] (two_messages true) = Ok tt s'
        ∧ mirror s' !! 5 = None
        ∧ mirror s' !! 9 = mirror (two_messages true) !! 9
        ∧ store_row s' 5 = None
        ∧ store_row s' 7 = store_row (two_messages true) 7.
Proof.
  destruct (deletemessages_distinct 0 [5; 7] (two_messages true)
              inbox_connection) as (_ & s' & Hrun & Hm & Hs & _).
  - apply two_messages_ready.
  - vm_compute; eauto.
  - by_compute.
  - exists s'. split; [exact Hrun|].
    split; [rewrite Hm; by vm_compute|].
    split; [rewrite Hm; by vm_compute|].
    split; rewrite Hs; by vm_compute.
Defined.

Lemma del_msg_missing uid w f :
  messagelist f !! uid = None →
  del_msg uid (w, f) = Raise (KeyError uid) (w, f).
Proof.
  intros H. unfold del_msg, bind, self, raise; simpl. by rewrite H.
Qed.

(** A uid of the list that the mirror does not have stops the loop of
    [del]s with a [KeyError]. *)
Lemma for_each_del_msg_missing l : ∀ w f,
  (∃ u, u ∈ l ∧ messagelist f !! u = None) →
  ∃ u s', for_each l del_msg (w, f) = Raise (KeyError u) s' ∧ s'.1 = w.
Proof.
  induction l as [|x l IH]; intros w f (u & Hu & Hm).
  - by apply elem_of_nil in Hu.
  - simpl. destruct (messagelist f !! x) as [m|] eqn:Hx.
    + erewrite bind_Ok; [|apply del_msg_existing; by rewrite Hx].
      apply IH. exists u. split.
      * apply elem_of_cons in Hu as [->|Hu]; [congruence|done].
      * simpl. rewrite lookup_delete_ne; [done|]. intros ->. congruence.
    + erewrite bind_Raise; [|by apply del_msg_missing]. eauto.
Qed.

Lemma for_each_del_msg_repeated l : ∀ w f,
  (∀ u, u ∈ l → is_Some (messagelist f !! u)) → ¬ NoDup l →
  ∃ u s', for_each l del_msg (w, f) = Raise (KeyError u) s' ∧ s'.1 = w.
Proof.
  induction l as [|x l IH]; intros w f Hin Hnd.
  - destruct Hnd. constructor.
  - simpl.
    erewrite bind_Ok; [|apply del_msg_existing, Hin, list_elem_of_here].
    destruct (decide (x ∈ l)) as [Hx|Hx].
    + apply for_each_del_msg_missing. exists x. split; [done|].
      simpl. apply lookup_delete_eq.
    + apply IH.
      * intros u Hu. simpl. rewrite lookup_delete_ne by (intros ->; done).
        apply Hin. by apply list_elem_of_further.
      * intros Hl. apply Hnd. by constructor.
Qed.

(** When the list names a uid of the mirror twice, [deletemessages] raises
    [KeyError] on a store that lets the calls through: the filter keeps both
    occurrences, the rows are deleted by the [executemany], and the second
    [del] of the uid fails. *)
Theorem deletemessages_repeated_uid fuel uidlist s c :
  ready s c → is_Some (status (view s.1 c)) →
  ¬ NoDup (filter (λ uid, is_Some (mirror s !! uid)) uidlist) →
  ∃ u s', deletemessages (S fuel) uidlist s = Raise (KeyError u) s'
          ∧ ∀ uid, uid ∈ uidlist → is_Some (mirror s !! uid) →
                   store_row s' uid = None.
Proof.
  intros [Hr Huids] Hst Hnd. unfold deletemessages.
  erewrite bind_Ok; [|reflexivity]. fold (mirror s).
  set (present := filter (λ uid, is_Some (mirror s !! uid)) uidlist) in *.
  assert (Hne : present ≠ []).
  { intros E. apply Hnd. rewrite E. constructor. }
  assert (Hb64 : ∀ u, u ∈ present → int64 u).
  { intros u Hu. apply (stored_uid s); [done|].
    by apply list_elem_of_filter in Hu as []. }
  rewrite bool_decide_eq_false_2.
  2:{ intros E. apply Hne. by destruct present. }
  erewrite bind_Ok;
    [|apply (sql_write_ready Delete (Many _) fuel s c), run_many_delete; done].
  destruct (after_write_facts
              [EvExecuteMany Delete
                 ((λ uid, {| p_id := uid; p_vals := [] |}) <$> present)]
              (foldl delete_row (view s.1 c) present) c s Hr)
    as ((Hc' & _) & Hv & Hm & _).
  destruct (after_write _ _ c s) as [w1 f1] eqn:Es1.
  destruct (for_each_del_msg_repeated present w1 f1) as (u & s' & Hrun & Hw).
  - intros u Hu. apply list_elem_of_filter in Hu as [Hu _].
    unfold mirror in *. simpl in *. by rewrite Hm.
  - done.
  - exists u, s'. split; [done|]. intros uid Hin Hmir.
    assert (Hfr : respects (λ a b, b.1 = a.1 ∧ connection b.2 = connection a.2)
                    (for_each present del_msg)).
    { apply respects_for_each.
      - split; [by intros ?|]. intros ? ? ? [-> ->] [-> ->]. done.
      - intros x [w2 f2] s2. unfold del_msg, bind, self, raise, modify_self.
        simpl. destruct (messagelist f2 !! x); intros [= <-]; done. }
    destruct (Hfr (w1, f1) s') as [Hw' Hc2]; [by rewrite Hrun|].
    unfold store_row, store. rewrite Hc2, Hw'. simpl in *. rewrite Hc'.
    simpl. rewrite Hv, rows_of_foldl_delete, lookup_foldl_delete by done.
    rewrite decide_True; [done|]. by apply list_elem_of_filter.
Qed.

Lemma deletemessages_repeated_uid_witness :
  ∃ u s', deletemessages 1 [5; 9; 5] (two_messages true)
          = Raise (KeyError u) s'
          ∧ ∀ uid, uid ∈ [5; 9; 5] →
                   is_Some (mirror (two_messages true) !! uid) →
                   store_row s' uid = None.
Proof.
  apply (deletemessages_repeated_uid 0 [5; 9; 5] (two_messages true)
           inbox_connection).
  - apply two_messages_ready.
  - vm_compute; eauto.
  - by_compute.
Defined.

(** ** Opening a file *)

(** C4: [openfiles] on a file whose [db_version] is 1 (or less) and whose
    [status] table has neither [mtime] nor [labels], on a store that lets
    the calls through: it returns; what is committed, and what the connection sees, is
    the same table with the two columns added, every row that was there
    having mtime 0 and labels '' and its other columns as before, no row
    added, and [db_version] is '2'. The folder counts as one more user of the
    file and is not marked new. *)
Theorem openfiles_upgrades_old_file w f l db m v n t :
  threadsafety w = 1 → faults w = [] →
  locks w !! filename f = Some l → _lock l = false →
  files w !! filename f = Some db →
  metadata db = Some m → m !! "db_version" = Some v →
  PyStr.int v = Some n → n ≤ 1 →
  status db = Some t → has_col t "mtime" = false →
  has_col t "labels" = false →
  ∃ s', openfiles (w, f) = Ok tt s'
        ∧ committed s' = Some (upgraded m t)
        ∧ store s' = Some (upgraded m t)
        ∧ (metadata (upgraded m t) ≫= lookup "db_version") = Some "2"
        ∧ has_cols (upgraded m t) ["mtime"; "labels"]
        ∧ (∀ id r, t_rows t !! id = Some r →
             ∃ r', rows_of (upgraded m t) !! id = Some r'
                   ∧ col r' "mtime" = VInt 0 ∧ col r' "labels" = VText ""
                   ∧ ∀ k, k ≠ "mtime" → k ≠ "labels" → r' !! k = r !! k)
        ∧ (∀ id, t_rows t !! id = None → rows_of (upgraded m t) !! id = None)
        ∧ _newfolder s'.2 = _newfolder f
        ∧ _counter (lock_of s'.1 s'.2) = _counter l + 1.
Proof.
  intros Hts Hfl Hl Hfree Hdb Hm Hv Hint Hn Ht H1 H2.
  eexists. split; [by eapply openfiles_version1|].
  unfold committed, store, view, lock_of. simpl.
  rewrite !lookup_insert_eq. simpl.
  split; [done|]. split; [done|].
  split; [done|]. split.
  { eexists. split; [reflexivity|]. unfold has_col. simpl.
    rewrite !bool_decide_eq_true_2; [done|..]; rewrite fmap_app;
      apply elem_of_app; right; by_compute. }
  split.
  { intros id r Hr. eexists. unfold rows_of. simpl. rewrite lookup_fmap, Hr.
    split; [reflexivity|]. unfold col.
    split; [by rewrite lookup_insert_ne, lookup_insert_eq|].
    split; [by rewrite lookup_insert_eq|].
    intros k Hk1 Hk2. by rewrite !lookup_insert_ne. }
  split; [|done].
  intros id Hr. unfold rows_of. simpl. by rewrite lookup_fmap, Hr.
Qed.

Lemma openfiles_upgrades_old_file_witness :
  ∃ s', openfiles (Folder_init "INBOX" false version1_world) = Ok tt s'
        ∧ committed s'
          = Some (upgraded {["db_version" := "1"]}
                    {| t_cols := [("flags", VNull)];
                       t_rows := {[ 3 := {[ "flags" := VText "S" ]};
                                    4 := {[ "flags" := VText "" ]} ]} |}).
Proof.
  destruct (openfiles_upgrades_old_file
              (Folder_init "INBOX" false version1_world).1
              (Folder_init "INBOX" false version1_world).2
              DatabaseFileLock_init version1_db {["db_version" := "1"]}
              "1" 1
              {| t_cols := [("flags", VNull)];
                 t_rows := {[ 3 := {[ "flags" := VText "S" ]};
                              4 := {[ "flags" := VText "" ]} ]} |})
    as (s' & Hrun & Hc & _).
  - reflexivity.
  - reflexivity.
  - vm_compute; reflexivity.
  - reflexivity.
  - vm_compute; reflexivity.
  - reflexivity.
  - vm_compute; reflexivity.
  - vm_compute; reflexivity.
  - lia.
  - reflexivity.
  - vm_compute; reflexivity.
  - vm_compute; reflexivity.
  - exists s'. split; [exact Hrun|exact Hc].
Defined.

Lemma for_each_script_first d script w f path db' :
  faults w = [] →
  run_script (d :: script) (default empty_db (files w !! path)) = inr db' →
  for_each (d :: script) (λ d,
    let* _ := next_fault in
    let* w := world in
    match run_ddl d (default empty_db (files w !! path)) with
    | inl e => raise e
    | inr db => modify_world (λ w, set_files (<[path := db]> (files w)) w)
    end) (w, f)
  = Ok tt (set_files (<[path := db']> (files w)) w, f).
Proof.
  intros Hfl Hrun. simpl in Hrun.
  destruct (run_ddl d _) as [e|db1] eqn:Hd; [done|].
  simpl. erewrite bind_Ok.
  2:{ erewrite bind_Ok; [|by apply next_fault_quiet].
      erewrite bind_Ok; [|reflexivity].
      simpl. rewrite Hd. reflexivity. }
  erewrite for_each_script; [|done|apply lookup_insert_eq|done].
  simpl. unfold set_files. simpl. by rewrite insert_insert_eq.
Qed.

Lemma try_catch_Raise {A} (m : M A) (h : exn → M A) s e s' :
  m s = Raise e s' → try_catch m h s = h e s'.
Proof. unfold try_catch. by intros ->. Qed.

Lemma try_catch_Ok {A} (m : M A) (h : exn → M A) s a s' :
  m s = Ok a s' → try_catch m h s = Ok a s'.
Proof. unfold try_catch. by intros ->. Qed.

Lemma select_version_no_table w f c :
  faults w = [] → connection f = Some c → c_closed c = false →
  metadata (view w c) = None →
  select_version (w, f)
  = Raise (OperationalError "no such table: metadata")
      (set_trace
         (EvSelect "SELECT value from metadata WHERE key='db_version'"
          :: trace w) w, f).
Proof.
  intros Hfl Hc Ho Hm. unfold select_version.
  erewrite bind_Ok; [|by apply the_connection_open].
  erewrite bind_Ok; [|reflexivity].
  erewrite bind_Ok; [|by apply next_fault_quiet].
  erewrite bind_Ok; [|reflexivity].
  unfold view in *. simpl in *. by rewrite Hm.
Qed.

(** [__create_db] on a file without tables, on a store that lets the calls
    through. *)
Lemma create_db_quiet w f c :
  faults w = [] → connection f = Some c → c_closed c = false →
  c_txn c = None → default empty_db (files w !! c_path c) = empty_db →
  __create_db (w, f)
  = Ok tt
      (set_files (<[c_path c := new_db]> (files w))
         (set_trace ([EvCommit; EvScript create_script;
                      EvMsg "Creating new Local Status db"] ++ trace w) w),
       set_newfolder true f).
Proof.
  intros Hfl Hc Ho Htx Hdb. unfold __create_db.
  erewrite bind_Ok; [|reflexivity].
  erewrite bind_Ok.
  2:{ unfold conn_executescript.
      erewrite bind_Ok; [|by apply the_connection_open].
      erewrite bind_Ok; [|reflexivity].
      erewrite bind_Ok; [|unfold flush; rewrite Htx; reflexivity].
      unfold create_script.
      erewrite (for_each_script_first _ _ _ _ _ new_db); [reflexivity|done|].
      simpl files. rewrite Hdb. vm_compute. reflexivity. }
  erewrite bind_Ok; [|by eapply conn_commit_quiet].
  reflexivity.
Qed.

(** [openfiles] on a file without tables (a file that is not there counts
    as one), on a store that lets the calls through: the state it returns
    with. *)
Lemma openfiles_no_tables w f l :
  threadsafety w = 1 → faults w = [] →
  locks w !! filename f = Some l → _lock l = false →
  default empty_db (files w !! filename f) = empty_db →
  openfiles (w, f)
  = Ok tt
      ({| locks := <[filename f := {| _lock := false;
                                      _counter := _counter l + 1 |}]>
                     (locks w);
          files := <[filename f := new_db]> (files w);
          faults := [];
          trace := [EvCommit; EvScript create_script;
                    EvMsg "Creating new Local Status db";
                    EvSelect
                      "SELECT value from metadata WHERE key='db_version'";
                    EvConnect (filename f)] ++ trace w;
          threadsafety := threadsafety w |},
       set_newfolder true
         (set_connection
            (Some {| c_path := filename f; c_closed := false;
                     c_txn := None |}) f)).
Proof.
  intros Hts Hfl Hl Hfree Hdb. unfold openfiles.
  erewrite bind_Ok; [|reflexivity].
  erewrite bind_Ok;
    [|simpl; rewrite bool_decide_eq_true_2 by done; reflexivity].
  unfold with_lock, lock_of. simpl. rewrite Hl.
  change (default DatabaseFileLock_init (Some l)) with l. rewrite Hfree.
  erewrite bind_Ok; [|reflexivity].
  erewrite bind_Ok.
  2:{ unfold try_catch. erewrite bind_Ok; [|by apply sqlite_connect_quiet].
      erewrite bind_Ok; [|reflexivity]. reflexivity. }
  erewrite bind_Ok.
  2:{ erewrite try_catch_Raise.
      2:{ erewrite bind_Raise; [reflexivity|].
          eapply (select_version_no_table _ _
                    {| c_path := filename f; c_closed := false;
                       c_txn := None |}); try done.
          unfold view. simpl. by rewrite Hdb. }
      simpl.
      erewrite bind_Ok; [reflexivity|].
      eapply (create_db_quiet _ _
                {| c_path := filename f; c_closed := false; c_txn := None |});
        try done. }
  unfold ret, release, lock_of, set_lock_of, set_locks, set_files, set_trace.
  simpl. rewrite !lookup_insert_eq. simpl. rewrite !insert_insert_eq.
  rewrite Hfl. reflexivity.
Qed.

(** [openfiles] on a file of the current version or above, on a store that
    lets the calls through: the state it returns with. *)
Lemma openfiles_current w f l db m v n :
  threadsafety w = 1 → faults w = [] →
  locks w !! filename f = Some l → _lock l = false →
  files w !! filename f = Some db →
  metadata db = Some m → m !! "db_version" = Some v →
  PyStr.int v = Some n → cur_version ≤ n →
  openfiles (w, f)
  = Ok tt
      ({| locks := <[filename f := {| _lock := false;
                                      _counter := _counter l + 1 |}]>
                     (locks w);
          files := files w;
          faults := [];
          trace := [EvSelect
                      "SELECT value from metadata WHERE key='db_version'";
                    EvConnect (filename f)] ++ trace w;
          threadsafety := threadsafety w |},
       set_connection
         (Some {| c_path := filename f; c_closed := false; c_txn := None |})
         f).
Proof.
  intros Hts Hfl Hl Hfree Hdb Hm Hv Hint Hn. unfold openfiles.
  erewrite bind_Ok; [|reflexivity].
  erewrite bind_Ok;
    [|simpl; rewrite bool_decide_eq_true_2 by done; reflexivity].
  unfold with_lock, lock_of. simpl. rewrite Hl.
  change (default DatabaseFileLock_init (Some l)) with l. rewrite Hfree.
  erewrite bind_Ok; [|reflexivity].
  erewrite bind_Ok.
  2:{ unfold try_catch. erewrite bind_Ok; [|by apply sqlite_connect_quiet].
      erewrite bind_Ok; [|reflexivity]. reflexivity. }
  erewrite bind_Ok.
  2:{ unfold try_catch. erewrite bind_Ok.
      2:{ eapply (select_version_quiet _ _
                    {| c_path := filename f; c_closed := false;
                       c_txn := None |}); try done.
          unfold view. simpl. rewrite Hdb. exact Hm. }
      reflexivity. }
  rewrite Hv, Hint. rewrite bool_decide_eq_false_2 by lia.
  unfold ret, release, lock_of, set_lock_of, set_locks, set_files, set_trace.
  simpl. rewrite !lookup_insert_eq. simpl. rewrite !insert_insert_eq.
  rewrite Hfl. reflexivity.
Qed.

(** [openfiles] when [sqlite.connect] raises: an [OperationalError] is
    raised again as a [UserWarning] that names the file, any other exception
    as it is; the file lock is free again, the number of users of the file
    and the folder are as before. *)
Theorem openfiles_cannot_connect w f l e rest :
  threadsafety w = 1 → faults w = Some e :: rest →
  locks w !! filename f = Some l → _lock l = false →
  openfiles (w, f)
  = Raise (match e with
           | OperationalError _ => UserWarning (cannot_open (filename f) e)
           | _ => e
           end)
      (set_faults rest (set_trace (EvConnect (filename f) :: trace w) w), f).
Proof.
  intros Hts Hfl Hl Hfree. unfold openfiles.
  erewrite bind_Ok; [|reflexivity].
  erewrite bind_Ok;
    [|simpl; rewrite bool_decide_eq_true_2 by done; reflexivity].
  unfold with_lock, lock_of. simpl. rewrite Hl.
  change (default DatabaseFileLock_init (Some l)) with l. rewrite Hfree.
  erewrite bind_Ok; [|reflexivity].
  assert (Hu : <[filename f := {| _lock := false; _counter := _counter l |}]>
                 (<[filename f := {| _lock := true; _counter := _counter l |}]>
                    (locks w)) = locks w).
  { rewrite insert_insert_eq. apply insert_id. rewrite Hl.
    destruct l; simpl in *. by subst. }
  destruct e;
    (erewrite bind_Raise;
     [|erewrite try_catch_Raise;
       [|erewrite bind_Raise; [reflexivity|];
         unfold sqlite_connect;
         erewrite bind_Ok; [|reflexivity];
         erewrite bind_Raise; [reflexivity|];
         unfold next_fault; simpl; rewrite Hfl; reflexivity];
       reflexivity]);
    unfold release, lock_of, set_lock_of, set_locks, set_faults, set_trace;
    simpl; rewrite !lookup_insert_eq; simpl; rewrite Hu; reflexivity.
Qed.

Lemma openfiles_cannot_connect_witness :
  openfiles
    (set_faults [Some (OperationalError "unable to open database file")]
       (Folder_init "INBOX" true world0).1,
     (Folder_init "INBOX" true world0).2)
  = Raise (UserWarning
             (cannot_open "INBOX"
                (OperationalError "unable to open database file")))
      (set_faults []
         (set_trace [EvConnect "INBOX"]
            (set_faults
               [Some (OperationalError "unable to open database file")]
               (Folder_init "INBOX" true world0).1)),
       (Folder_init "INBOX" true world0).2).
Proof.
  apply (openfiles_cannot_connect
           (set_faults
              [Some (OperationalError "unable to open database file")]
              (Folder_init "INBOX" true world0).1)
           (Folder_init "INBOX" true world0).2 DatabaseFileLock_init
           (OperationalError "unable to open database file") []).
  - reflexivity.
  - reflexivity.
  - vm_compute; reflexivity.
  - reflexivity.
Defined.

(** [closefiles] with the file lock free: it returns, whatever the
    connection is; the folder counts as one user less, and when that leaves
    no user the connection, if there is one, is closed. *)
Lemma closefiles_free w f l :
  locks w !! filename f = Some l → _lock l = false →
  closefiles (w, f)
  = Ok tt
      ({| locks := <[filename f := {| _lock := false;
                                      _counter := _counter l - 1 |}]>
                     (locks w);
          files := files w; faults := faults w;
          trace := closed_trace (_counter l - 1) f (trace w);
          threadsafety := threadsafety w |},
       closed_folder (_counter l - 1) f).
Proof.
  intros Hl Hfree. unfold closefiles, with_lock, lock_of. simpl. rewrite Hl.
  change (default DatabaseFileLock_init (Some l)) with l. rewrite Hfree.
  unfold bind at 1. unfold removeOneUser at 1.
  unfold bind at 1. unfold shouldClose at 1.
  unfold lock_of, set_lock_of. simpl. rewrite !lookup_insert_eq. simpl.
  unfold closed_trace, closed_folder.
  destruct (bool_decide (_counter l - 1 < 1)).
  - unfold try_catch, conn_close, bind, self, raise, log, modify_world,
      modify_self, ret. simpl.
    destruct (connection f) as [c|]; simpl;
      unfold release, lock_of, set_lock_of, set_locks, set_trace; simpl;
      rewrite !lookup_insert_eq; simpl; rewrite !insert_insert_eq;
      try done; by destruct f.
  - unfold ret, release, lock_of, set_lock_of, set_locks; simpl.
    rewrite !lookup_insert_eq; simpl. rewrite !insert_insert_eq.
    by destruct f.
Qed.

(** [openfiles] on a file without tables (one that is not there is such a
    file), on a store that lets the calls through: it returns with the two
    tables created and committed, [db_version] '2' and no row; the folder is
    marked new and counts as one more user of the file; and
    [cachemessagelist] then returns with an empty mirror. *)
Theorem openfiles_creates_tables w f l :
  threadsafety w = 1 → faults w = [] →
  locks w !! filename f = Some l → _lock l = false →
  default empty_db (files w !! filename f) = empty_db →
  ∃ s', openfiles (w, f) = Ok tt s'
        ∧ committed s' = Some new_db ∧ store s' = Some new_db
        ∧ isnewfolder s' = Ok true s'
        ∧ mirror s' = messagelist f
        ∧ _counter (lock_of s'.1 s'.2) = _counter l + 1
        ∧ ∃ s'', cachemessagelist s' = Ok tt s'' ∧ mirror s'' = ∅.
Proof.
  intros Hts Hfl Hl Hfree Hdb.
  eexists. split; [by eapply openfiles_no_tables|].
  unfold committed, store, view, lock_of, isnewfolder, mirror. simpl.
  rewrite !lookup_insert_eq. simpl.
  repeat (split; [done|]).
  match goal with
  | |- ∃ s'', cachemessagelist ?s = _ ∧ _ =>
      destruct (cachemessagelist_ready s
                  {| c_path := filename f; c_closed := false; c_txn := None |}
                  {| t_cols := [("flags", VNull); ("mtime", VNull);
                                ("labels", VNull)];
                     t_rows := ∅ |}) as (s'' & Hrun & _ & Hm)
  end.
  - repeat split. simpl. rewrite lookup_insert_eq. eauto.
  - unfold view. simpl. by rewrite lookup_insert_eq.
  - reflexivity.
  - intros id r H. simpl in H. by rewrite lookup_empty in H.
  - exists s''. split; [done|]. apply map_eq. intros id.
    rewrite Hm. simpl. by rewrite !lookup_empty.
Qed.

Lemma openfiles_creates_tables_witness :
  ∃ s', openfiles (Folder_init "INBOX" true world0) = Ok tt s'
        ∧ committed s' = Some new_db ∧ store s' = Some new_db
        ∧ isnewfolder s' = Ok true s'
        ∧ mirror s' = ∅
        ∧ _counter (lock_of s'.1 s'.2) = 0 + 1
        ∧ ∃ s'', cachemessagelist s' = Ok tt s'' ∧ mirror s'' = ∅.
Proof.
  apply (openfiles_creates_tables (Folder_init "INBOX" true world0).1
           (Folder_init "INBOX" true world0).2 DatabaseFileLock_init);
    vm_compute; reflexivity.
Defined.

(** [openfiles] on a file whose [db_version] is 2 or more, on a store that
    lets the calls through: it returns without a script and without a
    change of the files; the folder has a new open connection, keeps its
    mark and its mirror, and counts as one more user of the file. *)
Theorem openfiles_current_version w f l db m v n :
  threadsafety w = 1 → faults w = [] →
  locks w !! filename f = Some l → _lock l = false →
  files w !! filename f = Some db →
  metadata db = Some m → m !! "db_version" = Some v →
  PyStr.int v = Some n → cur_version ≤ n →
  ∃ s', openfiles (w, f) = Ok tt s'
        ∧ files s'.1 = files w ∧ store s' = Some db
        ∧ calls_between (w, f) s'
            [EvSelect "SELECT value from metadata WHERE key='db_version'";
             EvConnect (filename f)]
        ∧ isnewfolder s' = Ok (_newfolder f) s'
        ∧ mirror s' = messagelist f
        ∧ _counter (lock_of s'.1 s'.2) = _counter l + 1.
Proof.
  intros Hts Hfl Hl Hfree Hdb Hm Hv Hint Hn.
  eexists. split; [by eapply openfiles_current|].
  unfold store, view, lock_of, isnewfolder, mirror, calls_between. simpl.
  rewrite !lookup_insert_eq, Hdb. simpl. done.
Qed.

Lemma openfiles_current_version_witness :
  ∃ s', openfiles (Folder_init "INBOX" true current_world) = Ok tt s'
        ∧ files s'.1 = files current_world
        ∧ _counter (lock_of s'.1 s'.2) = 1.
Proof.
  destruct (openfiles_current_version
              (Folder_init "INBOX" true current_world).1
              (Folder_init "INBOX" true current_world).2
              DatabaseFileLock_init
              {| metadata := Some {["db_version" := "2"]};
                 status := Some
                   {| t_cols := [("flags", VNull); ("mtime", VNull);
                                 ("labels", VNull)];
                      t_rows := {[ 5 := {[ "flags" := VText "S";
                                           "mtime" := VInt 7;
                                           "labels" := VText "Work" ]} ]} |} |}
              {["db_version" := "2"]} "2" 2)
    as (s' & Hrun & Hf & _ & _ & _ & _ & Hc).
  - reflexivity.
  - reflexivity.
  - vm_compute; reflexivity.
  - reflexivity.
  - vm_compute; reflexivity.
  - reflexivity.
  - vm_compute; reflexivity.
  - vm_compute; reflexivity.
  - vm_compute. discriminate.
  - exists s'. split; [exact Hrun|]. split; [exact Hf|exact Hc].
Defined.

(** [closefiles]: with the file lock held by someone else it waits; with
    the lock free it returns, whatever the connection is (there may be none:
    the [AttributeError] is swallowed). The folder counts as one user less;
    while a user is left nothing is closed and no call is made; when none is
    left the connection of this folder is closed. *)
Theorem closefiles_counts_users w f l :
  locks w !! filename f = Some l →
  (_lock l = true → closefiles (w, f) = Blocked)
  ∧ (_lock l = false →
     ∃ s', closefiles (w, f) = Ok tt s'
           ∧ _counter (lock_of s'.1 s'.2) = _counter l - 1
           ∧ _lock (lock_of s'.1 s'.2) = false
           ∧ files s'.1 = files w ∧ mirror s' = messagelist f
           ∧ (1 ≤ _counter l - 1 → s'.2 = f ∧ trace s'.1 = trace w)
           ∧ (_counter l - 1 < 1 →
              match connection f with
              | Some c => (c_closed <$> connection s'.2) = Some true
                          ∧ trace s'.1 = EvClose :: trace w
              | None => s'.2 = f ∧ trace s'.1 = trace w
              end)).
Proof.
  intros Hl. split.
  - intros Hheld. unfold closefiles, with_lock, lock_of. simpl.
    rewrite Hl. simpl. by rewrite Hheld.
  - intros Hfree. eexists. split; [by apply closefiles_free|].
    unfold lock_of, mirror, closed_folder, closed_trace.
    destruct (bool_decide (_counter l - 1 < 1)) eqn:Hb;
      [apply bool_decide_eq_true in Hb|apply bool_decide_eq_false in Hb];
      destruct (connection f) as [c|] eqn:Hc; simpl;
      rewrite ?lookup_insert_eq, ?Hc; simpl;
      repeat split; try done; try lia.
Qed.

Lemma closefiles_counts_users_witness :
  ∃ s', closefiles (opened "INBOX" true) = Ok tt s'
        ∧ _counter (lock_of s'.1 s'.2) = 1 - 1
        ∧ (c_closed <$> connection s'.2) = Some true.
Proof.
  destruct (closefiles_counts_users (opened "INBOX" true).1
              (opened "INBOX" true).2 {| _lock := false; _counter := 1 |})
    as (_ & H).
  - vm_compute; reflexivity.
  - destruct H as (s' & Hrun & Hc & _ & _ & _ & _ & Hcl); [reflexivity|].
    exists s'. split; [exact Hrun|]. split; [exact Hc|].
    apply Hcl. vm_compute. reflexivity.
Defined.



(** ** The loop of the write executor comes to an end *)

Lemma run_stmt_error_fatal sql p db e :
  run_stmt sql p db = inl e → fatal e.
Proof.
  unfold run_stmt. repeat case_match; intros [= <-]; intros b s; reflexivity.
Qed.

Lemma run_many_error_fatal sql ps : ∀ db db' e,
  run_many sql ps db = (Some e, db') → fatal e.
Proof.
  induction ps as [|p ps IH]; intros db db' e; simpl; [done|].
  destruct (run_stmt sql p db) eqn:E.
  - intros [= <- <-]. by eapply run_stmt_error_fatal.
  - apply IH.
Qed.

Lemma run_one_error_fatal sql p db db' e :
  run_one sql p db = (Some e, db') → fatal e.
Proof.
  unfold run_one. destruct (run_stmt sql p db) eqn:E; intros [= <- <-].
  by eapply run_stmt_error_fatal.
Qed.

Lemma the_connection_outcome s :
  match the_connection s with
  | Ok _ s1 => s1 = s
  | Raise e s1 => s1 = s ∧ fatal e
  | _ => False
  end.
Proof.
  destruct s as [w f]. unfold the_connection, bind, self, raise, ret. simpl.
  destruct (connection f) as [c|]; [destruct (c_closed c)|]; simpl;
    try done; split; try done; intros b s; reflexivity.
Qed.

Lemma conn_call_outcome sql a em s :
  call_outcome s (conn_call sql a em s).
Proof.
  destruct s as [w f]. unfold conn_call.
  assert (Hbad : ∀ e, fatal e →
            call_outcome (w, f)
              (bind the_connection (λ _, @raise unit e) (w, f))).
  { intros e He. unfold bind.
    pose proof (the_connection_outcome (w, f)) as H.
    destruct (the_connection (w, f)) as [c s1|e' s1| |]; try done.
    - subst s1. unfold raise, call_outcome. simpl. split; [lia|by right].
    - destruct H as [-> H]. unfold call_outcome. simpl. split; [lia|by right]. }
  assert (Hprog : fatal (ProgrammingError "Incorrect number of bindings supplied"))
    by (intros b s; reflexivity).
  assert (Htype : fatal TypeError) by (intros b s; reflexivity).
  destruct a as [[p|ps]|], em; try (by apply Hbad).
  - unfold conn_execute, bind.
    pose proof (the_connection_outcome (w, f)) as H.
    destruct (the_connection (w, f)) as [c s1|e' s1| |]; try done.
    + subst s1. unfold log, modify_world, next_fault, world, modify_self,
        raise, ret, call_outcome. simpl.
      destruct (faults w) as [|[e|] rest] eqn:Hf; simpl;
        first
          [ match goal with
            | |- context [run_one ?q ?x ?d] =>
                destruct (run_one q x d) as [[e'|] db'] eqn:E
            end; simpl; rewrite ?Hf; simpl;
            first [ lia | split; [lia|right; by eapply run_one_error_fatal] ]
          | rewrite ?Hf; simpl; split; [lia|left; lia] ].
    + destruct H as [-> H]. unfold call_outcome. simpl. split; [lia|by right].
  - unfold conn_executemany, bind.
    pose proof (the_connection_outcome (w, f)) as H.
    destruct (the_connection (w, f)) as [c s1|e' s1| |]; try done.
    + subst s1. unfold log, modify_world, next_fault, world, modify_self,
        raise, ret, call_outcome. simpl.
      destruct (faults w) as [|[e|] rest] eqn:Hf; simpl;
        first
          [ match goal with
            | |- context [run_many ?q ?x ?d] =>
                destruct (run_many q x d) as [[e'|] db'] eqn:E
            end; simpl; rewrite ?Hf; simpl;
            first [ lia | split; [lia|right; by eapply run_many_error_fatal] ]
          | rewrite ?Hf; simpl; split; [lia|left; lia] ].
    + destruct H as [-> H]. unfold call_outcome. simpl. split; [lia|by right].
Qed.

Lemma conn_commit_outcome s : call_outcome s (conn_commit s).
Proof.
  destruct s as [w f]. unfold conn_commit, bind.
  pose proof (the_connection_outcome (w, f)) as H.
  destruct (the_connection (w, f)) as [c s1|e' s1| |]; try done.
  - subst s1. unfold log, modify_world, next_fault, flush, bind,
      modify_world, modify_self, ret, call_outcome. simpl.
    destruct (faults w) as [|[e|] rest] eqn:Hf; simpl;
      first [ destruct (c_txn c); simpl; rewrite ?Hf; simpl; lia
            | rewrite ?Hf; simpl; split; [lia|left; lia] ].
  - destruct H as [-> H]. unfold call_outcome. simpl. split; [lia|by right].
Qed.

Lemma on_write_error_outcome b e s :
  match on_write_error b e s with
  | Ok _ s' => faults s'.1 = faults s.1
  | Raise _ _ => True
  | _ => False
  end.
Proof.
  unfold on_write_error. destruct e; try done.
  repeat case_decide; try done.
Qed.

(** A round of the loop that is to be followed by another has taken one of
    the answers that the store has left; a round does not run out of
    fuel. *)
Lemma write_round_outcome sql a em s :
  match write_round sql a em s with
  | Ok true _ | Raise _ _ | Blocked => True
  | Ok false s' => (length (faults s'.1) < length (faults s.1))%nat
  | OutOfFuel => False
  end.
Proof.
  destruct s as [w f].
  assert (Hend : ∀ b e s1,
    (length (faults s1.1) ≤ length (faults w))%nat →
    (length (faults s1.1) < length (faults w))%nat ∨ fatal e →
    match on_write_error b e (release s1) with
    | Ok true _ | Raise _ _ | Blocked => True
    | Ok false s' => (length (faults s'.1) < length (faults w))%nat
    | OutOfFuel => False
    end).
  { intros b e s1 Hle [Hlt|Hfatal].
    - pose proof (on_write_error_outcome b e (release s1)) as H.
      destruct (on_write_error b e (release s1)) as [[] s'|? ?| |];
        try done. simpl in H. rewrite H. exact Hlt.
    - by rewrite Hfatal. }
  unfold write_round, with_lock, try_catch, bind. simpl.
  destruct (_lock (lock_of w f)); [done|].
  set (s0 := set_lock_of _ (w, f)).
  pose proof (conn_call_outcome sql a em s0) as Hcall.
  destruct (conn_call sql a em s0) as [[] s1|e s1| |]; simpl in Hcall;
    try done.
  - unfold self. simpl. destruct (bool_decide (_in_transactions s1.2 = 0)).
    + pose proof (conn_commit_outcome s1) as Hcommit.
      destruct (conn_commit s1) as [[] s2|e s2| |]; simpl in Hcommit;
        try done.
      destruct Hcommit as [Hle Hor]. apply Hend; [lia|].
      destruct Hor as [?|?]; [left; lia|by right].
    + done.
  - destruct Hcall as [Hle Hor]. by apply Hend.
Qed.

(** With more fuel than the store has answers left, [__sql_write] does not
    run out of fuel: it returns, raises, or waits for the file lock. The loop
    goes round again only after an answer 'database is locked' or 'cannot
    commit - no transaction is active' of the store. *)
Theorem sql_write_comes_to_an_end fuel sql a em : ∀ s,
  (length (faults s.1) < fuel)%nat →
  __sql_write fuel sql a em s ≠ OutOfFuel.
Proof.
  induction fuel as [|fuel IH]; intros s Hlen; [lia|].
  unfold __sql_write; fold __sql_write. unfold bind.
  pose proof (write_round_outcome sql a em s) as H.
  destruct (write_round sql a em s) as [[] s'|e s'| |]; try done.
  apply IH. lia.
Qed.

Lemma sql_write_comes_to_an_end_witness :
  __sql_write 3 (Update ["flags"])
    (Some (One {| p_id := 5; p_vals := [VText "S"] |})) false
    (set_faults [Some locked; Some locked] (one_message true).1,
     (one_message true).2)
  ≠ OutOfFuel.
Proof.
  apply sql_write_comes_to_an_end. simpl. lia.
Defined.

(** Whatever the store answers and however [__sql_write] ends (a return or
    an exception), it has left the mirror, the transaction counter and the
    other attributes of the folder alone, has kept the connection on its
    file and as open or closed as it was, and has called nothing but its own
    statement, [commit()] and the debug line of a retry. *)
Theorem sql_write_leaves_the_folder fuel sql a em s s' :
  state_of (__sql_write fuel sql a em s) = Some s' →
  mirror s' = mirror s
  ∧ _in_transactions s'.2 = _in_transactions s.2
  ∧ filename s'.2 = filename s.2 ∧ fsync s'.2 = fsync s.2
  ∧ _newfolder s'.2 = _newfolder s.2
  ∧ (∃ evs, calls_between s s' evs ∧ Forall (write_event sql) evs)
  ∧ (c_path <$> connection s'.2) = (c_path <$> connection s.2)
  ∧ (c_closed <$> connection s'.2) = (c_closed <$> connection s.2).
Proof.
  intros H.
  apply (respects_sql_write sql (λ _, True)) in H; [|done].
  destruct H as [Hfo Htr Hco]. unfold mirror. rewrite Hfo. simpl.
  repeat (split; [done|]).
  destruct (connection s.2) as [c|].
  - destruct Hco as (c' & Hc' & Hp & Hcl & _).
    rewrite Hfo in Hc'. simpl in Hc'. rewrite Hc'. simpl.
    by rewrite Hp, Hcl.
  - rewrite Hfo in Hco. simpl in Hco. by rewrite Hco.
Qed.

Lemma sql_write_leaves_the_folder_witness :
  ∃ s', state_of
          (__sql_write 2 Delete
             (Some (One {| p_id := 5; p_vals := [] |})) false
             (set_faults [Some (OperationalError "disk I/O error")]
                (one_message true).1,
              (one_message true).2)) = Some s'
        ∧ mirror s' = mirror (one_message true).
Proof.
  eexists. split; [vm_compute; reflexivity|].
  eapply (sql_write_leaves_the_folder 2 Delete
            (Some (One {| p_id := 5; p_vals := [] |})) false
            (set_faults [Some (OperationalError "disk I/O error")]
               (one_message true).1,
             (one_message true).2)).
  vm_compute; reflexivity.
Defined.

(** ** Adding and taking away labels *)

Lemma lookup_foldl_alter_keys {A} (h : Z → A → A) l :
  (∀ u x, h u (h u x) = h u x) →
  ∀ (m : gmap Z A) u,
    foldl (λ m u, alter (h u) u m) m l !! u
    = if decide (u ∈ l) then h u <$> m !! u else m !! u.
Proof.
  intros Hidem. induction l as [|x l IH]; intros m u.
  - destruct (decide (u ∈ [])) as [H|H]; [by apply elem_of_nil in H|done].
  - change (foldl (λ m u, alter (h u) u m) (alter (h x) x m) l !! u
            = if decide (u ∈ x :: l) then h u <$> m !! u else m !! u).
    rewrite IH. destruct (decide (u = x)) as [->|Hne].
    + rewrite lookup_alter_eq.
      destruct (decide (x ∈ l)), (decide (x ∈ x :: l)) as [|H]; try done.
      * destruct (m !! x); simpl; [|done]. by rewrite Hidem.
      * exfalso. apply H, list_elem_of_here.
      * exfalso. apply H, list_elem_of_here.
    + rewrite lookup_alter_ne by done.
      destruct (decide (u ∈ l)) as [H1|H1], (decide (u ∈ x :: l)) as [H2|H2];
        try done.
      * exfalso. by apply H2, list_elem_of_further.
      * apply elem_of_cons in H2 as [?|?]; done.
Qed.

Lemma getmessage_existing uid w f m :
  messagelist f !! uid = Some m → getmessage uid (w, f) = Ok m (w, f).
Proof.
  intros H. unfold getmessage, bind, self, ret. simpl. by rewrite H.
Qed.

Lemma getmessage_missing uid w f :
  messagelist f !! uid = None →
  getmessage uid (w, f) = Raise (KeyError uid) (w, f).
Proof.
  intros H. unfold getmessage, bind, self, raise. simpl. by rewrite H.
Qed.

(** The loop that makes the tuples of a label update: it reads the mirror
    and changes nothing. *)
Lemma map_each_labels g uids : ∀ w f,
  (∀ u, u ∈ uids → is_Some (messagelist f !! u)) →
  map_each uids (λ uid,
    let* m := getmessage uid in
    ret (labels_params uid (g (labels m)))) (w, f)
  = Ok ((λ u, labels_params u (g (labels_at (messagelist f) u))) <$> uids)
      (w, f).
Proof.
  induction uids as [|x uids IH]; intros w f Hin; simpl; [done|].
  destruct (Hin x) as [m Hm]; [apply list_elem_of_here|].
  erewrite bind_Ok.
  2:{ erewrite bind_Ok; [|by apply getmessage_existing]. reflexivity. }
  erewrite bind_Ok.
  2:{ apply IH. intros u Hu. apply Hin. by apply list_elem_of_further. }
  unfold ret, labels_at. by rewrite Hm.
Qed.

(** With a uid that the mirror lacks the loop raises [KeyError] at the first
    such uid, and nothing has changed. *)
Lemma map_each_labels_missing g l1 u l2 : ∀ w f,
  (∀ x, x ∈ l1 → is_Some (messagelist f !! x)) →
  messagelist f !! u = None →
  map_each (l1 ++ u :: l2) (λ uid,
    let* m := getmessage uid in
    ret (labels_params uid (g (labels m)))) (w, f)
  = Raise (KeyError u) (w, f).
Proof.
  induction l1 as [|x l1 IH]; intros w f Hin Hu; simpl.
  - erewrite bind_Raise; [reflexivity|].
    erewrite bind_Raise; [reflexivity|]. by apply getmessage_missing.
  - destruct (Hin x) as [m Hm]; [apply list_elem_of_here|].
    erewrite bind_Ok.
    2:{ erewrite bind_Ok; [|by apply getmessage_existing]. reflexivity. }
    erewrite bind_Raise; [reflexivity|].
    apply IH; [|done]. intros y Hy. apply Hin. by apply list_elem_of_further.
Qed.

Lemma for_each_relabel g uids : ∀ w f,
  (∀ u, u ∈ uids → is_Some (messagelist f !! u)) →
  for_each uids (λ uid,
    let* m := getmessage uid in
    update_msg uid (set_labels (g (labels m)))) (w, f)
  = Ok tt
      (w, set_messagelist
            (foldl (λ m u, alter (relabel g) u m) (messagelist f) uids) f).
Proof.
  induction uids as [|x uids IH]; intros w f Hin; simpl.
  - unfold ret. by rewrite <-(folder_eta f) at 1.
  - destruct (Hin x) as [m Hm]; [apply list_elem_of_here|].
    erewrite bind_Ok.
    2:{ erewrite bind_Ok; [|by apply getmessage_existing].
        by apply update_msg_existing. }
    rewrite IH; simpl.
    + change (set_labels (g (labels m)) m) with (relabel g m).
      by rewrite (insert_as_alter _ _ _ m).
    + intros u Hu. apply lookup_insert_is_Some'. right.
      apply Hin. by apply list_elem_of_further.
Qed.

Lemma rows_of_foldl_labels (L : Z → gset string) uids : ∀ db,
  is_Some (status db) →
  rows_of (foldl set_labels_row db ((λ u, (u, L u)) <$> uids))
  = foldl (λ rows u, alter (relabel_row (L u)) u rows) (rows_of db) uids.
Proof.
  induction uids as [|x uids IH]; intros db Hdb; simpl; [done|].
  rewrite IH by (by apply status_map_rows).
  unfold set_labels_row. simpl. by rewrite rows_of_map_rows.
Qed.

Lemma relabel_row_idem lbs r :
  relabel_row lbs (relabel_row lbs r) = relabel_row lbs r.
Proof.
  unfold relabel_row, set_cols. rewrite map_union_assoc.
  by rewrite (idemp_L (∪) (list_to_map _)).
Qed.

(** The label update of a list of uids that the mirror has, on a store that
    lets the calls through, with [g] for what is done to the labels. *)
Lemma change_labels_ready g fuel uids s c :
  (∀ X, g (g X) = g X) →
  quiet s c → has_cols (view s.1 c) ["labels"] →
  (∀ u, u ∈ uids → is_Some (mirror s !! u)) →
  (∀ u, u ∈ uids → int64 u) →
  ∃ s',
    (let* data := map_each uids (λ uid,
                    let* m := getmessage uid in
                    ret (labels_params uid (g (labels m)))) in
     let* _ := __sql_write (S fuel) (Update ["labels"])
                 (Some (Many data)) true in
     for_each uids (λ uid,
       let* m := getmessage uid in
       update_msg uid (set_labels (g (labels m))))) s = Ok tt s'
    ∧ (∀ u, mirror s' !! u
            = if decide (u ∈ uids) then relabel g <$> mirror s !! u
              else mirror s !! u)
    ∧ (∀ u, store_row s' u
            = if decide (u ∈ uids)
              then relabel_row (g (labels_at (mirror s) u)) <$> store_row s u
              else store_row s u)
    ∧ ∃ evs, calls_between s s' evs
             ∧ filter (λ ev, ev ≠ EvCommit) evs
               = [EvExecuteMany (Update ["labels"])
                    ((λ u, labels_params u (g (labels_at (mirror s) u)))
                       <$> uids)].
Proof.
  intros Hg Hr Hcols Hin H64. destruct s as [w f]. unfold mirror in *.
  simpl in *.
  erewrite bind_Ok; [|by apply map_each_labels].
  set (L := λ u, g (labels_at (messagelist f) u)).
  assert (Hst : is_Some (status (view w c))).
  { destruct Hcols as (t & -> & _). by eexists. }
  erewrite bind_Ok.
  2:{ apply (sql_write_ready (Update ["labels"]) (Many _) fuel (w, f) c);
        [done|].
      simpl.
      replace ((λ u, labels_params u (g (labels_at (messagelist f) u)))
                 <$> uids)
        with ((λ ul : Z * gset string,
                 {| p_id := ul.1; p_vals := [VText (labels_str ul.2)] |})
                <$> ((λ u, (u, L u)) <$> uids))
        by (by rewrite <-list_fmap_compose).
      apply run_many_update_labels; [done|].
      intros u Hu. apply list_elem_of_fmap in Hu as ([u1 L1] & -> & Hu).
      apply list_elem_of_fmap in Hu as (u2 & [= -> ->] & Hu).
      by apply H64. }
  destruct (after_write_facts
              [EvExecuteMany (Update ["labels"])
                 ((λ u, labels_params u (g (labels_at (messagelist f) u)))
                    <$> uids)]
              (foldl set_labels_row (view w c) ((λ u, (u, L u)) <$> uids))
              c (w, f) Hr) as ((Hc' & _) & Hv & Hm & _).
  destruct (after_write _ _ c (w, f)) as [w1 f1] eqn:Es1.
  unfold mirror in Hm. simpl in *.
  rewrite for_each_relabel by (intros u Hu; rewrite Hm; by apply Hin).
  eexists. split; [reflexivity|]. unfold store_row, store. simpl.
  split; [|split].
  - intros u. rewrite Hm. apply (lookup_foldl_alter_keys (λ _, relabel g)).
    intros _ x. unfold relabel. simpl. by rewrite Hg.
  - intros u. rewrite Hc'. simpl. rewrite Hv.
    rewrite rows_of_foldl_labels by done.
    rewrite (lookup_foldl_alter_keys (λ u, relabel_row (L u)))
      by (intros; apply relabel_row_idem).
    destruct Hr as (Hc & _). simpl in Hc. rewrite Hc. simpl. done.
  - unfold calls_between. simpl.
    unfold after_write in Es1. simpl in Es1.
    case_bool_decide; injection Es1 as <- <-; simpl;
      first [ by eexists [_; _] | by eexists [_] ].
Qed.

(** [addmessageslabels(uids, labels)] for uids that the mirror has (a uid may
    be listed more than once), on a store that lets the calls through: it
    returns; in the mirror each listed message has [labels] added to its own
    and nothing else changed; in the store the row of each listed uid has
    the serialised union in its labels column and nothing else changed; the
    store was called with one executemany. *)
Theorem addmessageslabels_adds fuel uids lbs s c :
  ready s c → has_cols (view s.1 c) ["labels"] →
  (∀ u, u ∈ uids → is_Some (mirror s !! u)) →
  ∃ s',
    addmessageslabels (S fuel) uids lbs s = Ok tt s'
    ∧ (∀ u, mirror s' !! u
            = if decide (u ∈ uids)
              then relabel (λ X, X ∪ lbs) <$> mirror s !! u
              else mirror s !! u)
    ∧ (∀ u, store_row s' u
            = if decide (u ∈ uids)
              then relabel_row (labels_at (mirror s) u ∪ lbs)
                     <$> store_row s u
              else store_row s u)
    ∧ ∃ evs, calls_between s s' evs
             ∧ filter (λ ev, ev ≠ EvCommit) evs
               = [EvExecuteMany (Update ["labels"])
                    ((λ u, labels_params u (labels_at (mirror s) u ∪ lbs))
                       <$> uids)].
Proof.
  intros [Hr Huids] Hcols Hin.
  apply (change_labels_ready (λ X, X ∪ lbs) fuel uids s c); try done.
  - intros X. set_solver.
  - intros u Hu. apply (stored_uid s); [done|]. by apply Hin.
Qed.

Lemma addmessageslabels_adds_witness :
  ∃ s',
    addmessageslabels 1 [5; 9; 5] {["A"]} (two_messages false) = Ok tt s'
    ∧ (∀ u, mirror s' !! u
            = if decide (u ∈ [5; 9; 5])
              then relabel (λ X, X ∪ {["A"]})
                     <$> mirror (two_messages false) !! u
              else mirror (two_messages false) !! u)
    ∧ (∀ u, store_row s' u
            = if decide (u ∈ [5; 9; 5])
              then relabel_row
                     (labels_at (mirror (two_messages false)) u ∪ {["A"]})
                     <$> store_row (two_messages false) u
              else store_row (two_messages false) u)
    ∧ ∃ evs, calls_between (two_messages false) s' evs
             ∧ filter (λ ev, ev ≠ EvCommit) evs
               = [EvExecuteMany (Update ["labels"])
                    ((λ u, labels_params u
                             (labels_at (mirror (two_messages false)) u
                              ∪ {["A"]})) <$> [5; 9; 5])].
Proof.
  apply (addmessageslabels_adds 0 [5; 9; 5] {["A"]} (two_messages false)
           inbox_connection).
  - apply two_messages_ready.
  - apply two_messages_has_cols. vm_compute; reflexivity.
  - intros u Hu. apply list_elem_of_In in Hu. simpl in Hu.
    destruct Hu as [<-|[<-|[<-|[]]]]; by_compute.
Defined.

(** [deletemessageslabels(uids, labels)] for uids that the mirror has (a uid
    may be listed more than once), on a store that lets the calls through:
    it returns; in the mirror each listed message has lost [labels] and
    nothing else changed; in the store the row of each listed uid has the
    serialised difference in its labels column and nothing else changed; the
    store was called with one executemany. *)
Theorem deletemessageslabels_removes fuel uids lbs s c :
  ready s c → has_cols (view s.1 c) ["labels"] →
  (∀ u, u ∈ uids → is_Some (mirror s !! u)) →
  ∃ s',
    deletemessageslabels (S fuel) uids lbs s = Ok tt s'
    ∧ (∀ u, mirror s' !! u
            = if decide (u ∈ uids)
              then relabel (λ X, X ∖ lbs) <$> mirror s !! u
              else mirror s !! u)
    ∧ (∀ u, store_row s' u
            = if decide (u ∈ uids)
              then relabel_row (labels_at (mirror s) u ∖ lbs)
                     <$> store_row s u
              else store_row s u)
    ∧ ∃ evs, calls_between s s' evs
             ∧ filter (λ ev, ev ≠ EvCommit) evs
               = [EvExecuteMany (Update ["labels"])
                    ((λ u, labels_params u (labels_at (mirror s) u ∖ lbs))
                       <$> uids)].
Proof.
  intros [Hr Huids] Hcols Hin.
  apply (change_labels_ready (λ X, X ∖ lbs) fuel uids s c); try done.
  - intros X. set_solver.
  - intros u Hu. apply (stored_uid s); [done|]. by apply Hin.
Qed.

Lemma deletemessageslabels_removes_witness :
  ∃ s',
    deletemessageslabels 1 [9; 9] {["B"]} (two_messages true) = Ok tt s'
    ∧ (∀ u, mirror s' !! u
            = if decide (u ∈ [9; 9])
              then relabel (λ X, X ∖ {["B"]})
                     <$> mirror (two_messages true) !! u
              else mirror (two_messages true) !! u)
    ∧ (∀ u, store_row s' u
            = if decide (u ∈ [9; 9])
              then relabel_row
                     (labels_at (mirror (two_messages true)) u ∖ {["B"]})
                     <$> store_row (two_messages true) u
              else store_row (two_messages true) u)
    ∧ ∃ evs, calls_between (two_messages true) s' evs
             ∧ filter (λ ev, ev ≠ EvCommit) evs
               = [EvExecuteMany (Update ["labels"])
                    ((λ u, labels_params u
                             (labels_at (mirror (two_messages true)) u
                              ∖ {["B"]})) <$> [9; 9])].
Proof.
  apply (deletemessageslabels_removes 0 [9; 9] {["B"]} (two_messages true)
           inbox_connection).
  - apply two_messages_ready.
  - apply two_messages_has_cols. vm_compute; reflexivity.
  - intros u Hu. apply list_elem_of_In in Hu. simpl in Hu.
    destruct Hu as [<-|[<-|[]]]; by_compute.
Defined.

(** [addmessageslabels] and [deletemessageslabels] with a uid that the
    mirror lacks raise [KeyError] for the first such uid while the tuples
    are made: the store is not called and nothing has changed, whatever the
    state of the store. *)
Theorem labels_update_missing_uid fuel l1 u l2 lbs s :
  (∀ x, x ∈ l1 → is_Some (mirror s !! x)) →
  mirror s !! u = None →
  addmessageslabels fuel (l1 ++ u :: l2) lbs s = Raise (KeyError u) s
  ∧ deletemessageslabels fuel (l1 ++ u :: l2) lbs s = Raise (KeyError u) s.
Proof.
  intros Hin Hu. destruct s as [w f]. unfold mirror in *. simpl in *.
  split.
  - unfold addmessageslabels. erewrite bind_Raise; [reflexivity|].
    by apply (map_each_labels_missing (λ X, X ∪ lbs)).
  - unfold deletemessageslabels. erewrite bind_Raise; [reflexivity|].
    by apply (map_each_labels_missing (λ X, X ∖ lbs)).
Qed.

Lemma labels_update_missing_uid_witness :
  addmessageslabels 3 ([5] ++ 7 :: [9]) {["A"]} (two_messages false)
  = Raise (KeyError 7) (two_messages false)
  ∧ deletemessageslabels 3 ([5] ++ 7 :: [9]) {["A"]} (two_messages false)
    = Raise (KeyError 7) (two_messages false).
Proof.
  apply (labels_update_missing_uid 3 [5] 7 [9] {["A"]} (two_messages false)).
  - intros x Hx. apply list_elem_of_In in Hx. simpl in Hx.
    destruct Hx as [<-|[]]. by_compute.
  - vm_compute; reflexivity.
Defined.

(** ** Updates of one column for a dictionary of uids *)

Lemma lookup_foldl_alter_other {A B} (h : B → A → A) l : ∀ (m : gmap Z A) k,
  k ∉ l.*1 → foldl (λ m kv, alter (h kv.2) kv.1 m) m l !! k = m !! k.
Proof.
  induction l as [|[u v] l IH]; intros m k Hk; simpl; [done|].
  rewrite fmap_cons, not_elem_of_cons in Hk. destruct Hk as [Hne Hk].
  rewrite IH by done. by rewrite lookup_alter_ne.
Qed.

Lemma lookup_foldl_alter_item {A B} (h : B → A → A) l :
  ∀ (m : gmap Z A) k v,
    NoDup l.*1 → (k, v) ∈ l →
    foldl (λ m kv, alter (h kv.2) kv.1 m) m l !! k = h v <$> m !! k.
Proof.
  induction l as [|[u x] l IH]; intros m k v Hnd Hin; simpl.
  - by apply elem_of_nil in Hin.
  - rewrite fmap_cons in Hnd. apply NoDup_cons in Hnd as [Hu Hnd].
    apply elem_of_cons in Hin as [Heq|Hin].
    + injection Heq as -> ->.
      rewrite lookup_foldl_alter_other by done. by rewrite lookup_alter_eq.
    + rewrite (IH _ k v) by done.
      rewrite lookup_alter_ne; [done|]. intros ->. apply Hu.
      apply list_elem_of_fmap. by exists (k, v).
Qed.

Lemma run_many_update {B} cols (V : B → list value) l : ∀ db,
  has_cols db cols → (∀ v, length cols = length (V v)) →
  (∀ kv, kv ∈ l → bindable {| p_id := kv.1; p_vals := V kv.2 |} = true) →
  run_many (Update cols)
    ((λ kv : Z * B, {| p_id := kv.1; p_vals := V kv.2 |}) <$> l) db
  = (None,
     foldl (λ db kv, map_rows (alter (set_cols cols (V kv.2)) kv.1) db) db l).
Proof.
  induction l as [|kv l IH]; intros db H Hlen Hb; simpl; [done|].
  rewrite run_stmt_update by (first [done | apply Hb, list_elem_of_here]).
  apply IH; [by apply has_cols_map_rows|done|].
  intros x Hx. by apply Hb, list_elem_of_further.
Qed.

Lemma rows_of_foldl_update {B} (R : B → gmap string value → gmap string value)
  (l : list (Z * B)) : ∀ db,
  is_Some (status db) →
  rows_of (foldl (λ db kv, map_rows (alter (R kv.2) kv.1) db) db l)
  = foldl (λ rows kv, alter (R kv.2) kv.1 rows) (rows_of db) l.
Proof.
  induction l as [|kv l IH]; intros db Hdb; simpl; [done|].
  rewrite IH by (by apply status_map_rows). by rewrite rows_of_map_rows.
Qed.

Lemma for_each_update_items {B} (G : B → msg → msg) l : ∀ w f,
  (∀ u, u ∈ l.*1 → is_Some (messagelist f !! u)) →
  for_each l (λ kv, update_msg kv.1 (G kv.2)) (w, f)
  = Ok tt
      (w, set_messagelist
            (foldl (λ m kv, alter (G kv.2) kv.1 m) (messagelist f) l) f).
Proof.
  induction l as [|[u x] l IH]; intros w f Hin; simpl.
  - unfold ret. by rewrite <-(folder_eta f) at 1.
  - destruct (Hin u) as [m Hm]; [apply list_elem_of_here|].
    erewrite bind_Ok; [|by apply update_msg_existing].
    rewrite IH; simpl.
    + by rewrite (insert_as_alter _ _ _ m).
    + intros u' Hu'. apply lookup_insert_is_Some'. right.
      apply Hin. by apply list_elem_of_further.
Qed.

(** The loop over the items stops with [KeyError] at the first uid that the
    mirror lacks; the entries before it are updated. *)
Lemma for_each_update_items_missing {B} (G : B → msg → msg) l1 u x l2 :
  ∀ w f,
    (∀ k, k ∈ l1.*1 → is_Some (messagelist f !! k)) →
    messagelist f !! u = None →
    for_each (l1 ++ (u, x) :: l2) (λ kv, update_msg kv.1 (G kv.2)) (w, f)
    = Raise (KeyError u)
        (w, set_messagelist
              (foldl (λ m kv, alter (G kv.2) kv.1 m) (messagelist f) l1) f).
Proof.
  induction l1 as [|[k y] l1 IH]; intros w f Hin Hu; simpl.
  - erewrite bind_Raise; [|by apply update_msg_missing].
    by rewrite <-(folder_eta f) at 1.
  - destruct (Hin k) as [m Hm]; [apply list_elem_of_here|].
    erewrite bind_Ok; [|by apply update_msg_existing].
    rewrite IH; simpl.
    + by rewrite (insert_as_alter _ _ _ m).
    + intros k' Hk'. apply lookup_insert_is_Some'. right.
      apply Hin. by apply list_elem_of_further.
    + rewrite lookup_insert_ne; [done|]. intros ->.
      rewrite Hm in Hu. discriminate.
Qed.

(** The store and the calls after a write that went through. *)
Lemma after_write_store ev db c s :
  quiet s c →
  store (after_write [ev] db c s) = Some db
  ∧ calls_between s (after_write [ev] db c s) (write_calls s ev).
Proof.
  destruct s as [w f]. intros (Hc & _).
  unfold after_write, store, calls_between, write_calls, view.
  simpl in *. case_bool_decide; simpl; rewrite ?lookup_insert_eq; done.
Qed.

Lemma ready_store s c : quiet s c → store s = Some (view s.1 c).
Proof. intros (Hc & _). unfold store. by rewrite Hc. Qed.

(** A write of the columns [cols] for the items of a dictionary, followed by
    the loop that updates the mirror, on a store that lets the calls
    through. *)
Lemma bulk_update_write {B} cols (V : B → list value) fuel l s c :
  quiet s c → has_cols (view s.1 c) cols →
  (∀ v, length cols = length (V v)) →
  (∀ kv, kv ∈ l → bindable {| p_id := kv.1; p_vals := V kv.2 |} = true) →
  __sql_write (S fuel) (Update cols)
    (Some (Many ((λ kv : Z * B, {| p_id := kv.1; p_vals := V kv.2 |})
                   <$> l))) true s
  = Ok tt
      (after_write
         [EvExecuteMany (Update cols)
            ((λ kv : Z * B, {| p_id := kv.1; p_vals := V kv.2 |}) <$> l)]
         (foldl (λ db kv, map_rows (alter (set_cols cols (V kv.2)) kv.1) db)
            (view s.1 c) l) c s).
Proof.
  intros Hr Hcols Hlen Hb.
  apply (sql_write_ready (Update cols) (Many _) fuel s c); [done|].
  simpl. by apply run_many_update.
Qed.

(** [savemessagesmtimebulk(mtimes)] for a dictionary whose uids the mirror
    has and whose mtimes are integers that SQLite keeps (64 bits), on a
    store that lets the calls through: it returns; every uid of the
    dictionary has its mtime set, in the mirror entry and in the row, and
    nothing else of them changed; the other entries and rows are as they
    were; the store was called with one executemany and, outside a
    transaction scope, the commit. *)
Theorem savemessagesmtimebulk_sets_mtimes fuel mtimes s c :
  ready s c → has_cols (view s.1 c) ["mtime"] →
  NoDup mtimes.*1 → (∀ u, u ∈ mtimes.*1 → is_Some (mirror s !! u)) →
  (∀ u mt, (u, mt) ∈ mtimes → int64 mt) →
  ∃ s',
    savemessagesmtimebulk (S fuel) mtimes s = Ok tt s'
    ∧ (∀ u mt, (u, mt) ∈ mtimes →
         mirror s' !! u = set_mtime (VInt mt) <$> mirror s !! u
         ∧ store_row s' u = set_mtime_row mt <$> store_row s u)
    ∧ (∀ u, u ∉ mtimes.*1 →
         mirror s' !! u = mirror s !! u ∧ store_row s' u = store_row s u)
    ∧ calls_between s s'
        (write_calls s
           (EvExecuteMany (Update ["mtime"])
              ((λ um, {| p_id := um.1; p_vals := [VInt um.2] |})
                 <$> mtimes))).
Proof.
  intros [Hr Huids] Hcols Hnd Hin Hmts. unfold savemessagesmtimebulk.
  assert (Hst : is_Some (status (view s.1 c))).
  { destruct Hcols as (t & -> & _). by eexists. }
  assert (Hb : ∀ kv : Z * Z, kv ∈ mtimes →
    bindable {| p_id := kv.1; p_vals := [VInt kv.2] |} = true).
  { intros [k v] Hkv. simpl.
    assert (int64 k).
    { apply (stored_uid s); [done|]. apply Hin.
      apply list_elem_of_fmap. by exists (k, v). }
    assert (int64 v) by (by eapply Hmts). bind_ok. }
  erewrite bind_Ok;
    [|by apply (bulk_update_write ["mtime"] (λ mt : Z, [VInt mt]))].
  destruct (after_write_facts
              [EvExecuteMany (Update ["mtime"])
                 ((λ um : Z * Z, {| p_id := um.1; p_vals := [VInt um.2] |})
                    <$> mtimes)]
              (foldl (λ db kv, map_rows
                        (alter (set_cols ["mtime"] [VInt kv.2]) kv.1) db)
                 (view s.1 c) mtimes) c s Hr) as (_ & _ & Hm & _).
  destruct (after_write_store
              (EvExecuteMany (Update ["mtime"])
                 ((λ um : Z * Z, {| p_id := um.1; p_vals := [VInt um.2] |})
                    <$> mtimes))
              (foldl (λ db kv, map_rows
                        (alter (set_cols ["mtime"] [VInt kv.2]) kv.1) db)
                 (view s.1 c) mtimes) c s Hr) as (Hs' & Hcalls).
  pose proof (ready_store s c Hr) as Hstore.
  destruct (after_write _ _ c s) as [w1 f1] eqn:Es1.
  unfold mirror in *. simpl in Hm.
  rewrite (for_each_update_items (λ mt : Z, set_mtime (VInt mt)))
    by (intros u Hu; rewrite Hm; by apply Hin).
  rewrite Hm.
  eexists. split; [reflexivity|].
  unfold store_row. rewrite Hstore.
  change (store (w1, set_messagelist ?M f1)) with (store (w1, f1)).
  rewrite Hs'. simpl.
  rewrite (rows_of_foldl_update (λ mt : Z, set_cols ["mtime"] [VInt mt]))
    by done.
  split; [|split; [|done]].
  - intros u mt Hu. split.
    + by apply (lookup_foldl_alter_item (λ mt : Z, set_mtime (VInt mt))).
    + by apply (lookup_foldl_alter_item
                  (λ mt : Z, set_cols ["mtime"] [VInt mt])).
  - intros u Hu. split.
    + by apply (lookup_foldl_alter_other (λ mt : Z, set_mtime (VInt mt))).
    + by apply (lookup_foldl_alter_other
                  (λ mt : Z, set_cols ["mtime"] [VInt mt])).
Qed.

Lemma savemessagesmtimebulk_sets_mtimes_witness :
  ∃ s',
    savemessagesmtimebulk 1 [(9, 1700000000); (5, 0)] (two_messages false)
    = Ok tt s'
    ∧ (∀ u mt, (u, mt) ∈ [(9, 1700000000); (5, 0)] →
         mirror s' !! u
         = set_mtime (VInt mt) <$> mirror (two_messages false) !! u
         ∧ store_row s' u
           = set_mtime_row mt <$> store_row (two_messages false) u)
    ∧ (∀ u, u ∉ [(9, 1700000000); (5, 0)].*1 →
         mirror s' !! u = mirror (two_messages false) !! u
         ∧ store_row s' u = store_row (two_messages false) u)
    ∧ calls_between (two_messages false) s'
        (write_calls (two_messages false)
           (EvExecuteMany (Update ["mtime"])
              ((λ um, {| p_id := um.1; p_vals := [VInt um.2] |})
                 <$> [(9, 1700000000); (5, 0)]))).
Proof.
  apply (savemessagesmtimebulk_sets_mtimes 0 [(9, 1700000000); (5, 0)]
           (two_messages false) inbox_connection).
  - apply two_messages_ready.
  - apply two_messages_has_cols. vm_compute; reflexivity.
  - by_compute.
  - intros u Hu. apply list_elem_of_In in Hu. simpl in Hu.
    destruct Hu as [<-|[<-|[]]]; by_compute.
  - intros u mt Hu. apply list_elem_of_In in Hu. simpl in Hu.
    destruct Hu as [[= <- <-]|[[= <- <-]|[]]]; by_compute.
Defined.

(** When the dictionary of [savemessagesmtimebulk] has a uid that the mirror
    lacks (the uids and the mtimes being integers that SQLite keeps, so that
    every tuple is bound), the store is written first, for every item, and
    then [KeyError] is raised at that uid: the rows of all items have the
    new mtime, but only the mirror entries of the items before the uid have
    it; the entries of the items after it keep the old one. *)
Theorem savemessagesmtimebulk_missing_uid fuel l1 u mt l2 s c :
  quiet s c → has_cols (view s.1 c) ["mtime"] →
  NoDup (l1 ++ (u, mt) :: l2).*1 →
  (∀ k, k ∈ l1.*1 → is_Some (mirror s !! k)) → mirror s !! u = None →
  (∀ k v, (k, v) ∈ l1 ++ (u, mt) :: l2 → int64 k ∧ int64 v) →
  ∃ s',
    savemessagesmtimebulk (S fuel) (l1 ++ (u, mt) :: l2) s
    = Raise (KeyError u) s'
    ∧ (∀ k v, (k, v) ∈ l1 ++ (u, mt) :: l2 →
         store_row s' k = set_mtime_row v <$> store_row s k)
    ∧ (∀ k v, (k, v) ∈ l1 →
         mirror s' !! k = set_mtime (VInt v) <$> mirror s !! k)
    ∧ (∀ k, k ∉ l1.*1 → mirror s' !! k = mirror s !! k)
    ∧ calls_between s s'
        (write_calls s
           (EvExecuteMany (Update ["mtime"])
              ((λ um, {| p_id := um.1; p_vals := [VInt um.2] |})
                 <$> l1 ++ (u, mt) :: l2))).
Proof.
  intros Hr Hcols Hnd Hin Hu H64. unfold savemessagesmtimebulk.
  assert (Hst : is_Some (status (view s.1 c))).
  { destruct Hcols as (t & -> & _). by eexists. }
  assert (Hb : ∀ kv : Z * Z, kv ∈ l1 ++ (u, mt) :: l2 →
    bindable {| p_id := kv.1; p_vals := [VInt kv.2] |} = true).
  { intros [k v] Hkv. simpl. destruct (H64 k v Hkv). bind_ok. }
  erewrite bind_Ok;
    [|by apply (bulk_update_write ["mtime"] (λ mt : Z, [VInt mt]))].
  destruct (after_write_facts
              [EvExecuteMany (Update ["mtime"])
                 ((λ um : Z * Z, {| p_id := um.1; p_vals := [VInt um.2] |})
                    <$> l1 ++ (u, mt) :: l2)]
              (foldl (λ db kv, map_rows
                        (alter (set_cols ["mtime"] [VInt kv.2]) kv.1) db)
                 (view s.1 c) (l1 ++ (u, mt) :: l2)) c s Hr)
    as (_ & _ & Hm & _).
  destruct (after_write_store
              (EvExecuteMany (Update ["mtime"])
                 ((λ um : Z * Z, {| p_id := um.1; p_vals := [VInt um.2] |})
                    <$> l1 ++ (u, mt) :: l2))
              (foldl (λ db kv, map_rows
                        (alter (set_cols ["mtime"] [VInt kv.2]) kv.1) db)
                 (view s.1 c) (l1 ++ (u, mt) :: l2)) c s Hr) as (Hs' & Hcalls).
  pose proof (ready_store s c Hr) as Hstore.
  destruct (after_write _ _ c s) as [w1 f1] eqn:Es1.
  unfold mirror in *. simpl in Hm.
  rewrite (for_each_update_items_missing (λ mt : Z, set_mtime (VInt mt)))
    by (first [ intros k Hk; rewrite Hm; by apply Hin | by rewrite Hm ]).
  rewrite Hm.
  eexists. split; [reflexivity|].
  unfold store_row. rewrite Hstore.
  change (store (w1, set_messagelist ?M f1)) with (store (w1, f1)).
  rewrite Hs'. simpl.
  rewrite (rows_of_foldl_update (λ mt : Z, set_cols ["mtime"] [VInt mt]))
    by done.
  split; [|split; [|split; [|done]]].
  - intros k v Hk.
    by apply (lookup_foldl_alter_item
                (λ mt : Z, set_cols ["mtime"] [VInt mt])).
  - intros k v Hk.
    apply (lookup_foldl_alter_item (λ mt : Z, set_mtime (VInt mt)));
      [|done].
    rewrite fmap_app in Hnd. by apply NoDup_app in Hnd as (? & _).
  - intros k Hk.
    by apply (lookup_foldl_alter_other (λ mt : Z, set_mtime (VInt mt))).
Qed.

Lemma savemessagesmtimebulk_missing_uid_witness :
  ∃ s',
    savemessagesmtimebulk 1 ([(5, 11)] ++ (7, 12) :: [(9, 13)])
      (two_messages false)
    = Raise (KeyError 7) s'
    ∧ (∀ k v, (k, v) ∈ [(5, 11)] ++ (7, 12) :: [(9, 13)] →
         store_row s' k
         = set_mtime_row v <$> store_row (two_messages false) k)
    ∧ (∀ k v, (k, v) ∈ [(5, 11)] →
         mirror s' !! k
         = set_mtime (VInt v) <$> mirror (two_messages false) !! k)
    ∧ (∀ k, k ∉ [(5, 11)].*1 →
         mirror s' !! k = mirror (two_messages false) !! k)
    ∧ calls_between (two_messages false) s'
        (write_calls (two_messages false)
           (EvExecuteMany (Update ["mtime"])
              ((λ um, {| p_id := um.1; p_vals := [VInt um.2] |})
                 <$> [(5, 11)] ++ (7, 12) :: [(9, 13)]))).
Proof.
  apply (savemessagesmtimebulk_missing_uid 0 [(5, 11)] 7 12 [(9, 13)]
           (two_messages false) inbox_connection).
  - apply two_messages_quiet.
  - apply two_messages_has_cols. vm_compute; reflexivity.
  - by_compute.
  - intros k Hk. apply list_elem_of_In in Hk. simpl in Hk.
    destruct Hk as [<-|[]]. by_compute.
  - vm_compute; reflexivity.
  - intros k v Hk. apply list_elem_of_In in Hk. simpl in Hk.
    destruct Hk as [[= <- <-]|[[= <- <-]|[[= <- <-]|[]]]]; by_compute.
Defined.

(** When the dictionary of [savemessageslabelsbulk] has a uid that the
    mirror lacks (the uids being integers that SQLite keeps, so that every
    tuple is bound), the store is written first, for every item, and then
    [KeyError] is raised at that uid: the rows of all items have the new
    labels, but only the mirror entries of the items before the uid have
    them. *)
Theorem savemessageslabelsbulk_missing_uid fuel l1 u lb l2 s c :
  quiet s c → has_cols (view s.1 c) ["labels"] →
  NoDup (l1 ++ (u, lb) :: l2).*1 →
  (∀ k, k ∈ l1.*1 → is_Some (mirror s !! k)) → mirror s !! u = None →
  (∀ k, k ∈ (l1 ++ (u, lb) :: l2).*1 → int64 k) →
  ∃ s',
    savemessageslabelsbulk (S fuel) (l1 ++ (u, lb) :: l2) s
    = Raise (KeyError u) s'
    ∧ (∀ k v, (k, v) ∈ l1 ++ (u, lb) :: l2 →
         store_row s' k = relabel_row v <$> store_row s k)
    ∧ (∀ k v, (k, v) ∈ l1 →
         mirror s' !! k = set_labels v <$> mirror s !! k)
    ∧ (∀ k, k ∉ l1.*1 → mirror s' !! k = mirror s !! k)
    ∧ calls_between s s'
        (write_calls s
           (EvExecuteMany (Update ["labels"])
              ((λ ul, {| p_id := ul.1;
                         p_vals := [VText (labels_str ul.2)] |})
                 <$> l1 ++ (u, lb) :: l2))).
Proof.
  intros Hr Hcols Hnd Hin Hu H64. unfold savemessageslabelsbulk.
  assert (Hst : is_Some (status (view s.1 c))).
  { destruct Hcols as (t & -> & _). by eexists. }
  assert (Hb : ∀ kv : Z * gset string, kv ∈ l1 ++ (u, lb) :: l2 →
    bindable {| p_id := kv.1; p_vals := [VText (labels_str kv.2)] |} = true).
  { intros [k v] Hkv. simpl.
    assert (int64 k).
    { apply H64. apply list_elem_of_fmap. by exists (k, v). }
    bind_ok. }
  erewrite bind_Ok;
    [|by apply (bulk_update_write ["labels"]
                  (λ lb : gset string, [VText (labels_str lb)]))].
  destruct (after_write_facts
              [EvExecuteMany (Update ["labels"])
                 ((λ ul : Z * gset string,
                     {| p_id := ul.1; p_vals := [VText (labels_str ul.2)] |})
                    <$> l1 ++ (u, lb) :: l2)]
              (foldl (λ db kv, map_rows
                        (alter (set_cols ["labels"]
                                  [VText (labels_str kv.2)]) kv.1) db)
                 (view s.1 c) (l1 ++ (u, lb) :: l2)) c s Hr)
    as (_ & _ & Hm & _).
  destruct (after_write_store
              (EvExecuteMany (Update ["labels"])
                 ((λ ul : Z * gset string,
                     {| p_id := ul.1; p_vals := [VText (labels_str ul.2)] |})
                    <$> l1 ++ (u, lb) :: l2))
              (foldl (λ db kv, map_rows
                        (alter (set_cols ["labels"]
                                  [VText (labels_str kv.2)]) kv.1) db)
                 (view s.1 c) (l1 ++ (u, lb) :: l2)) c s Hr) as (Hs' & Hcalls).
  pose proof (ready_store s c Hr) as Hstore.
  destruct (after_write _ _ c s) as [w1 f1] eqn:Es1.
  unfold mirror in *. simpl in Hm.
  rewrite (for_each_update_items_missing set_labels)
    by (first [ intros k Hk; rewrite Hm; by apply Hin | by rewrite Hm ]).
  rewrite Hm.
  eexists. split; [reflexivity|].
  unfold store_row. rewrite Hstore.
  change (store (w1, set_messagelist ?M f1)) with (store (w1, f1)).
  rewrite Hs'. simpl.
  rewrite (rows_of_foldl_update
             (λ lb : gset string,
                set_cols ["labels"] [VText (labels_str lb)])) by done.
  split; [|split; [|split; [|done]]].
  - intros k v Hk. by apply (lookup_foldl_alter_item relabel_row).
  - intros k v Hk. apply (lookup_foldl_alter_item set_labels); [|done].
    rewrite fmap_app in Hnd. by apply NoDup_app in Hnd as (? & _).
  - intros k Hk. by apply (lookup_foldl_alter_other set_labels).
Qed.

Lemma savemessageslabelsbulk_missing_uid_witness :
  ∃ s',
    savemessageslabelsbulk 1 ([(9, {["X"]})] ++ (2, {["Y"]}) :: [(5, ∅)])
      (two_messages true)
    = Raise (KeyError 2) s'
    ∧ (∀ k v, (k, v) ∈ [(9, {["X"]})] ++ (2, {["Y"]}) :: [(5, ∅)] →
         store_row s' k
         = relabel_row v <$> store_row (two_messages true) k)
    ∧ (∀ k v, (k, v) ∈ [(9, ({["X"]} : gset string))] →
         mirror s' !! k
         = set_labels v <$> mirror (two_messages true) !! k)
    ∧ (∀ k, k ∉ [(9, ({["X"]} : gset string))].*1 →
         mirror s' !! k = mirror (two_messages true) !! k)
    ∧ calls_between (two_messages true) s'
        (write_calls (two_messages true)
           (EvExecuteMany (Update ["labels"])
              ((λ ul, {| p_id := ul.1;
                         p_vals := [VText (labels_str ul.2)] |})
                 <$> [(9, {["X"]})] ++ (2, {["Y"]}) :: [(5, ∅)]))).
Proof.
  apply (savemessageslabelsbulk_missing_uid 0 [(9, {["X"]})] 2 {["Y"]}
           [(5, ∅)] (two_messages true) inbox_connection).
  - apply two_messages_quiet.
  - apply two_messages_has_cols. vm_compute; reflexivity.
  - by_compute.
  - intros k Hk. apply list_elem_of_In in Hk. simpl in Hk.
    destruct Hk as [<-|[]]. by_compute.
  - vm_compute; reflexivity.
  - intros k Hk. apply list_elem_of_In in Hk. simpl in Hk.
    destruct Hk as [<-|[<-|[<-|[]]]]; by_compute.
Defined.

(** ** The order of the mirror and the store *)

Lemma write_frame_mirror sql Inv s s' :
  write_frame sql Inv s s' → mirror s' = mirror s.
Proof. intros [Hfo _ _]. unfold mirror. by rewrite Hfo. Qed.

Lemma sql_write_mirror fuel sql a em s s' :
  state_of (__sql_write fuel sql a em s) = Some s' → mirror s' = mirror s.
Proof.
  intros H. apply (respects_sql_write sql (λ _, True)) in H; [|done].
  by apply write_frame_mirror in H.
Qed.

(** [savemessageflags] and [savemessagelabels] change the mirror before they
    call the store: for a uid that the mirror has, the entry has the new
    value however the write ends, by a return or by an exception of the
    store. [deletemessage] calls the store first: when it raises, the
    mirror is as it was. *)
Theorem failed_write_keeps_the_mirror_change fuel uid m s :
  mirror s !! uid = Some m →
  (∀ fl s', state_of (savemessageflags fuel uid fl s) = Some s' →
     mirror s' = <[uid := set_flags fl m]> (mirror s))
  ∧ (∀ lb mt s', state_of (savemessagelabels fuel uid lb mt s) = Some s' →
       mirror s' = <[uid := labelled lb mt m]> (mirror s))
  ∧ (∀ e s', deletemessage fuel uid s = Raise e s' → mirror s' = mirror s).
Proof.
  destruct s as [w f]. unfold mirror. simpl. intros Hm.
  split; [|split].
  - intros fl s'. unfold savemessageflags.
    erewrite bind_Ok; [|apply uidexists_existing; rewrite Hm; by eexists].
    erewrite bind_Ok; [|reflexivity].
    erewrite bind_Ok; [|by apply update_msg_existing].
    intros H. by apply sql_write_mirror in H.
  - intros lb mt s'. unfold savemessagelabels, labelled.
    erewrite bind_Ok; [|by apply update_msg_existing].
    destruct (truthy mt).
    + erewrite bind_Ok.
      2:{ apply update_msg_existing. simpl. apply lookup_insert_eq. }
      intros H. apply sql_write_mirror in H. unfold mirror in H.
      simpl in H. by rewrite insert_insert_eq in H.
    + erewrite bind_Ok; [|reflexivity].
      intros H. by apply sql_write_mirror in H.
  - intros e s'. unfold deletemessage.
    erewrite bind_Ok; [|reflexivity].
    rewrite bool_decide_eq_true_2 by (simpl; rewrite Hm; by eexists). simpl.
    unfold bind at 1.
    destruct (__sql_write _ _ _ _ _) as [[] [w1 f1]|e1 s1| |] eqn:E;
      try done.
    + apply (f_equal state_of) in E. apply sql_write_mirror in E.
      unfold mirror in E. simpl in E.
      rewrite del_msg_existing; [done|]. rewrite E, Hm. by eexists.
    + intros [= <- <-]. apply (f_equal state_of) in E.
      apply sql_write_mirror in E. exact E.
Qed.

Lemma failed_write_keeps_the_mirror_change_witness :
  (∀ fl s',
     state_of (savemessageflags 2 5 fl (failing (one_message false)))
     = Some s' →
     mirror s'
     = <[5 := set_flags fl (new_msg 5 {["S"]} 0 7 {["Work"]})]>
         (mirror (failing (one_message false))))
  ∧ (∀ lb mt s',
       state_of (savemessagelabels 2 5 lb mt (failing (one_message false)))
       = Some s' →
       mirror s'
       = <[5 := labelled lb mt (new_msg 5 {["S"]} 0 7 {["Work"]})]>
           (mirror (failing (one_message false))))
  ∧ (∀ e s',
       deletemessage 2 5 (failing (one_message false)) = Raise e s' →
       mirror s' = mirror (failing (one_message false))).
Proof.
  apply (failed_write_keeps_the_mirror_change 2 5
           (new_msg 5 {["S"]} 0 7 {["Work"]}) (failing (one_message false))).
  vm_compute; reflexivity.
Defined.

Lemma run_stmt_insert_existing cols vals id db t :
  status db = Some t → forallb (has_col t) cols = true →
  length cols = length vals →
  bindable {| p_id := id; p_vals := vals |} = true →
  is_Some (t_rows t !! id) →
  run_stmt (Insert false cols) {| p_id := id; p_vals := vals |} db
  = inl (IntegrityError "UNIQUE constraint failed: status.id").
Proof.
  intros Ht Hc Hlen Hb Hid. unfold run_stmt. rewrite Ht; simpl.
  rewrite Hc; simpl. rewrite bool_decide_eq_true_2 by done; simpl.
  rewrite Hb; simpl. by rewrite bool_decide_eq_true_2.
Qed.

(** A statement that the database refuses with an error that is not an
    [OperationalError]: [__sql_write] raises it after the one call, without a
    commit. *)
Lemma sql_write_statement_error sql a fuel s c e db :
  quiet s c → run_args sql a (view s.1 c) = (Some e, db) →
  (∀ m, e ≠ OperationalError m) →
  __sql_write (S fuel) sql (Some a) (call_mode a) s
  = Raise e
      (set_trace (call_event sql a :: trace s.1) s.1,
       set_connection (Some (set_txn (Some db) c)) s.2).
Proof.
  destruct s as [w f]. intros (Hc & Ho & Hfl & l & Hl & Hfree) Hrun He.
  simpl in *. unfold __sql_write; fold __sql_write. unfold bind at 1.
  rewrite (round_statement_error sql a w f c l Hc Ho Hl Hfree e db) by done.
  unfold on_write_error. destruct e; try done. exfalso. by eapply He.
Qed.

(** [savemessage] of a uid that the mirror lacks (and that is not negative)
    puts the entry into the mirror before the INSERT: an exception of the
    write is raised again as a [UserWarning] that ends in the uid, and the
    entry stays in the mirror. When the store has a row of that uid already
    (the mirror was not loaded, say), and the uid and the mtime are integers
    that SQLite keeps (64 bits) so that the parameters are bound, the INSERT
    is refused: the row is the old one, the mirror has the new entry,
    nothing is committed. *)
Theorem savemessage_failed_insert fuel uid fl rtime mt lb s :
  0 ≤ uid → mirror s !! uid = None →
  (∀ e s', savemessage fuel uid fl rtime mt lb s = Raise e s' →
     (∃ e0, e = UserWarning
                  (exn_str e0 +:+ " while inserting UID " +:+ pretty uid))
     ∧ mirror s' = <[uid := new_msg uid fl rtime mt lb]> (mirror s))
  ∧ (∀ c r, quiet s c → has_cols (view s.1 c) status_cols →
       store_row s uid = Some r → int64 uid → int64 mt →
       ∃ s',
         savemessage (S fuel) uid fl rtime mt lb s
         = Raise (UserWarning
                    ("UNIQUE constraint failed: status.id"
                     +:+ " while inserting UID " +:+ pretty uid)) s'
         ∧ store_row s' uid = Some r
         ∧ committed s' = committed s
         ∧ calls_between s s'
             [EvExecute (Insert false status_cols)
                {| p_id := uid;
                   p_vals := [VText (flags_str fl); VInt mt;
                              VText (labels_str lb)] |}]).
Proof.
  destruct s as [w f]. unfold mirror. simpl. intros Hu Hm.
  assert (Hstart : ∀ n,
    savemessage n uid fl rtime mt lb (w, f)
    = (let* _ :=
         try_catch
           (__sql_write n (Insert false status_cols)
              (Some (One {| p_id := uid;
                            p_vals := [VText (flags_str fl); VInt mt;
                                       VText (labels_str lb)] |})) false)
           (λ e, raise (UserWarning
                   (exn_str e +:+ " while inserting UID " +:+ pretty uid))) in
       ret uid)
        (w, set_messagelist
              (<[uid := new_msg uid fl rtime mt lb]> (messagelist f)) f)).
  { intros n. unfold savemessage.
    rewrite bool_decide_eq_false_2 by lia.
    erewrite bind_Ok.
    2:{ unfold uidexists, bind, self, ret; simpl. rewrite Hm. reflexivity. }
    replace (bool_decide (is_Some None)) with false
      by (symmetry; apply bool_decide_eq_false_2; by intros []).
    erewrite bind_Ok; [|reflexivity].
    erewrite bind_Ok; [|reflexivity].
    unfold new_msg. simpl. by rewrite insert_insert_eq. }
  split.
  - intros e s'. rewrite Hstart. unfold bind at 1, try_catch.
    destruct (__sql_write _ _ _ _ _) as [[] s1|e1 s1| |] eqn:E; try done.
    unfold raise. intros [= <- <-]. split; [by eexists|].
    apply (f_equal state_of) in E. apply sql_write_mirror in E. exact E.
  - intros c r Hr (t & Ht & Hcols) Hrow H64 Hmt64. rewrite Hstart.
    pose proof Hr as (Hc & _). simpl in Hc.
    unfold store_row, store in Hrow. simpl in Hrow.
    rewrite Hc in Hrow. simpl in Hrow.
    unfold rows_of in Hrow. rewrite Ht in Hrow. simpl in Hrow.
    erewrite bind_Raise.
    2:{ erewrite try_catch_Raise.
        2:{ apply (sql_write_statement_error (Insert false status_cols)
                     (One _) fuel (w, set_messagelist _ f) c
                     (IntegrityError "UNIQUE constraint failed: status.id")
                     (view w c)); [done| |done].
            simpl. unfold run_one.
            erewrite run_stmt_insert_existing;
              [reflexivity|exact Ht|exact Hcols|reflexivity|bind_ok|].
            rewrite Hrow. by eexists. }
        reflexivity. }
    eexists. split; [reflexivity|].
    unfold store_row, store, committed, calls_between, view. simpl.
    rewrite Hc. simpl. unfold rows_of.
    unfold view in Ht. rewrite Ht. simpl. done.
Qed.

Lemma savemessage_failed_insert_witness :
  (∀ e s',
     savemessage 2 5 {["T"]} 1 2 {["New"]} mirror_dropped = Raise e s' →
     (∃ e0, e = UserWarning
                  (exn_str e0 +:+ " while inserting UID " +:+ pretty 5))
     ∧ mirror s'
       = <[5 := new_msg 5 {["T"]} 1 2 {["New"]}]> (mirror mirror_dropped))
  ∧ (∃ r s',
       store_row mirror_dropped 5 = Some r
       ∧ savemessage 2 5 {["T"]} 1 2 {["New"]} mirror_dropped
         = Raise (UserWarning
                    ("UNIQUE constraint failed: status.id"
                     +:+ " while inserting UID " +:+ pretty 5)) s'
       ∧ store_row s' 5 = Some r
       ∧ committed s' = committed mirror_dropped
       ∧ calls_between mirror_dropped s'
           [EvExecute (Insert false status_cols)
              {| p_id := 5;
                 p_vals := [VText (flags_str {["T"]}); VInt 2;
                            VText (labels_str {["New"]})] |}]).
Proof.
  destruct (savemessage_failed_insert 1 5 {["T"]} 1 2 {["New"]}
              mirror_dropped) as [Hraise Hrefused].
  - lia.
  - vm_compute; reflexivity.
  - split; [exact Hraise|].
    exists (default ∅ (store_row mirror_dropped 5)).
    destruct (Hrefused inbox_connection
                (default ∅ (store_row mirror_dropped 5)))
      as (s' & Hs'); [| | |by_compute|by_compute|].
    + apply (one_message_quiet false).
    + apply (one_message_has_cols false). vm_compute; reflexivity.
    + vm_compute; reflexivity.
    + exists s'. split; [vm_compute; reflexivity|exact Hs'].
Defined.

(** [savemessage] of a uid that is new, up to the INSERT: the entry is in the
    mirror when the statement is called. *)
Lemma savemessage_new_start fuel uid fl rtime mt lb w f :
  0 ≤ uid → messagelist f !! uid = None →
  savemessage fuel uid fl rtime mt lb (w, f)
  = (let* _ :=
       try_catch
         (__sql_write fuel (Insert false status_cols)
            (Some (One {| p_id := uid;
                          p_vals := [VText (flags_str fl); VInt mt;
                                     VText (labels_str lb)] |})) false)
         (λ e, raise (UserWarning
                 (exn_str e +:+ " while inserting UID " +:+ pretty uid))) in
     ret uid)
      (w, set_messagelist
            (<[uid := new_msg uid fl rtime mt lb]> (messagelist f)) f).
Proof.
  intros Hu Hm. unfold savemessage.
  rewrite bool_decide_eq_false_2 by lia.
  erewrite bind_Ok.
  2:{ unfold uidexists, bind, self, ret; simpl. rewrite Hm. reflexivity. }
  replace (bool_decide (is_Some None)) with false
    by (symmetry; apply bool_decide_eq_false_2; by intros []).
  erewrite bind_Ok; [|reflexivity].
  erewrite bind_Ok; [|reflexivity].
  unfold new_msg. simpl. by rewrite insert_insert_eq.
Qed.

(** [savemessage] of a new uid, when the uid or the mtime is an integer that
    SQLite does not keep (outside 64 bits): the entry is put into the
    mirror, the INSERT is called and binding its parameters raises
    [OverflowError], which is raised again as a [UserWarning]. No row is
    written, nothing is committed, and the mirror keeps the entry. *)
Theorem savemessage_too_large fuel uid fl rtime mt lb s c :
  quiet s c → has_cols (view s.1 c) status_cols →
  0 ≤ uid → mirror s !! uid = None → ¬ (int64 uid ∧ int64 mt) →
  ∃ s',
    savemessage (S fuel) uid fl rtime mt lb s
    = Raise (UserWarning
               ("Python int too large to convert to SQLite INTEGER"
                +:+ " while inserting UID " +:+ pretty uid)) s'
    ∧ mirror s' = <[uid := new_msg uid fl rtime mt lb]> (mirror s)
    ∧ (∀ u, store_row s' u = store_row s u)
    ∧ committed s' = committed s
    ∧ calls_between s s'
        [EvExecute (Insert false status_cols)
           {| p_id := uid;
              p_vals := [VText (flags_str fl); VInt mt;
                         VText (labels_str lb)] |}].
Proof.
  destruct s as [w f]. unfold mirror. simpl.
  intros Hr (t & Ht & Hcols) Hu Hm Hbig.
  assert (Hb : bindable {| p_id := uid;
                           p_vals := [VText (flags_str fl); VInt mt;
                                      VText (labels_str lb)] |} = false).
  { apply not_true_is_false. unfold bindable. simpl. intros Hb.
    apply andb_true_iff in Hb as [H1 H2]. apply bool_decide_eq_true in H1.
    rewrite andb_true_r in H2. apply bool_decide_eq_true in H2.
    by apply Hbig. }
  rewrite savemessage_new_start by done.
  pose proof Hr as (Hc & _). simpl in Hc.
  erewrite bind_Raise.
  2:{ erewrite try_catch_Raise.
      2:{ apply (sql_write_statement_error (Insert false status_cols)
                   (One _) fuel (w, set_messagelist _ f) c too_large
                   (view w c)); [done| |done].
          simpl. unfold run_one.
          erewrite (run_stmt_too_large (Insert false status_cols));
            [reflexivity|exact Ht|by split|exact Hb]. }
      reflexivity. }
  eexists. split; [reflexivity|].
  unfold store_row, store, committed, calls_between, view. simpl.
  rewrite Hc. simpl. done.
Qed.

Lemma savemessage_too_large_witness :
  ∃ s',
    savemessage 1 7 {["S"]} 0 (2 ^ 63) ∅ (two_messages false)
    = Raise (UserWarning
               ("Python int too large to convert to SQLite INTEGER"
                +:+ " while inserting UID " +:+ pretty 7)) s'
    ∧ mirror s'
      = <[7 := new_msg 7 {["S"]} 0 (2 ^ 63) ∅]> (mirror (two_messages false))
    ∧ (∀ u, store_row s' u = store_row (two_messages false) u)
    ∧ committed s' = committed (two_messages false)
    ∧ calls_between (two_messages false) s'
        [EvExecute (Insert false status_cols)
           {| p_id := 7;
              p_vals := [VText (flags_str {["S"]}); VInt (2 ^ 63);
                         VText (labels_str ∅)] |}].
Proof.
  apply (savemessage_too_large 0 7 {["S"]} 0 (2 ^ 63) ∅ (two_messages false)
           inbox_connection).
  - apply two_messages_quiet.
  - apply two_messages_has_cols. vm_compute; reflexivity.
  - lia.
  - vm_compute; reflexivity.
  - by_compute.
Defined.

Lemma run_many_update_too_large {B} cols (V : B → list value) l1 x l2 :
  ∀ db,
  has_cols db cols → (∀ v, length cols = length (V v)) →
  (∀ kv, kv ∈ l1 → bindable {| p_id := kv.1; p_vals := V kv.2 |} = true) →
  bindable {| p_id := x.1; p_vals := V x.2 |} = false →
  run_many (Update cols)
    ((λ kv : Z * B, {| p_id := kv.1; p_vals := V kv.2 |})
       <$> l1 ++ x :: l2) db
  = (Some too_large,
     foldl (λ db kv, map_rows (alter (set_cols cols (V kv.2)) kv.1) db)
       db l1).
Proof.
  induction l1 as [|kv l1 IH]; intros db H Hlen Hb Hx; simpl.
  - destruct H as (t & Ht & Hc).
    erewrite (run_stmt_too_large (Update cols)); [done|exact Ht| |done].
    split; [done|]. simpl. apply Hlen.
  - rewrite run_stmt_update by (first [done | apply Hb, list_elem_of_here]).
    apply IH; [by apply has_cols_map_rows|done| |done].
    intros y Hy. by apply Hb, list_elem_of_further.
Qed.

(** [savemessagesmtimebulk] with an item whose uid or mtime is an integer
    that SQLite does not keep (outside 64 bits), the items before it being
    bound: the [executemany] raises [OverflowError] at that item, which
    [__sql_write] lets through; nothing is committed and the mirror is not
    touched. *)
Theorem savemessagesmtimebulk_too_large fuel l1 u mt l2 s c :
  quiet s c → has_cols (view s.1 c) ["mtime"] →
  (∀ k v, (k, v) ∈ l1 → int64 k ∧ int64 v) → ¬ (int64 u ∧ int64 mt) →
  ∃ s',
    savemessagesmtimebulk (S fuel) (l1 ++ (u, mt) :: l2) s
    = Raise (OverflowError
               "Python int too large to convert to SQLite INTEGER") s'
    ∧ mirror s' = mirror s
    ∧ committed s' = committed s
    ∧ calls_between s s'
        [EvExecuteMany (Update ["mtime"])
           ((λ um, {| p_id := um.1; p_vals := [VInt um.2] |})
              <$> l1 ++ (u, mt) :: l2)].
Proof.
  destruct s as [w f]. simpl. intros Hr Hcols H1 Hbig.
  unfold savemessagesmtimebulk.
  pose proof Hr as (Hc & _). simpl in Hc.
  erewrite bind_Raise.
  2:{ apply (sql_write_statement_error (Update ["mtime"]) (Many _) fuel
               (w, f) c too_large
               (foldl (λ db kv,
                         map_rows (alter (set_cols ["mtime"] [VInt kv.2])
                                     kv.1) db)
                  (view w c) l1)); [done| |done].
      simpl.
      apply (run_many_update_too_large ["mtime"] (λ mt : Z, [VInt mt]) l1
               (u, mt) l2); [done|done| |].
      - intros [k v] Hkv. simpl. destruct (H1 k v Hkv). bind_ok.
      - apply not_true_is_false. unfold bindable. simpl. intros Hb.
        apply andb_true_iff in Hb as [Hb1 Hb2].
        apply bool_decide_eq_true in Hb1.
        rewrite andb_true_r in Hb2. apply bool_decide_eq_true in Hb2.
        by apply Hbig. }
  eexists. split; [reflexivity|].
  unfold mirror, committed, calls_between. simpl. rewrite Hc. done.
Qed.

Lemma savemessagesmtimebulk_too_large_witness :
  ∃ s',
    savemessagesmtimebulk 1 ([(5, 11)] ++ (9, - 2 ^ 63 - 1) :: [])
      (two_messages false)
    = Raise (OverflowError
               "Python int too large to convert to SQLite INTEGER") s'
    ∧ mirror s' = mirror (two_messages false)
    ∧ committed s' = committed (two_messages false)
    ∧ calls_between (two_messages false) s'
        [EvExecuteMany (Update ["mtime"])
           ((λ um, {| p_id := um.1; p_vals := [VInt um.2] |})
              <$> [(5, 11)] ++ (9, - 2 ^ 63 - 1) :: [])].
Proof.
  apply (savemessagesmtimebulk_too_large 0 [(5, 11)] 9 (- 2 ^ 63 - 1) []
           (two_messages false) inbox_connection).
  - apply two_messages_quiet.
  - apply two_messages_has_cols. vm_compute; reflexivity.
  - intros k v Hk. apply list_elem_of_In in Hk. simpl in Hk.
    destruct Hk as [[= <- <-]|[]]. by_compute.
  - by_compute.
Defined.

(** [deletemessage] of a uid that the mirror has, on a store that lets the
    calls through: it returns, the entry and the row of the uid are gone, the
    others are as they were; the store was called with the one DELETE and,
    outside a transaction scope, the commit. *)
Theorem deletemessage_existing fuel uid s c :
  ready s c → is_Some (status (view s.1 c)) → is_Some (mirror s !! uid) →
  ∃ s',
    deletemessage (S fuel) uid s = Ok tt s'
    ∧ mirror s' = delete uid (mirror s)
    ∧ (∀ u, store_row s' u = if decide (u = uid) then None else store_row s u)
    ∧ calls_between s s'
        (write_calls s (EvExecute Delete {| p_id := uid; p_vals := [] |})).
Proof.
  intros [Hr Huids] Hst Hin. unfold deletemessage.
  assert (H64 : int64 uid) by (by apply (stored_uid s)).
  erewrite bind_Ok; [|reflexivity].
  rewrite bool_decide_eq_true_2 by done. simpl.
  erewrite bind_Ok.
  2:{ apply (sql_write_ready Delete (One _) fuel s c); [done|].
      simpl. unfold run_one. by rewrite run_stmt_delete. }
  destruct (after_write_facts
              [EvExecute Delete {| p_id := uid; p_vals := [] |}]
              (map_rows (delete uid) (view s.1 c)) c s Hr)
    as (_ & _ & Hm & _).
  destruct (after_write_store
              (EvExecute Delete {| p_id := uid; p_vals := [] |})
              (map_rows (delete uid) (view s.1 c)) c s Hr) as (Hs' & Hcalls).
  pose proof (ready_store s c Hr) as Hstore.
  destruct (after_write _ _ c s) as [w1 f1] eqn:Es1.
  unfold mirror in *. simpl in Hm.
  rewrite del_msg_existing by (by rewrite Hm).
  rewrite Hm. eexists. split; [reflexivity|].
  split; [done|]. split; [|done].
  intros u. unfold store_row. rewrite Hstore.
  change (store (w1, set_messagelist ?M f1)) with (store (w1, f1)).
  rewrite Hs'. simpl. rewrite rows_of_map_rows by done.
  destruct (decide (u = uid)) as [->|Hne].
  - apply lookup_delete_eq.
  - by apply lookup_delete_ne.
Qed.

Lemma deletemessage_existing_witness :
  ∃ s',
    deletemessage 1 9 (two_messages false) = Ok tt s'
    ∧ mirror s' = delete 9 (mirror (two_messages false))
    ∧ (∀ u, store_row s' u
            = if decide (u = 9) then None
              else store_row (two_messages false) u)
    ∧ calls_between (two_messages false) s'
        (write_calls (two_messages false)
           (EvExecute Delete {| p_id := 9; p_vals := [] |})).
Proof.
  apply (deletemessage_existing 0 9 (two_messages false) inbox_connection).
  - apply two_messages_ready.
  - vm_compute; eauto.
  - by_compute.
Defined.

(** ** Writes inside a transaction scope *)

Lemma set_in_transactions_twice a b f :
  set_in_transactions a (set_in_transactions b f) = set_in_transactions a f.
Proof. done. Qed.

Lemma set_in_transactions_same f :
  set_in_transactions (_in_transactions f) f = f.
Proof. by destruct f. Qed.

Lemma enters_ok k : ∀ w f,
  fsync f = false → is_Some (connection f) →
  enters k (w, f)
  = Ok tt (w, set_in_transactions (_in_transactions f + Z.of_nat k) f).
Proof.
  unfold enters. induction k as [|k IH]; intros w f Hf Hc; simpl.
  - unfold ret. rewrite Z.add_0_r. by rewrite set_in_transactions_same.
  - erewrite bind_Ok.
    2:{ unfold __enter__, bind, self, assert, modify_self, ret. simpl.
        rewrite Hf. simpl. rewrite bool_decide_eq_true_2 by done.
        reflexivity. }
    rewrite IH by done. simpl. rewrite set_in_transactions_twice.
    do 3 f_equal. lia.
Qed.

(** The exits that leave the counter above 0 call nothing. *)
Lemma exits_inner k : ∀ w f,
  fsync f = false → Z.of_nat k < _in_transactions f →
  exits k (w, f)
  = Ok tt (w, set_in_transactions (_in_transactions f - Z.of_nat k) f).
Proof.
  unfold exits. induction k as [|k IH]; intros w f Hf Hk; simpl.
  - unfold ret. rewrite Z.sub_0_r. by rewrite set_in_transactions_same.
  - erewrite bind_Ok.
    2:{ unfold __exit__, bind, self, assert, modify_self, ret. simpl.
        rewrite Hf. simpl. rewrite bool_decide_eq_true_2 by lia. simpl.
        rewrite bool_decide_eq_false_2 by lia. reflexivity. }
    rewrite IH by (simpl; first [done | lia]). simpl.
    rewrite set_in_transactions_twice. do 3 f_equal. lia.
Qed.

(** A write inside [with self:] blocks nested [n + 1] deep, in a folder that
    does not fsync, on a store that lets the calls through: the write is
    not committed, neither by [__sql_write] nor by the [n] inner exits, which
    call nothing; the connection of the folder sees it; the outermost exit
    commits it. *)
Theorem scope_commits_at_outermost_exit n sql a fuel s c db :
  fsync s.2 = false → quiet s c → _in_transactions s.2 = 0 →
  run_args sql a (view s.1 c) = (None, db) →
  ∃ s1 s2 s3 s4,
    enters (S n) s = Ok tt s1
    ∧ __sql_write (S fuel) sql (Some a) (call_mode a) s1 = Ok tt s2
    ∧ exits n s2 = Ok tt s3
    ∧ __exit__ s3 = Ok tt s4
    ∧ committed s3 = committed s ∧ store s3 = Some db
    ∧ calls_between s s3 [call_event sql a]
    ∧ committed s4 = Some db ∧ store s4 = Some db
    ∧ calls_between s s4 [EvCommit; call_event sql a]
    ∧ _in_transactions s4.2 = 0 ∧ mirror s4 = mirror s.
Proof.
  destruct s as [w f]. simpl.
  intros Hf (Hc & Ho & Hfl & l & Hl & Hfree) H0 Hrun. simpl in *.
  do 4 eexists.
  split; [apply enters_ok; [done|by rewrite Hc]|].
  split.
  { apply (sql_write_ready sql a fuel (w, set_in_transactions _ f) c db);
      [|done].
    repeat split; try done. by exists l. }
  unfold after_write. simpl.
  rewrite bool_decide_eq_false_2 by lia. simpl.
  split; [apply exits_inner; simpl; [done|lia]|].
  simpl. rewrite H0.
  replace (0 + Z.of_nat (S n) - Z.of_nat n) with 1 by lia.
  split.
  { unfold __exit__. erewrite bind_Ok; [|reflexivity]. simpl. rewrite Hf.
    simpl. erewrite bind_Ok; [|reflexivity].
    erewrite bind_Ok; [|reflexivity].
    erewrite bind_Ok; [|reflexivity]. simpl.
    unfold conn_commit, the_connection.
    erewrite bind_Ok.
    2:{ unfold bind, self. simpl. rewrite Ho. reflexivity. }
    erewrite bind_Ok; [|reflexivity].
    erewrite bind_Ok.
    2:{ unfold next_fault. simpl. rewrite Hfl. reflexivity. }
    unfold flush. simpl. erewrite bind_Ok; [|reflexivity]. reflexivity. }
  unfold committed, store, calls_between, mirror, view. simpl.
  rewrite Hc. simpl. rewrite lookup_insert_eq. simpl. done.
Qed.

Lemma scope_commits_at_outermost_exit_witness :
  ∃ s1 s2 s3 s4,
    enters 3 (one_message false) = Ok tt s1
    ∧ __sql_write 1 Delete (Some (One {| p_id := 5; p_vals := [] |}))
        false s1 = Ok tt s2
    ∧ exits 2 s2 = Ok tt s3
    ∧ __exit__ s3 = Ok tt s4
    ∧ committed s3 = committed (one_message false)
    ∧ store s3 = Some new_db
    ∧ calls_between (one_message false) s3
        [EvExecute Delete {| p_id := 5; p_vals := [] |}]
    ∧ committed s4 = Some new_db
    ∧ store s4 = Some new_db
    ∧ calls_between (one_message false) s4
        [EvCommit; EvExecute Delete {| p_id := 5; p_vals := [] |}]
    ∧ _in_transactions s4.2 = 0 ∧ mirror s4 = mirror (one_message false).
Proof.
  apply (scope_commits_at_outermost_exit 2 Delete
           (One {| p_id := 5; p_vals := [] |}) 0 (one_message false)
           inbox_connection).
  - reflexivity.
  - apply one_message_quiet.
  - reflexivity.
  - vm_compute; reflexivity.
Defined.

(** [closefiles] does not commit. When the last user of a file closes it
    inside a [with self:] block, in a folder that does not fsync, the write
    made in the block is lost: the file is as it was before the write, and
    the [__exit__] of the block raises on the closed connection. *)
Theorem closefiles_in_scope_loses_the_write sql a fuel s c db :
  fsync s.2 = false → quiet s c → _in_transactions s.2 = 0 →
  _counter (lock_of s.1 s.2) ≤ 1 →
  run_args sql a (view s.1 c) = (None, db) →
  ∃ s1 s2 s3,
    __enter__ s = Ok tt s1
    ∧ __sql_write (S fuel) sql (Some a) (call_mode a) s1 = Ok tt s2
    ∧ closefiles s2 = Ok tt s3
    ∧ store s2 = Some db
    ∧ files s3.1 = files s.1
    ∧ connection s3.2
      = Some {| c_path := c_path c; c_closed := true; c_txn := None |}
    ∧ calls_between s s3 [EvClose; call_event sql a]
    ∧ __exit__ s3
      = Raise (ProgrammingError "Cannot operate on a closed database.")
          (s3.1, set_in_transactions 0 s3.2).
Proof.
  destruct s as [w f]. simpl.
  intros Hf (Hc & Ho & Hfl & l & Hl & Hfree) H0 Hcount Hrun. simpl in *.
  unfold lock_of in Hcount. simpl in Hcount. rewrite Hl in Hcount.
  simpl in Hcount.
  do 3 eexists.
  split.
  { unfold __enter__, bind, self, assert, modify_self, ret. simpl.
    rewrite Hf, Hc. simpl. reflexivity. }
  split.
  { apply (sql_write_ready sql a fuel (w, set_in_transactions _ f) c db);
      [|done].
    repeat split; try done. by exists l. }
  unfold after_write. simpl.
  rewrite bool_decide_eq_false_2 by lia. simpl.
  split; [by apply (closefiles_free _ _ l)|].
  unfold closed_folder, closed_trace, store, calls_between, view. simpl.
  rewrite bool_decide_eq_true_2 by lia. simpl.
  repeat (split; [done|]).
  unfold __exit__. erewrite bind_Ok; [|reflexivity]. simpl. rewrite Hf.
  simpl. rewrite H0. erewrite bind_Ok; [|reflexivity].
  erewrite bind_Ok; [|reflexivity].
  erewrite bind_Ok; [|reflexivity]. simpl.
  unfold conn_commit, the_connection.
  erewrite bind_Raise; [reflexivity|].
  erewrite bind_Ok; [|reflexivity]. reflexivity.
Qed.

Lemma closefiles_in_scope_loses_the_write_witness :
  ∃ s1 s2 s3,
    __enter__ (one_message false) = Ok tt s1
    ∧ __sql_write 1 Delete (Some (One {| p_id := 5; p_vals := [] |}))
        false s1 = Ok tt s2
    ∧ closefiles s2 = Ok tt s3
    ∧ store s2 = Some new_db
    ∧ files s3.1 = files (one_message false).1
    ∧ connection s3.2
      = Some {| c_path := c_path inbox_connection; c_closed := true;
                c_txn := None |}
    ∧ calls_between (one_message false) s3
        [EvClose; EvExecute Delete {| p_id := 5; p_vals := [] |}]
    ∧ __exit__ s3
      = Raise (ProgrammingError "Cannot operate on a closed database.")
          (s3.1, set_in_transactions 0 s3.2).
Proof.
  apply (closefiles_in_scope_loses_the_write Delete
           (One {| p_id := 5; p_vals := [] |}) 0 (one_message false)
           inbox_connection).
  - reflexivity.
  - apply one_message_quiet.
  - reflexivity.
  - vm_compute. discriminate.
  - vm_compute; reflexivity.
Defined.

(** ** Loading the mirror *)

Lemma cachemessagelist_state w f c t :
  quiet (w, f) c → status (view w c) = Some t →
  forallb (has_col t) status_cols = true →
  (∀ id r, t_rows t !! id = Some r → is_Some (flags_of (col r "flags"))) →
  cachemessagelist (w, f)
  = Ok tt
      (set_trace (EvSelect "SELECT id,flags,mtime,labels from status"
                  :: trace w) w,
       set_messagelist
         (foldl load_into ∅ (cursor_row <$> rows_in_order t)) f).
Proof.
  intros (Hc & Ho & Hfl & _) Ht Hcols Hrows.
  simpl in *. unfold cachemessagelist.
  erewrite bind_Ok; [|reflexivity].
  erewrite bind_Ok.
  2:{ unfold select_status, the_connection.
      erewrite bind_Ok; [|unfold bind, self; simpl; rewrite Hc, Ho; reflexivity].
      erewrite bind_Ok; [|reflexivity].
      erewrite bind_Ok; [|unfold next_fault; simpl; rewrite Hfl; reflexivity].
      erewrite bind_Ok; [|reflexivity].
      simpl. unfold view in *. simpl. rewrite Ht.
      unfold status_cols in Hcols. rewrite Hcols. reflexivity. }
  rewrite for_each_cache_row; [done|].
  apply Forall_forall. intros row Hrow.
  apply list_elem_of_fmap in Hrow as ([id r] & -> & Hr).
  unfold rows_in_order in Hr. rewrite merge_sort_Permutation in Hr.
  apply elem_of_map_to_list in Hr. simpl. by eapply Hrows.
Qed.

(** [cachemessagelist] on a store that lets the calls through, every row of
    which has a string for flags: whatever the mirror was, it now has
    exactly the uids of the rows; an entry has the flags, the labels and the
    mtime read from its row (no labels where the column is NULL) and the
    time 0; nothing is written, the one call is the SELECT; and loading
    again gives the same mirror. *)
Theorem cachemessagelist_loads_the_table s c t :
  quiet s c → status (view s.1 c) = Some t →
  forallb (has_col t) status_cols = true →
  (∀ id r, t_rows t !! id = Some r → is_Some (flags_of (col r "flags"))) →
  ∃ s',
    cachemessagelist s = Ok tt s'
    ∧ store s' = store s ∧ files s'.1 = files s.1
    ∧ calls_between s s' [EvSelect "SELECT id,flags,mtime,labels from status"]
    ∧ (∀ id, is_Some (mirror s' !! id) ↔ is_Some (t_rows t !! id))
    ∧ (∀ id m r, mirror s' !! id = Some m → t_rows t !! id = Some r →
         uid m = id ∧ time m = 0
         ∧ flags_of (col r "flags") = Some (flags m)
         ∧ labels m = labels_of (col r "labels")
         ∧ mtime m = col r "mtime"
         ∧ (col r "labels" = VNull → labels m = ∅))
    ∧ ∃ s'', cachemessagelist s' = Ok tt s'' ∧ mirror s'' = mirror s'.
Proof.
  destruct s as [w f]. intros Hr Ht Hcols Hrows.
  destruct (cachemessagelist_ready (w, f) c t Hr Ht Hcols Hrows)
    as (s' & Hrun & Hstore & Hlook).
  pose proof (cachemessagelist_state w f c t Hr Ht Hcols Hrows) as Hst.
  rewrite Hst in Hrun. injection Hrun as <-.
  eexists. split; [exact Hst|]. split; [done|]. split; [done|].
  split; [done|]. split; [|split].
  - intros id. rewrite Hlook. by rewrite fmap_is_Some.
  - intros id m r Hm Hrow. rewrite Hlook, Hrow in Hm. simpl in Hm.
    injection Hm as <-. simpl.
    destruct (Hrows id r Hrow) as [fl Hfl]. rewrite Hfl. simpl.
    repeat split; try done. by intros ->.
  - eexists. split.
    + by apply (cachemessagelist_state _ _ c t).
    + done.
Qed.

Lemma cachemessagelist_loads_the_table_witness :
  ∃ s',
    cachemessagelist mirror_dropped = Ok tt s'
    ∧ store s' = store mirror_dropped
    ∧ files s'.1 = files mirror_dropped.1
    ∧ calls_between mirror_dropped s'
        [EvSelect "SELECT id,flags,mtime,labels from status"]
    ∧ (∀ id, is_Some (mirror s' !! id)
             ↔ is_Some (t_rows inbox_table !! id))
    ∧ (∀ id m r, mirror s' !! id = Some m →
         t_rows inbox_table !! id = Some r →
         uid m = id ∧ time m = 0
         ∧ flags_of (col r "flags") = Some (flags m)
         ∧ labels m = labels_of (col r "labels")
         ∧ mtime m = col r "mtime"
         ∧ (col r "labels" = VNull → labels m = ∅))
    ∧ ∃ s'', cachemessagelist s' = Ok tt s'' ∧ mirror s'' = mirror s'.
Proof.
  apply (cachemessagelist_loads_the_table mirror_dropped inbox_connection
           inbox_table).
  - apply (one_message_quiet false).
  - vm_compute; reflexivity.
  - vm_compute; reflexivity.
  - intros id r Hrow. unfold inbox_table in Hrow. simpl in Hrow.
    apply lookup_singleton_Some in Hrow as [_ <-]. vm_compute. eauto.
Defined.

(** ** The mirror and the store say the same *)

Lemma after_write_set_messagelist evs db c w f M :
  after_write evs db c (w, set_messagelist M f)
  = ((after_write evs db c (w, f)).1,
     set_messagelist M (after_write evs db c (w, f)).2).
Proof. unfold after_write. simpl. by case_bool_decide. Qed.

Lemma written_facts ev db M c s :
  quiet s c →
  quiet (written ev db M c s) (after_write_connection db c s)
  ∧ view (written ev db M c s).1 (after_write_connection db c s) = db
  ∧ mirror (written ev db M c s) = M.
Proof.
  intros Hr.
  destruct (after_write_facts [ev] db c s Hr) as (Hr' & Hv & _).
  unfold written. split; [|split]; try done.
Qed.

Lemma synced_written ev db M c s :
  quiet s c → has_cols db status_cols →
  map_Forall (λ u _, int64 u) M →
  (∀ u, option_Forall2 row_of (M !! u) (rows_of db !! u)) →
  synced (written ev db M c s).
Proof.
  intros Hr Hcols HM Hsync.
  destruct (written_facts ev db M c s Hr) as (Hr' & Hv & Hm).
  exists (after_write_connection db c s).
  split; [split; [done|]|].
  { unfold stored_uids. by rewrite Hm. }
  split; [by rewrite Hv|].
  intros u. unfold store_row.
  rewrite (ready_store _ _ Hr'), Hv, Hm. simpl. apply Hsync.
Qed.

(** The updates of the mirror bring no uid that SQLite does not keep. *)
Lemma stored_alter (G : msg → msg) k (M : gmap Z msg) :
  map_Forall (λ u _, int64 u) M → map_Forall (λ u _, int64 u) (alter G k M).
Proof.
  intros HM u x Hx.
  assert (is_Some (M !! u)) as [y Hy].
  { apply (lookup_alter_is_Some G M k u). by eexists. }
  by apply (HM u y).
Qed.

Lemma stored_foldl {A} (h : A → gmap Z msg → gmap Z msg) (l : list A) :
  (∀ a M, map_Forall (λ u _, int64 u) M →
          map_Forall (λ u _, int64 u) (h a M)) →
  ∀ M, map_Forall (λ u _, int64 u) M →
       map_Forall (λ u _, int64 u) (foldl (λ m a, h a m) M l).
Proof.
  intros Hh. induction l as [|a l IH]; intros M HM; simpl; [done|].
  by apply IH, Hh.
Qed.

Lemma synced_rows s c :
  quiet s c → in_sync s →
  ∀ u, option_Forall2 row_of (mirror s !! u) (rows_of (view s.1 c) !! u).
Proof.
  intros Hr Hs u. specialize (Hs u). unfold store_row in Hs.
  by rewrite (ready_store _ _ Hr) in Hs.
Qed.

Lemma has_cols_weaken db cols cols' :
  (∀ x, x ∈ cols' → x ∈ cols) → has_cols db cols → has_cols db cols'.
Proof.
  intros Hsub (t & Ht & Hc). exists t. split; [done|].
  apply forallb_forall. intros x Hx.
  eapply forallb_forall in Hc; [done|].
  apply list_elem_of_In, Hsub, list_elem_of_In, Hx.
Qed.

Lemma has_cols_status db :
  has_cols db status_cols →
  has_cols db ["flags"] ∧ has_cols db ["labels"] ∧ has_cols db ["mtime"]
  ∧ has_cols db ["labels"; "mtime"] ∧ is_Some (status db).
Proof.
  intros H. repeat split;
    try (eapply has_cols_weaken; [|exact H]; intros x Hx;
         apply list_elem_of_In in Hx; simpl in Hx;
         apply list_elem_of_In; unfold status_cols; simpl; tauto).
  destruct H as (t & -> & _). by eexists.
Qed.

Lemma has_cols_foldl_update {B} cols
  (R : B → gmap string value → gmap string value) (l : list (Z * B)) :
  ∀ db, has_cols db cols →
        has_cols (foldl (λ db kv, map_rows (alter (R kv.2) kv.1) db) db l)
          cols.
Proof.
  induction l as [|kv l IH]; intros db H; simpl; [done|].
  by apply IH, has_cols_map_rows.
Qed.

Lemma has_cols_foldl_delete cols l : ∀ db,
  has_cols db cols → has_cols (foldl delete_row db l) cols.
Proof.
  induction l as [|u l IH]; intros db H; simpl; [done|].
  by apply IH, has_cols_map_rows.
Qed.

(** *** What the updates do to a row and to its entry *)

Lemma col_set_cols_one c v r c' :
  col (set_cols [c] [v] r) c' = if decide (c' = c) then v else col r c'.
Proof.
  destruct (decide (c' = c)) as [->|Hne].
  - unfold col, set_cols. simpl.
    erewrite lookup_union_Some_l; [done|]. apply lookup_insert_eq.
  - apply col_set_cols_other. by intros ->%list_elem_of_singleton.
Qed.

Lemma row_of_set_flags fl m r :
  row_of m r →
  row_of (set_flags fl m) (set_cols ["flags"] [VText (flags_str fl)] r).
Proof.
  intros (H1 & H2 & H3). unfold row_of. rewrite !col_set_cols_one. done.
Qed.

Lemma row_of_set_labels lb m r :
  row_of m r → row_of (set_labels lb m) (relabel_row lb r).
Proof.
  intros (H1 & H2 & H3). unfold row_of, relabel_row.
  rewrite !col_set_cols_one. done.
Qed.

Lemma row_of_set_mtime z m r :
  row_of m r → row_of (set_mtime (VInt z) m) (set_mtime_row z r).
Proof.
  intros (H1 & H2 & H3). unfold row_of, set_mtime_row.
  rewrite !col_set_cols_one. done.
Qed.

Lemma set_cols_two c1 c2 v1 v2 r :
  set_cols [c1; c2] [v1; v2] r = set_cols [c1] [v1] (set_cols [c2] [v2] r).
Proof.
  unfold set_cols. simpl. rewrite <-!insert_union_l.
  by rewrite !(left_id_L ∅ (∪)).
Qed.

Lemma row_of_labelled lb z m r :
  row_of m r →
  row_of (set_mtime (VInt z) (set_labels lb m))
    (set_cols ["labels"; "mtime"] [VText (labels_str lb); VInt z] r).
Proof.
  intros (H1 & H2 & H3). unfold row_of. rewrite set_cols_two.
  rewrite !col_set_cols_one. done.
Qed.

Lemma row_of_new t uid fl rtime mt lb :
  row_of (new_msg uid fl rtime mt lb)
    (new_row t status_cols
       [VText (flags_str fl); VInt mt; VText (labels_str lb)]).
Proof.
  destruct (col_new_row t (VText (flags_str fl)) (VInt mt)
              (VText (labels_str lb))) as (H1 & H2 & H3).
  by split; [|split].
Qed.

(** *** Entry by entry *)

Lemma sync_fmap G R (a : option msg) (b : option (gmap string value)) :
  (∀ m r, row_of m r → row_of (G m) (R r)) →
  option_Forall2 row_of a b → option_Forall2 row_of (G <$> a) (R <$> b).
Proof. intros HGR [m r H|]; simpl; constructor. by apply HGR. Qed.

Lemma sync_alter G R uid (M : gmap Z msg) (rows : gmap Z (gmap string value)) :
  (∀ m r, row_of m r → row_of (G m) (R r)) →
  (∀ u, option_Forall2 row_of (M !! u) (rows !! u)) →
  ∀ u, option_Forall2 row_of (alter G uid M !! u) (alter R uid rows !! u).
Proof.
  intros HGR Hs u. destruct (decide (uid = u)) as [->|Hne].
  - rewrite !lookup_alter_eq. by apply sync_fmap.
  - by rewrite !lookup_alter_ne.
Qed.

Lemma sync_insert m r uid (M : gmap Z msg)
  (rows : gmap Z (gmap string value)) :
  row_of m r →
  (∀ u, option_Forall2 row_of (M !! u) (rows !! u)) →
  ∀ u, option_Forall2 row_of (<[uid := m]> M !! u) (<[uid := r]> rows !! u).
Proof.
  intros Hmr Hs u. destruct (decide (uid = u)) as [->|Hne].
  - rewrite !lookup_insert_eq. by constructor.
  - by rewrite !lookup_insert_ne.
Qed.

Lemma sync_foldl_items {B} (G : B → msg → msg)
  (R : B → gmap string value → gmap string value) (l : list (Z * B))
  (M : gmap Z msg) (rows : gmap Z (gmap string value)) :
  NoDup l.*1 →
  (∀ v m r, row_of m r → row_of (G v m) (R v r)) →
  (∀ u, option_Forall2 row_of (M !! u) (rows !! u)) →
  ∀ u, option_Forall2 row_of
         (foldl (λ m kv, alter (G kv.2) kv.1 m) M l !! u)
         (foldl (λ rows kv, alter (R kv.2) kv.1 rows) rows l !! u).
Proof.
  intros Hnd HGR Hs u. destruct (decide (u ∈ l.*1)) as [Hin|Hout].
  - apply list_elem_of_fmap in Hin as ([k v] & -> & Hin). simpl.
    rewrite (lookup_foldl_alter_item G l M k v) by done.
    rewrite (lookup_foldl_alter_item R l rows k v) by done.
    apply sync_fmap; [apply HGR|apply Hs].
  - rewrite (lookup_foldl_alter_other G) by done.
    rewrite (lookup_foldl_alter_other R) by done. apply Hs.
Qed.

Lemma sync_foldl_delete l (M : gmap Z msg)
  (rows : gmap Z (gmap string value)) :
  (∀ u, option_Forall2 row_of (M !! u) (rows !! u)) →
  ∀ u, option_Forall2 row_of
         (foldl (λ m u, delete u m) M l !! u)
         (foldl (λ m u, delete u m) rows l !! u).
Proof.
  intros Hs u. rewrite !lookup_foldl_delete.
  destruct (decide (u ∈ l)); [constructor|apply Hs].
Qed.

Lemma sync_relabel g uids (M : gmap Z msg)
  (rows : gmap Z (gmap string value)) :
  (∀ X, g (g X) = g X) →
  (∀ u, option_Forall2 row_of (M !! u) (rows !! u)) →
  ∀ u, option_Forall2 row_of
         (foldl (λ m u, alter (relabel g) u m) M uids !! u)
         (foldl (λ rows u, alter (relabel_row (g (labels_at M u))) u rows)
            rows uids !! u).
Proof.
  intros Hg Hs u.
  rewrite (lookup_foldl_alter_keys (λ _, relabel g))
    by (intros _ x; unfold relabel; simpl; by rewrite Hg).
  rewrite (lookup_foldl_alter_keys (λ u, relabel_row (g (labels_at M u))))
    by (intros; apply relabel_row_idem).
  destruct (decide (u ∈ uids)); [|apply Hs].
  specialize (Hs u). unfold labels_at.
  destruct Hs as [m r Hmr|]; simpl; constructor.
  by apply row_of_set_labels.
Qed.

(** *** The state after each write *)

Lemma savemessageflags_written fuel uid fl m s c :
  quiet s c → has_cols (view s.1 c) ["flags"] → mirror s !! uid = Some m →
  int64 uid →
  savemessageflags (S fuel) uid fl s
  = Ok tt
      (written
         (EvExecute (Update ["flags"])
            {| p_id := uid; p_vals := [VText (flags_str fl)] |})
         (map_rows (alter (set_cols ["flags"] [VText (flags_str fl)]) uid)
            (view s.1 c))
         (alter (set_flags fl) uid (mirror s)) c s).
Proof.
  destruct s as [w f]. unfold mirror. simpl. intros Hr Hcols Hm H64.
  rewrite (savemessageflags_existing _ _ _ _ _ m) by done.
  erewrite (sql_write_ready (Update ["flags"]) (One _) fuel
              (w, set_messagelist _ f) c); [| done |].
  - rewrite after_write_set_messagelist. unfold written.
    by rewrite (insert_as_alter _ _ _ m).
  - simpl. unfold run_one. rewrite run_stmt_update; [done..|bind_ok].
Qed.

Lemma savemessagelabels_written fuel uid lb mt m s c :
  quiet s c → has_cols (view s.1 c) ["labels"; "mtime"] →
  has_cols (view s.1 c) ["labels"] →
  mirror s !! uid = Some m → int64 uid → int64 (default 0 mt) →
  let cols := if truthy mt then ["labels"; "mtime"] else ["labels"] in
  let vals := if truthy mt
              then [VText (labels_str lb); VInt (default 0 mt)]
              else [VText (labels_str lb)] in
  savemessagelabels (S fuel) uid lb mt s
  = Ok tt
      (written (EvExecute (Update cols) {| p_id := uid; p_vals := vals |})
         (map_rows (alter (set_cols cols vals) uid) (view s.1 c))
         (alter (labelled lb mt) uid (mirror s)) c s).
Proof.
  destruct s as [w f]. unfold mirror. simpl. intros Hr Hc2 Hc1 Hm H64 Hmt.
  unfold savemessagelabels, labelled.
  erewrite bind_Ok; [|by apply update_msg_existing].
  destruct (truthy mt).
  - erewrite bind_Ok;
      [|apply update_msg_existing; simpl; apply lookup_insert_eq].
    erewrite (sql_write_ready (Update ["labels"; "mtime"]) (One _) fuel
                (w, set_messagelist _ (set_messagelist _ f)) c); [| done |].
    + change (set_messagelist ?a (set_messagelist ?b f))
        with (set_messagelist a f).
      rewrite after_write_set_messagelist. unfold written. simpl.
      rewrite insert_insert_eq.
      by rewrite (insert_as_alter
                    (λ m, set_mtime (VInt (default 0 mt)) (set_labels lb m))
                    _ _ m).
    + simpl. unfold run_one. rewrite run_stmt_update; [done..|bind_ok].
  - erewrite bind_Ok; [|reflexivity].
    erewrite (sql_write_ready (Update ["labels"]) (One _) fuel
                (w, set_messagelist _ f) c); [| done |].
    + rewrite after_write_set_messagelist. unfold written.
      by rewrite (insert_as_alter _ _ _ m).
    + simpl. unfold run_one. rewrite run_stmt_update; [done..|bind_ok].
Qed.

Lemma savemessage_new_written fuel uid fl rtime mt lb s c t :
  quiet s c → status (view s.1 c) = Some t →
  forallb (has_col t) status_cols = true →
  0 ≤ uid → mirror s !! uid = None → t_rows t !! uid = None →
  int64 uid → int64 mt →
  savemessage (S fuel) uid fl rtime mt lb s
  = Ok uid
      (written
         (EvExecute (Insert false status_cols)
            {| p_id := uid;
               p_vals := [VText (flags_str fl); VInt mt;
                          VText (labels_str lb)] |})
         (map_rows
            (insert uid
               (new_row t status_cols
                  [VText (flags_str fl); VInt mt; VText (labels_str lb)]))
            (view s.1 c))
         (<[uid := new_msg uid fl rtime mt lb]> (mirror s)) c s).
Proof.
  intros Hr Ht Hcols Hu Hm Hrow H64 Hmt.
  rewrite (savemessage_ready_new fuel uid fl rtime mt lb s c t) by done.
  destruct s as [w f]. simpl.
  by rewrite after_write_set_messagelist.
Qed.

Lemma bulk_update_written {B} cols (V : B → list value)
  (G : B → msg → msg) fuel l s c :
  quiet s c → has_cols (view s.1 c) cols →
  (∀ v, length cols = length (V v)) →
  (∀ u, u ∈ l.*1 → is_Some (mirror s !! u)) →
  (∀ kv, kv ∈ l → bindable {| p_id := kv.1; p_vals := V kv.2 |} = true) →
  (let* _ := __sql_write (S fuel) (Update cols)
               (Some (Many ((λ kv : Z * B,
                               {| p_id := kv.1; p_vals := V kv.2 |})
                              <$> l))) true in
   for_each l (λ kv, update_msg kv.1 (G kv.2))) s
  = Ok tt
      (written
         (EvExecuteMany (Update cols)
            ((λ kv : Z * B, {| p_id := kv.1; p_vals := V kv.2 |}) <$> l))
         (foldl (λ db kv, map_rows (alter (set_cols cols (V kv.2)) kv.1) db)
            (view s.1 c) l)
         (foldl (λ m kv, alter (G kv.2) kv.1 m) (mirror s) l) c s).
Proof.
  intros Hr Hcols Hlen Hin Hb.
  erewrite bind_Ok; [|by apply (bulk_update_write cols V)].
  destruct (after_write_facts
              [EvExecuteMany (Update cols)
                 ((λ kv : Z * B, {| p_id := kv.1; p_vals := V kv.2 |})
                    <$> l)]
              (foldl (λ db kv, map_rows
                        (alter (set_cols cols (V kv.2)) kv.1) db)
                 (view s.1 c) l) c s Hr) as (_ & _ & Hm & _).
  unfold written.
  destruct (after_write _ _ c s) as [w1 f1] eqn:Es1.
  unfold mirror in *. simpl in Hm.
  rewrite (for_each_update_items G)
    by (intros u Hu; rewrite Hm; by apply Hin).
  by rewrite Hm.
Qed.

Lemma change_labels_written g fuel uids s c :
  quiet s c → has_cols (view s.1 c) ["labels"] →
  (∀ u, u ∈ uids → is_Some (mirror s !! u)) →
  (∀ u, u ∈ uids → int64 u) →
  (let* data := map_each uids (λ uid,
                  let* m := getmessage uid in
                  ret (labels_params uid (g (labels m)))) in
   let* _ := __sql_write (S fuel) (Update ["labels"])
               (Some (Many data)) true in
   for_each uids (λ uid,
     let* m := getmessage uid in
     update_msg uid (set_labels (g (labels m))))) s
  = Ok tt
      (written
         (EvExecuteMany (Update ["labels"])
            ((λ u, labels_params u (g (labels_at (mirror s) u))) <$> uids))
         (foldl set_labels_row (view s.1 c)
            ((λ u, (u, g (labels_at (mirror s) u))) <$> uids))
         (foldl (λ m u, alter (relabel g) u m) (mirror s) uids) c s).
Proof.
  intros Hr Hcols Hin H64. destruct s as [w f]. unfold mirror in *.
  simpl in *.
  erewrite bind_Ok; [|by apply map_each_labels].
  erewrite bind_Ok.
  2:{ apply (sql_write_ready (Update ["labels"]) (Many _) fuel (w, f) c);
        [done|].
      simpl.
      replace ((λ u, labels_params u (g (labels_at (messagelist f) u)))
                 <$> uids)
        with ((λ ul : Z * gset string,
                 {| p_id := ul.1; p_vals := [VText (labels_str ul.2)] |})
                <$> ((λ u, (u, g (labels_at (messagelist f) u))) <$> uids))
        by (by rewrite <-list_fmap_compose).
      apply run_many_update_labels; [done|].
      intros u Hu. apply list_elem_of_fmap in Hu as ([u1 L1] & -> & Hu).
      apply list_elem_of_fmap in Hu as (u2 & [= -> ->] & Hu).
      by apply H64. }
  destruct (after_write_facts
              [EvExecuteMany (Update ["labels"])
                 ((λ u, labels_params u (g (labels_at (messagelist f) u)))
                    <$> uids)]
              (foldl set_labels_row (view w c)
                 ((λ u, (u, g (labels_at (messagelist f) u))) <$> uids))
              c (w, f) Hr) as (_ & _ & Hm & _).
  unfold written. simpl.
  destruct (after_write _ _ c (w, f)) as [w1 f1] eqn:Es1.
  unfold mirror in Hm. simpl in Hm.
  rewrite for_each_relabel by (intros u Hu; rewrite Hm; by apply Hin).
  by rewrite Hm.
Qed.

Lemma deletemessage_written fuel uid s c :
  quiet s c → is_Some (status (view s.1 c)) → is_Some (mirror s !! uid) →
  int64 uid →
  deletemessage (S fuel) uid s
  = Ok tt
      (written (EvExecute Delete {| p_id := uid; p_vals := [] |})
         (map_rows (delete uid) (view s.1 c))
         (delete uid (mirror s)) c s).
Proof.
  intros Hr Hst Hin H64. unfold deletemessage.
  erewrite bind_Ok; [|reflexivity].
  rewrite bool_decide_eq_true_2 by done. simpl.
  erewrite bind_Ok.
  2:{ apply (sql_write_ready Delete (One _) fuel s c); [done|].
      simpl. unfold run_one. by rewrite run_stmt_delete. }
  destruct (after_write_facts
              [EvExecute Delete {| p_id := uid; p_vals := [] |}]
              (map_rows (delete uid) (view s.1 c)) c s Hr)
    as (_ & _ & Hm & _).
  unfold written.
  destruct (after_write _ _ c s) as [w1 f1] eqn:Es1.
  unfold mirror in *. simpl in Hm.
  rewrite del_msg_existing by (by rewrite Hm).
  by rewrite Hm.
Qed.

Lemma deletemessages_written fuel l s c :
  quiet s c → is_Some (status (view s.1 c)) → NoDup l →
  (∀ u, u ∈ l → is_Some (mirror s !! u)) → l ≠ [] →
  (∀ u, u ∈ l → int64 u) →
  deletemessages (S fuel) l s
  = Ok tt
      (written
         (EvExecuteMany Delete
            ((λ uid, {| p_id := uid; p_vals := [] |}) <$> l))
         (foldl delete_row (view s.1 c) l)
         (foldl (λ m u, delete u m) (mirror s) l) c s).
Proof.
  intros Hr Hst Hnd Hin Hne H64. unfold deletemessages.
  erewrite bind_Ok; [|reflexivity]. fold (mirror s).
  assert (Hfil : filter (λ uid, is_Some (mirror s !! uid)) l = l).
  { clear Hnd Hne H64. induction l as [|x l IH]; [done|].
    rewrite filter_cons_True by (apply Hin, list_elem_of_here).
    f_equal. apply IH. intros u Hu. by apply Hin, list_elem_of_further. }
  rewrite Hfil.
  rewrite bool_decide_eq_false_2 by (by destruct l).
  erewrite bind_Ok;
    [|apply (sql_write_ready Delete (Many _) fuel s c), run_many_delete;
      done].
  destruct (after_write_facts
              [EvExecuteMany Delete
                 ((λ uid, {| p_id := uid; p_vals := [] |}) <$> l)]
              (foldl delete_row (view s.1 c) l) c s Hr)
    as (_ & _ & Hm & _).
  unfold written.
  destruct (after_write _ _ c s) as [w1 f1] eqn:Es1.
  unfold mirror in *. simpl in Hm.
  rewrite for_each_del_msg; [|done|].
  2:{ intros u Hu. rewrite Hm. by apply Hin. }
  by rewrite Hm.
Qed.

Lemma filter_present (M : gmap Z msg) (l : list Z) :
  filter (λ uid, is_Some (M !! uid)) (filter (λ uid, is_Some (M !! uid)) l)
  = filter (λ uid, is_Some (M !! uid)) l.
Proof.
  induction l as [|x l IH]; [done|].
  destruct (decide (is_Some (M !! x))) as [Hx|Hx].
  - rewrite (filter_cons_True _ x l) by done.
    rewrite filter_cons_True by done. by rewrite IH.
  - by rewrite (filter_cons_False _ x l) by done.
Qed.

(** [deletemessages] looks at the uids that the mirror has only. *)
Lemma deletemessages_present fuel l s :
  deletemessages fuel l s
  = deletemessages fuel (filter (λ uid, is_Some (mirror s !! uid)) l) s.
Proof.
  unfold deletemessages, bind, self, mirror. simpl.
  by rewrite filter_present.
Qed.

(** The mirror and the store stay the same through every write: from a
    folder that is open on a store that lets the calls through, whose mirror
    and store say the same, each of the writing methods returns and leaves
    such a folder again, when the uid and the mtimes it is given are
    integers that SQLite keeps (64 bits; with a larger one the parameters
    are not bound and the call raises). ([savemessageflags],
    [savemessagelabels] and the bulk methods are called with uids of the
    mirror, the dictionaries having each uid once.) *)
Theorem writes_keep_mirror_and_store_in_sync fuel s :
  synced s →
  (∀ uid fl rtime mt lb, int64 uid → int64 mt →
     ∃ s', savemessage (S fuel) uid fl rtime mt lb s = Ok uid s' ∧ synced s')
  ∧ (∀ uid fl, is_Some (mirror s !! uid) →
       ∃ s', savemessageflags (S fuel) uid fl s = Ok tt s' ∧ synced s')
  ∧ (∀ uid lb mt, is_Some (mirror s !! uid) → int64 (default 0 mt) →
       ∃ s', savemessagelabels (S fuel) uid lb mt s = Ok tt s' ∧ synced s')
  ∧ (∀ l, NoDup l.*1 → (∀ u, u ∈ l.*1 → is_Some (mirror s !! u)) →
       ∃ s', savemessageslabelsbulk (S fuel) l s = Ok tt s' ∧ synced s')
  ∧ (∀ uids lbs, (∀ u, u ∈ uids → is_Some (mirror s !! u)) →
       (∃ s', addmessageslabels (S fuel) uids lbs s = Ok tt s' ∧ synced s')
       ∧ (∃ s', deletemessageslabels (S fuel) uids lbs s = Ok tt s'
                ∧ synced s'))
  ∧ (∀ l, NoDup l.*1 → (∀ u, u ∈ l.*1 → is_Some (mirror s !! u)) →
       (∀ u mt, (u, mt) ∈ l → int64 mt) →
       ∃ s', savemessagesmtimebulk (S fuel) l s = Ok tt s' ∧ synced s')
  ∧ (∀ uid, ∃ s', deletemessage (S fuel) uid s = Ok tt s' ∧ synced s')
  ∧ (∀ l, NoDup l →
       ∃ s', deletemessages (S fuel) l s = Ok tt s' ∧ synced s').
Proof.
  intros Hsynced. pose proof Hsynced as (c & [Hr Huids] & Hcols & Hsync).
  destruct (has_cols_status _ Hcols) as (Hcf & Hcl & Hcm & Hclm & Hst).
  pose proof (synced_rows s c Hr Hsync) as Hrows.
  pose proof (stored_uid s) as Hkeep.
  assert (Hflags : ∀ uid fl, is_Some (mirror s !! uid) →
    ∃ s', savemessageflags (S fuel) uid fl s = Ok tt s' ∧ synced s').
  { intros uid fl [m Hm]. eexists.
    split.
    { apply (savemessageflags_written fuel uid fl m s c); try done.
      apply Hkeep; [done|]. by rewrite Hm. }
    apply synced_written;
      [done|by apply has_cols_map_rows|by apply stored_alter|].
    rewrite rows_of_map_rows by done.
    apply sync_alter; [|done]. intros. by apply row_of_set_flags. }
  split; [|split; [exact Hflags|]].
  { intros uid fl rtime mt lb H64 Hmt.
    destruct (decide (uid < 0)) as [Hneg|Hpos].
    { exists s. split; [|done]. unfold savemessage.
      by rewrite bool_decide_eq_true_2. }
    destruct (mirror s !! uid) as [m|] eqn:Hm.
    - destruct (Hflags uid fl) as (s' & Hrun & Hs'); [by rewrite Hm|].
      exists s'. split; [|done].
      destruct s as [w f]. unfold savemessage.
      rewrite bool_decide_eq_false_2 by done.
      unfold mirror in Hm. simpl in Hm.
      erewrite bind_Ok; [|apply uidexists_existing; by rewrite Hm].
      cbv beta iota. erewrite bind_Ok; [|exact Hrun]. done.
    - pose proof (Hrows uid) as Hu. rewrite Hm in Hu.
      assert (Hnone : rows_of (view s.1 c) !! uid = None)
        by (by inversion Hu).
      destruct Hcols as (t & Ht & Hc).
      unfold rows_of in Hnone. rewrite Ht in Hnone. simpl in Hnone.
      eexists. split.
      + apply (savemessage_new_written fuel uid fl rtime mt lb s c t);
          try done. lia.
      + apply synced_written; [done| | |].
        * apply has_cols_map_rows. by exists t.
        * by apply map_Forall_insert_2.
        * rewrite rows_of_map_rows by done.
          apply sync_insert; [apply row_of_new|done]. }
  split.
  { intros uid lb mt [m Hm] Hmt. eexists.
    split.
    { apply (savemessagelabels_written fuel uid lb mt m s c); try done.
      apply Hkeep; [done|]. by rewrite Hm. }
    apply synced_written;
      [done|by apply has_cols_map_rows|by apply stored_alter|].
    rewrite rows_of_map_rows by done.
    apply sync_alter; [|done]. intros m0 r0 H0. unfold labelled.
    destruct (truthy mt); [by apply row_of_labelled|].
    by apply (row_of_set_labels lb). }
  split.
  { intros l Hnd Hin. eexists. split.
    - unfold savemessageslabelsbulk.
      apply (bulk_update_written ["labels"]
               (λ lb : gset string, [VText (labels_str lb)]) set_labels);
        try done.
      intros [k v] Hkv. simpl.
      assert (int64 k).
      { apply Hkeep; [done|]. apply Hin.
        apply list_elem_of_fmap. by exists (k, v). }
      bind_ok.
    - apply synced_written;
        [done
        |by apply (has_cols_foldl_update status_cols
                     (λ lb : gset string,
                        set_cols ["labels"] [VText (labels_str lb)]))
        |apply (stored_foldl
                  (λ kv : Z * gset string, alter (set_labels kv.2) kv.1));
         [intros; by apply stored_alter|done]|].
      rewrite (rows_of_foldl_update
                 (λ lb : gset string,
                    set_cols ["labels"] [VText (labels_str lb)])) by done.
      apply (sync_foldl_items set_labels relabel_row); try done.
      intros. by apply row_of_set_labels. }
  split.
  { intros uids lbs Hin.
    assert (H64 : ∀ u, u ∈ uids → int64 u).
    { intros u Hu. apply Hkeep; [done|]. by apply Hin. }
    split.
    - eexists. split.
      + unfold addmessageslabels.
        by apply (change_labels_written (λ X, X ∪ lbs)).
      + apply synced_written; [done| | |].
        * apply (has_cols_foldl_update status_cols relabel_row). done.
        * apply (stored_foldl (λ u : Z, alter (relabel (λ X, X ∪ lbs)) u));
            [intros; by apply stored_alter|done].
        * rewrite (rows_of_foldl_labels
                     (λ u, labels_at (mirror s) u ∪ lbs)) by done.
          apply (sync_relabel (λ X, X ∪ lbs)); [|done].
          intros X. set_solver.
    - eexists. split.
      + unfold deletemessageslabels.
        by apply (change_labels_written (λ X, X ∖ lbs)).
      + apply synced_written; [done| | |].
        * apply (has_cols_foldl_update status_cols relabel_row). done.
        * apply (stored_foldl (λ u : Z, alter (relabel (λ X, X ∖ lbs)) u));
            [intros; by apply stored_alter|done].
        * rewrite (rows_of_foldl_labels
                     (λ u, labels_at (mirror s) u ∖ lbs)) by done.
          apply (sync_relabel (λ X, X ∖ lbs)); [|done].
          intros X. set_solver. }
  split.
  { intros l Hnd Hin Hmts. eexists. split.
    - unfold savemessagesmtimebulk.
      apply (bulk_update_written ["mtime"] (λ mt : Z, [VInt mt])
               (λ mt : Z, set_mtime (VInt mt))); try done.
      intros [k v] Hkv. simpl.
      assert (int64 k).
      { apply Hkeep; [done|]. apply Hin.
        apply list_elem_of_fmap. by exists (k, v). }
      assert (int64 v) by (by eapply Hmts).
      bind_ok.
    - apply synced_written;
        [done
        |by apply (has_cols_foldl_update status_cols
                     (λ mt : Z, set_cols ["mtime"] [VInt mt]))
        |apply (stored_foldl
                  (λ kv : Z * Z, alter (set_mtime (VInt kv.2)) kv.1));
         [intros; by apply stored_alter|done]|].
      rewrite (rows_of_foldl_update
                 (λ mt : Z, set_cols ["mtime"] [VInt mt])) by done.
      apply (sync_foldl_items (λ mt : Z, set_mtime (VInt mt)) set_mtime_row);
        try done.
      intros. by apply row_of_set_mtime. }
  assert (Hdel : ∀ l, NoDup l → (∀ u, u ∈ l → is_Some (mirror s !! u)) →
    ∃ s', deletemessages (S fuel) l s = Ok tt s' ∧ synced s').
  { intros l Hnd Hin. destruct l as [|x l].
    { exists s. split; [|done]. unfold deletemessages.
      erewrite bind_Ok; [|reflexivity]. done. }
    eexists. split.
    { apply (deletemessages_written fuel _ s c); try done.
      intros u Hu. apply Hkeep; [done|]. by apply Hin. }
    apply synced_written;
      [done|by apply has_cols_foldl_delete
      |apply (stored_foldl (λ u : Z, delete u));
       [intros; by apply map_Forall_delete|done]|].
    rewrite rows_of_foldl_delete by done. by apply sync_foldl_delete. }
  split.
  - intros uid. destruct (mirror s !! uid) as [m|] eqn:Hm.
    + eexists. split.
      * apply (deletemessage_written fuel uid s c); try done.
        apply Hkeep; [done|]. by rewrite Hm.
      * apply synced_written;
          [done|by apply has_cols_map_rows|by apply map_Forall_delete|].
        rewrite rows_of_map_rows by done.
        apply (sync_foldl_delete [uid]). done.
    + exists s. split; [|done]. destruct s as [w f].
      unfold deletemessage, bind, self. simpl.
      unfold mirror in Hm. simpl in Hm. by rewrite Hm.
  - intros l Hnd. rewrite deletemessages_present.
    apply Hdel; [by apply NoDup_filter|].
    intros u Hu. by apply list_elem_of_filter in Hu as [Hu _].
Qed.

Lemma synced_new_folder dofsync : synced (opened "INBOX" dofsync).
Proof.
  exists inbox_connection. split; [apply opened_ready|].
  split; [by exists (default inbox_table (status new_db))|].
  intros u. unfold store_row, store, mirror. simpl.
  rewrite !lookup_empty. constructor.
Qed.

Lemma writes_keep_mirror_and_store_in_sync_witness :
  (∀ uid fl rtime mt lb, int64 uid → int64 mt →
     ∃ s', savemessage 1 uid fl rtime mt lb (two_messages false) = Ok uid s'
           ∧ synced s')
  ∧ (∀ uid fl, is_Some (mirror (two_messages false) !! uid) →
       ∃ s', savemessageflags 1 uid fl (two_messages false) = Ok tt s'
             ∧ synced s')
  ∧ (∀ uid lb mt, is_Some (mirror (two_messages false) !! uid) →
       int64 (default 0 mt) →
       ∃ s', savemessagelabels 1 uid lb mt (two_messages false) = Ok tt s'
             ∧ synced s')
  ∧ (∀ l, NoDup l.*1 →
       (∀ u, u ∈ l.*1 → is_Some (mirror (two_messages false) !! u)) →
       ∃ s', savemessageslabelsbulk 1 l (two_messages false) = Ok tt s'
             ∧ synced s')
  ∧ (∀ uids lbs,
       (∀ u, u ∈ uids → is_Some (mirror (two_messages false) !! u)) →
       (∃ s', addmessageslabels 1 uids lbs (two_messages false) = Ok tt s'
              ∧ synced s')
       ∧ (∃ s', deletemessageslabels 1 uids lbs (two_messages false)
                = Ok tt s' ∧ synced s'))
  ∧ (∀ l, NoDup l.*1 →
       (∀ u, u ∈ l.*1 → is_Some (mirror (two_messages false) !! u)) →
       (∀ u mt, (u, mt) ∈ l → int64 mt) →
       ∃ s', savemessagesmtimebulk 1 l (two_messages false) = Ok tt s'
             ∧ synced s')
  ∧ (∀ uid, ∃ s', deletemessage 1 uid (two_messages false) = Ok tt s'
                  ∧ synced s')
  ∧ (∀ l, NoDup l →
       ∃ s', deletemessages 1 l (two_messages false) = Ok tt s'
             ∧ synced s').
Proof.
  apply (writes_keep_mirror_and_store_in_sync 0 (two_messages false)).
  exists inbox_connection. split; [apply two_messages_ready|].
  split; [apply two_messages_has_cols; vm_compute; reflexivity|].
  intros u.
  change (store_row (two_messages false) u)
    with (({[ 5 := {[ "flags" := VText "S"; "mtime" := VInt 7;
                      "labels" := VText "Work" ]};
              9 := {[ "flags" := VText ""; "mtime" := VInt 0;
                      "labels" := VText "" ]} ]}
            : gmap Z (gmap string value)) !! u).
  revert u.
  apply (map_Forall2_insert_2 (λ _, row_of)).
  - vm_compute. repeat split; reflexivity.
  - apply (map_Forall2_singleton (λ _, row_of)).
    vm_compute. repeat split; reflexivity.
Defined.

(** ** An unreadable version *)

Lemma openfiles_connected w f l rest (k : M unit) :
  threadsafety w = 1 → faults w = None :: rest ∨ (faults w = [] ∧ rest = []) →
  locks w !! filename f = Some l → _lock l = false →
  ∀ r,
    k ({| locks := <[filename f := {| _lock := true;
                                      _counter := _counter l + 1 |}]>
                     (locks w);
          files := files w; faults := rest;
          trace := EvConnect (filename f) :: trace w;
          threadsafety := threadsafety w |},
       set_connection
         (Some {| c_path := filename f; c_closed := false; c_txn := None |})
         f) = r →
    (let* w := world in
     let* _ := assert (bool_decide (threadsafety w = 1)) in
     with_lock
       (let* f := self in
        let* _ :=
          try_catch
            (let* c := sqlite_connect (filename f) in
             let* _ := modify_self (set_connection (Some c)) in
             registerNewUser)
            (λ e, match e with
                  | OperationalError _ =>
                      raise (UserWarning (cannot_open (filename f) e))
                  | _ => raise e
                  end) in
        k)) (w, f)
    = match r with
      | Ok a s' => Ok a (release s')
      | Raise e s' => Raise e (release s')
      | Blocked => Blocked
      | OutOfFuel => OutOfFuel
      end.
Proof.
  intros Hts Hfl Hl Hfree r Hk.
  erewrite bind_Ok; [|reflexivity].
  erewrite bind_Ok;
    [|simpl; rewrite bool_decide_eq_true_2 by done; reflexivity].
  unfold with_lock, lock_of. simpl. rewrite Hl.
  change (default DatabaseFileLock_init (Some l)) with l. rewrite Hfree.
  erewrite bind_Ok; [|reflexivity].
  destruct Hfl as [Hfl|[Hfl ->]].
  - erewrite bind_Ok.
    2:{ unfold try_catch, sqlite_connect, bind, log, modify_world,
          next_fault, modify_self, registerNewUser, ret, lock_of,
          set_lock_of. simpl. rewrite Hfl. simpl.
        rewrite lookup_insert_eq. simpl. rewrite insert_insert_eq.
        reflexivity. }
    unfold set_faults, set_trace, set_locks in *. simpl in *. by rewrite Hk.
  - erewrite bind_Ok.
    2:{ unfold try_catch, sqlite_connect, bind, log, modify_world,
          next_fault, modify_self, registerNewUser, ret, lock_of,
          set_lock_of. simpl. rewrite Hfl. simpl.
        rewrite lookup_insert_eq. simpl. rewrite insert_insert_eq.
        reflexivity. }
    unfold set_faults, set_trace, set_locks in *. simpl in *.
    rewrite Hfl. by rewrite Hk.
Qed.

(** [openfiles] on a file that has a metadata table, when the version cannot
    be read. A [DatabaseError] of the version query (a locked database is
    one) is taken for a missing file: the tables are created again, which
    the database refuses. A metadata table without a version is a
    [TypeError], a version that is not a number a [ValueError]. Each time
    the exception leaves [openfiles] with the folder counted as a user of
    the file and the file as it was. *)
Theorem openfiles_unreadable_version w f l db m :
  threadsafety w = 1 → locks w !! filename f = Some l → _lock l = false →
  files w !! filename f = Some db → metadata db = Some m →
  (∀ e, is_DatabaseError e = true → faults w = [None; Some e] →
     ∃ s', openfiles (w, f)
           = Raise (OperationalError "table metadata already exists") s'
           ∧ left_open w f l s')
  ∧ (faults w = [] → m !! "db_version" = None →
     ∃ s', openfiles (w, f) = Raise TypeError s' ∧ left_open w f l s')
  ∧ (∀ v, faults w = [] → m !! "db_version" = Some v →
       PyStr.int v = None →
       ∃ s', openfiles (w, f) = Raise ValueError s' ∧ left_open w f l s').
Proof.
  intros Hts Hl Hfree Hdb Hm. split; [|split].
  - intros e He Hfl. unfold openfiles. eexists. split.
    + erewrite openfiles_connected; [|done|by left|done|done|].
      2:{ erewrite bind_Raise; [reflexivity|].
          erewrite try_catch_Raise.
          2:{ erewrite bind_Raise; [reflexivity|].
              unfold select_version, the_connection, bind, self, log,
                modify_world, next_fault, ret. simpl. reflexivity. }
          rewrite He.
          erewrite bind_Raise; [reflexivity|].
          unfold __create_db.
          erewrite bind_Ok; [|reflexivity].
          erewrite bind_Raise; [reflexivity|].
          unfold conn_executescript.
          erewrite bind_Ok; [|reflexivity].
          erewrite bind_Ok; [|reflexivity].
          erewrite bind_Ok; [|reflexivity].
          unfold create_script. simpl.
          erewrite bind_Raise; [reflexivity|].
          erewrite bind_Ok; [|reflexivity].
          erewrite bind_Ok; [|reflexivity].
          simpl. rewrite Hdb. simpl. rewrite Hm. reflexivity. }
      reflexivity.
    + unfold left_open, release, lock_of, set_lock_of, mirror. simpl.
      rewrite !lookup_insert_eq. done.
  - intros Hfl Hv. unfold openfiles. eexists. split.
    + erewrite openfiles_connected; [|done|by right|done|done|].
      2:{ erewrite bind_Ok.
          2:{ erewrite try_catch_Ok; [reflexivity|].
              erewrite bind_Ok; [|eapply (select_version_quiet _ _
                {| c_path := filename f; c_closed := false;
                   c_txn := None |}); try done;
                unfold view; simpl; rewrite Hdb; exact Hm].
              reflexivity. }
          rewrite Hv. reflexivity. }
      reflexivity.
    + unfold left_open, release, lock_of, set_lock_of, mirror. simpl.
      rewrite !lookup_insert_eq. done.
  - intros v Hfl Hv Hint. unfold openfiles. eexists. split.
    + erewrite openfiles_connected; [|done|by right|done|done|].
      2:{ erewrite bind_Ok.
          2:{ erewrite try_catch_Ok; [reflexivity|].
              erewrite bind_Ok; [|eapply (select_version_quiet _ _
                {| c_path := filename f; c_closed := false;
                   c_txn := None |}); try done;
                unfold view; simpl; rewrite Hdb; exact Hm].
              reflexivity. }
          rewrite Hv, Hint. reflexivity. }
      reflexivity.
    + unfold left_open, release, lock_of, set_lock_of, mirror. simpl.
      rewrite !lookup_insert_eq. done.
Qed.

Lemma openfiles_unreadable_version_witness :
  (∃ s', openfiles (Folder_init "INBOX" false busy_world)
         = Raise (OperationalError "table metadata already exists") s'
         ∧ left_open (Folder_init "INBOX" false busy_world).1
             (Folder_init "INBOX" false busy_world).2
             DatabaseFileLock_init s')
  ∧ (∃ s', openfiles (Folder_init "INBOX" false no_version_world)
           = Raise TypeError s'
           ∧ left_open (Folder_init "INBOX" false no_version_world).1
               (Folder_init "INBOX" false no_version_world).2
               DatabaseFileLock_init s')
  ∧ (∃ s', openfiles (Folder_init "INBOX" false odd_version_world)
           = Raise ValueError s'
           ∧ left_open (Folder_init "INBOX" false odd_version_world).1
               (Folder_init "INBOX" false odd_version_world).2
               DatabaseFileLock_init s').
Proof.
  split; [|split].
  - destruct (openfiles_unreadable_version
                (Folder_init "INBOX" false busy_world).1
                (Folder_init "INBOX" false busy_world).2
                DatabaseFileLock_init
                (default empty_db (files current_world !! "INBOX"))
                {[ "db_version" := "2" ]}) as (H & _ & _).
    + reflexivity.
    + vm_compute; reflexivity.
    + reflexivity.
    + vm_compute; reflexivity.
    + vm_compute; reflexivity.
    + apply (H (OperationalError "database is locked")); reflexivity.
  - destruct (openfiles_unreadable_version
                (Folder_init "INBOX" false no_version_world).1
                (Folder_init "INBOX" false no_version_world).2
                DatabaseFileLock_init
                {| metadata := Some ∅; status := None |} ∅) as (_ & H & _).
    + reflexivity.
    + vm_compute; reflexivity.
    + reflexivity.
    + vm_compute; reflexivity.
    + reflexivity.
    + apply H; reflexivity.
  - destruct (openfiles_unreadable_version
                (Folder_init "INBOX" false odd_version_world).1
                (Folder_init "INBOX" false odd_version_world).2
                DatabaseFileLock_init
                {| metadata := Some {[ "db_version" := "two" ]};
                   status := None |}
                {[ "db_version" := "two" ]}) as (_ & _ & H).
    + reflexivity.
    + vm_compute; reflexivity.
    + reflexivity.
    + vm_compute; reflexivity.
    + reflexivity.
    + apply (H "two"); vm_compute; reflexivity.
Defined.

(** ** A uid that the mirror lacks *)

(** The methods for one message, called with a uid that the mirror lacks:
    [savemessageflags] fails its assertion, [savemessagelabels] and the
    three getters raise [KeyError]. None of them calls the store or changes
    anything, whatever the state of the folder and of the store. *)
Theorem single_message_missing_uid fuel uid s :
  mirror s !! uid = None →
  (∀ fl, savemessageflags fuel uid fl s = Raise AssertionError s)
  ∧ (∀ lb mt, savemessagelabels fuel uid lb mt s = Raise (KeyError uid) s)
  ∧ getmessageflags uid s = Raise (KeyError uid) s
  ∧ getmessagelabels uid s = Raise (KeyError uid) s
  ∧ getmessagemtime uid s = Raise (KeyError uid) s.
Proof.
  destruct s as [w f]. unfold mirror. simpl. intros Hm.
  repeat split.
  - intros fl. unfold savemessageflags, uidexists, bind, self, ret, assert,
      raise. simpl. rewrite Hm.
    rewrite bool_decide_eq_false_2 by (by intros []). done.
  - intros lb mt. unfold savemessagelabels.
    erewrite bind_Raise; [reflexivity|]. by apply update_msg_missing.
  - unfold getmessageflags. erewrite bind_Raise; [reflexivity|].
    by apply getmessage_missing.
  - unfold getmessagelabels. erewrite bind_Raise; [reflexivity|].
    by apply getmessage_missing.
  - unfold getmessagemtime. erewrite bind_Raise; [reflexivity|].
    by apply getmessage_missing.
Qed.

Lemma single_message_missing_uid_witness :
  (∀ fl, savemessageflags 1 7 fl (failing (two_messages false))
         = Raise AssertionError (failing (two_messages false)))
  ∧ (∀ lb mt, savemessagelabels 1 7 lb mt (failing (two_messages false))
              = Raise (KeyError 7) (failing (two_messages false)))
  ∧ getmessageflags 7 (failing (two_messages false))
    = Raise (KeyError 7) (failing (two_messages false))
  ∧ getmessagelabels 7 (failing (two_messages false))
    = Raise (KeyError 7) (failing (two_messages false))
  ∧ getmessagemtime 7 (failing (two_messages false))
    = Raise (KeyError 7) (failing (two_messages false)).
Proof.
  apply (single_message_missing_uid 1 7 (failing (two_messages false))).
  vm_compute; reflexivity.
Defined.
